(** * go-backend-template: handlers, token issuer and credential codec

    A shallow embedding of the request handlers of the REST backend
    (package [handlers]), of the token issuer and verifier (package [jwt]),
    of the middleware that authenticates, authorizes, limits and localizes
    a request (package [middleware]), of the route groups (package
    [routes]), of the configuration (package [config]) and of the helpers
    of package [utils], together with the two storage backends they drive
    (a relational table behind GORM, a document collection behind the
    MongoDB driver).

    Not embedded: the middleware [Logger], [Recovery], [CORS], [RequestID]
    and [Timeout] (logging, response headers and goroutines are outside
    the model of a request), the logger and the JSON helpers of package
    [utils], and the opening and closing of the database connections.

    Conventions.
    - A Go [string] is a Rocq [string] (a sequence of bytes).
    - Go's [int] and [int64] are 64-bit two's complement integers: they are
      [Z] values and every arithmetic result is passed through [wrap64].
    - A [time.Time] is a [Z] count of Unix seconds.  Everything this
      development compares a time with is a [jwt.NumericDate], which the
      JWT library truncates to whole seconds, and for whole-second bounds
      [now < exp] and [nbf <= now] hold of an instant exactly when they hold
      of its whole-second part.
    - A handler is a function from the request and the state of the
      backends to the response written with [c.JSON] (if any) and the new
      state of the backends.  Logging is not modelled.
    - The libraries the code calls are modelled by what they do on the
      values the code gives them: [encoding/json] decodes a number into a
      [float64] when the target is an [interface{}]; [gin.Context.GetString]
      returns the empty string for a value that is not a string;
      [golang-jwt] accepts a token when [nbf <= now < exp] and does not
      look at [iat]; [bcrypt] refuses a password of more than 72 bytes and
      keys its cipher with the password and its NUL terminator, read
      cyclically; GORM's [First] orders by primary key and leaves out
      soft-deleted rows, [Save] refreshes [UpdatedAt] and [Offset] is
      applied when positive; the MongoDB driver refuses a negative skip.
      What is left open (the cipher, the MAC, the token serialisation, the
      pattern matchers, the ordering of a sort clause) is a parameter, the
      class [Libraries], and the properties hold for every instance of it.
    - A backend that is configured is connected: connection failures in
      the middle of a request are not modelled, except for the health
      check, whose two ping results are inputs. *)

From Stdlib Require Import ZArith List Bool Ascii String Lia Permutation.
From stdpp Require Import base gmap strings list.
Import ListNotations.

Local Open Scope string_scope.
Local Open Scope Z_scope.

(** ** Go values *)

(** The dynamic values ([interface{}]) that reach the code: [user.ID] is a
    [uint], [userMongo.ID.Hex()] a [string], and a JSON number decoded into
    an [interface{}] is a [float64] (here: the integer it holds). *)
Inductive any : Type :=
| ANil
| AString (s : string)
| AUint (n : Z)
| AFloat64 (x : Z).

#[global] Instance any_eq_dec : EqDecision any.
Proof. solve_decision. Defined.

Definition Time : Type := Z.

(** The successive readings of [time.Now()] during one call. *)
Definition Clock : Type := nat -> Time.

Definition tick (k : nat) (clk : Clock) : Clock := fun n => clk (k + n)%nat.

Definition hour : Z := 3600.
Definition minute : Z := 60.

(** Two's complement wrap-around of a 64-bit signed integer. *)
Definition wrap64 (z : Z) : Z := (z + 2 ^ 63) mod 2 ^ 64 - 2 ^ 63.

Definition int_min : Z := - 2 ^ 63.
Definition int_max : Z := 2 ^ 63 - 1.

Definition in_int (z : Z) : bool := (int_min <=? z) && (z <=? int_max).

Module strings_.

Definition HasPrefix (s prefix : string) : bool := String.prefix prefix s.

Definition TrimPrefix (s prefix : string) : string :=
    if HasPrefix s prefix
    then String.substring (String.length prefix)
                          (String.length s - String.length prefix) s
    else s.

Definition is_upper (c : ascii) : bool :=
    let n := N_of_ascii c in (65 <=? n)%N && (n <=? 90)%N.

Definition lower_ascii (c : ascii) : ascii :=
    if is_upper c then ascii_of_N (N_of_ascii c + 32) else c.

Fixpoint ToLower (s : string) : string :=
    match s with
    | EmptyString => EmptyString
    | String c r => String (lower_ascii c) (ToLower r)
    end.

End strings_.

Module utf8.

  (** [utf8.RuneCountInString] on well-formed UTF-8: every byte that is not
      a continuation byte starts a rune. *)
Definition is_continuation (c : ascii) : bool :=
    let n := N_of_ascii c in (128 <=? n)%N && (n <? 192)%N.

Fixpoint RuneCountInString (s : string) : Z :=
    match s with
    | EmptyString => 0
    | String c r =>
        (if is_continuation c then 0 else 1) + RuneCountInString r
    end.

End utf8.

Module strconv.

Inductive NumError : Type := ErrSyntax | ErrRange.

Definition digit (c : ascii) : option Z :=
    let n := Z.of_N (N_of_ascii c) in
    if (48 <=? n) && (n <=? 57) then Some (n - 48) else None.

  (** The digit loop of [strconv.ParseUint] in base 10: a character that is
      no digit ends it with 0 and a syntax error, a value past [maxVal] ends
      it at once with [maxVal] and a range error. *)
Fixpoint parse_loop (maxVal : Z) (s : string) (n : Z) : Z * option NumError :=
    match s with
    | EmptyString => (n, None)
    | String c r =>
        match digit c with
        | None => (0, Some ErrSyntax)
        | Some d =>
            if 2 ^ 64 / 10 + 1 <=? n then (maxVal, Some ErrRange)
            else
              let n1 := n * 10 + d in
              if (2 ^ 64 <=? n1) || (maxVal <? n1) then (maxVal, Some ErrRange)
              else parse_loop maxVal r n1
        end
    end.

Definition ParseUint (s : string) (bitSize : Z) : Z * option NumError :=
    match s with
    | EmptyString => (0, Some ErrSyntax)
    | _ => parse_loop (2 ^ bitSize - 1) s 0
    end.

  (** [strconv.Atoi] on the short strings it is given here (fewer than 19
      bytes): an optional sign, then digits only. *)
Fixpoint atoi_digits (s : string) (n : Z) : option Z :=
    match s with
    | EmptyString => Some n
    | String c r =>
        match digit c with
        | None => None
        | Some d => atoi_digits r (n * 10 + d)
        end
    end.

Definition Atoi (s : string) : option Z :=
    match s with
    | EmptyString => None
    | String c r =>
        if Ascii.eqb c "-"%char then
          match r with
          | EmptyString => None
          | _ => option_map Z.opp (atoi_digits r 0)
          end
        else if Ascii.eqb c "+"%char then
          match r with
          | EmptyString => None
          | _ => atoi_digits r 0
          end
        else atoi_digits s 0
    end.

End strconv.

(** ** Package models *)

Module models.

  (** The 24-digit lower-case hexadecimal rendering of a
      [primitive.ObjectID]; [Hex] is the identity on it. *)
Definition ObjectID : Type := string.

  Module User.
Record t : Type := mk {
      ID : Z;
      Email : string;
      Username : string;
      Password : string;
      FirstName : string;
      LastName : string;
      Role : string;
      IsActive : bool;
      CreatedAt : Time;
      UpdatedAt : Time;
      DeletedAt : option Time
    }.
  End User.

  Module UserMongo.
Record t : Type := mk {
      ID : ObjectID;
      Email : string;
      Username : string;
      Password : string;
      FirstName : string;
      LastName : string;
      Role : string;
      IsActive : bool;
      CreatedAt : Time;
      UpdatedAt : Time
    }.
  End UserMongo.

  Module LoginRequest.
Record t : Type := mk { Email : string; Password : string }.
  End LoginRequest.

  Module RegisterRequest.
Record t : Type := mk {
      Email : string;
      Username : string;
      Password : string;
      FirstName : string;
      LastName : string
    }.
  End RegisterRequest.

  Module UpdateUserRequest.
Record t : Type := mk {
      FirstName : string;
      LastName : string;
      Email : string
    }.
  End UpdateUserRequest.

  Module UserInfo.
Record t : Type := mk {
      ID : any;
      Email : string;
      Username : string;
      FirstName : string;
      LastName : string;
      Role : string;
      IsActive : bool;
      CreatedAt : Time;
      UpdatedAt : Time
    }.
  End UserInfo.

  Module AuthResponse.
Record t : Type := mk {
      Token : string;
      User : UserInfo.t;
      ExpiresAt : Time
    }.
  End AuthResponse.

  Module HealthResponse.
Record t : Type := mk {
      Status : string;
      Timestamp : Time;
      Services : gmap string string;
      Version : string
    }.
  End HealthResponse.

  (** The query parameters as [ShouldBindQuery] leaves them: Go [int]s. *)
  Module PaginationQuery.
Record t : Type := mk {
      Page : Z;
      PageSize : Z;
      Sort : string;
      Search : string
    }.
  End PaginationQuery.

  Module Pagination.
Record t : Type := mk {
      Page : Z;
      PageSize : Z;
      Total : Z;
      TotalPage : Z
    }.
  End Pagination.

  Module PaginatedResponse.
Record t : Type := mk {
      Data : list UserInfo.t;
      Pagination : Pagination.t
    }.
  End PaginatedResponse.

  (** What a handler stores in [APIResponse.Data]. *)
Inductive payload : Type :=
  | DataUser (u : UserInfo.t)
  | DataAuth (a : AuthResponse.t)
  | DataPage (p : PaginatedResponse.t)
  | DataHealth (h : HealthResponse.t).

  Module APIResponse.
Record t : Type := mk {
      Success : bool;
      Message : string;
      Data : option payload;
      Error : string
    }.
  End APIResponse.

  (** The claims of a token as they travel inside it: the JSON document
      the library signs.  A Go [uint] is marshalled as a JSON number, and a
      JSON number is unmarshalled into an [interface{}] as a [float64]. *)
Inductive json : Type :=
  | JNull
  | JNumber (x : Z)
  | JString (s : string).

Definition json_Marshal (v : any) : json :=
    match v with
    | ANil => JNull
    | AString s => JString s
    | AUint n => JNumber n
    | AFloat64 x => JNumber x
    end.

Definition json_Unmarshal (j : json) : any :=
    match j with
    | JNull => ANil
    | JNumber x => AFloat64 x
    | JString s => AString s
    end.

End models.

Import models.

(** ** The libraries behind the code

    What the imported libraries compute but the repository does not define:
    the EksBlowfish digest inside [golang.org/x/crypto/bcrypt], the HMAC and
    the compact serialisation inside [github.com/golang-jwt/jwt/v5], the
    [email] rule of the request validator, and the query languages of the
    two databases.  The code is verified for every implementation of this
    interface; [Plain.libs] below is one. *)

Module jose.

  (** The claims document of a token ([jwt.Claims] after [json.Marshal]). *)
Record Payload : Type := mkPayload {
    user_id : json;
    email : string;
    username : string;
    role : string;
    exp : option Z;
    iat : option Z;
    nbf : option Z
  }.

  (** A token in its three parts: header, payload, signature. *)
Record Token : Type := mkToken {
    alg : string;
    payload : Payload;
    signature : string
  }.

End jose.

Class Libraries : Type := {
  (** [bcrypt]: whether an encoded salt decodes, and the encoded digest
      (31 characters) of a 72-byte key stream under a salt and a cost. *)
  salt_decodes : string -> bool;
  eks_blowfish : Z -> string -> string -> string;
  eks_blowfish_length :
    forall cost salt key, String.length (eks_blowfish cost salt key) = 31%nat;
  (** [jwt]: the signature of a payload under an HMAC algorithm and a key. *)
  hmac : string -> string -> jose.Payload -> string;
  (** [jwt]: the compact serialisation of a token, and its parser. *)
  compact : jose.Token -> string;
  parse_compact : string -> option jose.Token;
  parse_compact_compact : forall t, parse_compact (compact t) = Some t;
  (** [validator]: the [email] tag. *)
  is_email : string -> bool;
  (** PostgreSQL: [text ILIKE pattern]. *)
  ilike : string -> string -> bool;
  (** MongoDB: [$regex] with option [i]; [None] for a pattern that does not
      compile. *)
  regex_i : string -> option (string -> bool);
  (** PostgreSQL: [ORDER BY clause] over the selected rows; [None] when the
      clause is no valid SQL for the table. *)
  order_by : string -> list User.t -> option (list User.t);
  order_by_Permutation :
    forall clause rows rows',
      order_by clause rows = Some rows' -> Permutation rows rows'
}.

(** ** golang.org/x/crypto/bcrypt, as far as the code relies on it *)

Module bcrypt.

Inductive error : Type :=
  | ErrMismatchedHashAndPassword
  | ErrHashTooShort
  | ErrPasswordTooLong
  | InvalidHashPrefixError
  | HashVersionTooNewError
  | InvalidCostError
  | ErrCostSyntax
  | ErrSalt
  | ErrRandom.

Definition MinCost : Z := 4.
Definition MaxCost : Z := 31.
Definition DefaultCost : Z := 10.
Definition encodedSaltSize : nat := 22.
Definition minHashSize : nat := 59.

  (** The 16 random bytes of a salt in their 22-character encoding. *)
Record Salt : Type := mkSalt {
    salt_chars : string;
    salt_size : String.length salt_chars = encodedSaltSize
  }.

Record hashed : Type := mkHashed {
    hash : string;
    salt : string;
    cost : Z;
    major : ascii;
    minor : option ascii
  }.

  (** The key the cipher is set up with is the password and a trailing NUL
      byte, read cyclically: [blowfish.ExpandKey] consumes 18 words of four
      bytes and starts over at the end of the key. *)
Fixpoint key_stream_from (n : nat) (key cur : string) : string :=
    match n with
    | O => EmptyString
    | S n' =>
        match cur with
        | String c rest => String c (key_stream_from n' key rest)
        | EmptyString =>
            match key with
            | String c rest => String c (key_stream_from n' key rest)
            | EmptyString => EmptyString
            end
        end
    end.

Definition key_stream (password : string) : string :=
    let ckey := password ++ String zero EmptyString in
    key_stream_from 72 ckey ckey.

Definition digit_char (d : Z) : ascii := ascii_of_N (Z.to_N (48 + d)).

  (** [fmt.Sprintf("%02d", cost)] for a cost of at most two digits. *)
Definition fmt02 (c : Z) : string :=
    String (digit_char (c / 10)) (String (digit_char (c mod 10)) EmptyString).

  (** The method [Hash] of [hashed]. *)
Definition Hash (p : hashed) : string :=
    String "$" (String (major p)
      (match minor p with
       | Some m => String m EmptyString
       | None => EmptyString
       end ++ "$" ++ fmt02 (cost p) ++ "$" ++ salt p ++ hash p)).

Definition checkCost (c : Z) : bool := (MinCost <=? c) && (c <=? MaxCost).

  Section WithLibraries.
    Context `{Libraries}.

Definition bcrypt (password : string) (cost : Z) (salt : string)
      : error + string :=
      if salt_decodes salt
      then inr (eks_blowfish cost salt (key_stream password))
      else inl ErrSalt.

Definition newFromPassword (password : string) (cost : Z) (rand : option Salt)
      : error + hashed :=
      let cost := if cost <? MinCost then DefaultCost else cost in
      if negb (checkCost cost) then inl InvalidCostError
      else
        match rand with
        | None => inl ErrRandom
        | Some s =>
            match bcrypt password cost (salt_chars s) with
            | inl e => inl e
            | inr h =>
                inr (mkHashed h (salt_chars s) cost "2"%char (Some "a"%char))
            end
        end.

Definition GenerateFromPassword (password : string) (cost : Z)
        (rand : option Salt) : error + string :=
      if (72 <? String.length password)%nat then inl ErrPasswordTooLong
      else
        match newFromPassword password cost rand with
        | inl e => inl e
        | inr p => inr (Hash p)
        end.

Definition newFromHash (hashedSecret : string) : error + hashed :=
      if (String.length hashedSecret <? minHashSize)%nat then inl ErrHashTooShort
      else
        match String.get 0 hashedSecret, String.get 1 hashedSecret,
              String.get 2 hashedSecret with
        | Some c0, Some c1, Some c2 =>
            if negb (Ascii.eqb c0 "$") then inl InvalidHashPrefixError
            else if (N_of_ascii "2" <? N_of_ascii c1)%N then inl HashVersionTooNewError
            else
              let '(n, mi) :=
                if Ascii.eqb c2 "$" then (3%nat, None) else (4%nat, Some c2) in
              match strconv.Atoi (String.substring n 2 hashedSecret) with
              | None => inl ErrCostSyntax
              | Some c =>
                  if negb (checkCost c) then inl InvalidCostError
                  else
                    let rest :=
                      String.substring (n + 3)
                        (String.length hashedSecret - (n + 3)) hashedSecret in
                    inr (mkHashed
                           (String.substring encodedSaltSize
                              (String.length rest - encodedSaltSize) rest)
                           (String.substring 0 encodedSaltSize rest)
                           c c1 mi)
              end
        | _, _, _ => inl ErrHashTooShort
        end.

    (** [nil] is [None]. The two renderings [p.Hash()] and [otherP.Hash()]
        share everything but the digest, so comparing them compares the
        digests. *)
Definition CompareHashAndPassword (hashedPassword password : string)
      : option error :=
      match newFromHash hashedPassword with
      | inl e => Some e
      | inr p =>
          match bcrypt password (cost p) (salt p) with
          | inl e => Some e
          | inr otherHash =>
              if String.eqb (Hash p)
                   (Hash (mkHashed otherHash (salt p) (cost p) (major p) (minor p)))
              then None
              else Some ErrMismatchedHashAndPassword
          end
      end.

  End WithLibraries.

End bcrypt.

(** ** Package utils *)

Module utils.

  (** *** Localizer *)

Record Localizer : Type := mkLocalizer {
    DefaultLanguage : string;
    translations : gmap string (gmap string string)
  }.

Definition english : gmap string string :=
    list_to_map [
      ("welcome", "Welcome");
      ("user_not_found", "User not found");
      ("invalid_credentials", "Invalid credentials");
      ("user_created", "User created successfully");
      ("login_successful", "Login successful");
      ("logout_successful", "Logout successful");
      ("user_updated", "User updated successfully");
      ("user_deleted", "User deleted successfully");
      ("email_exists", "Email already exists");
      ("username_exists", "Username already exists");
      ("validation_error", "Validation error");
      ("internal_error", "Internal server error");
      ("unauthorized", "Unauthorized access");
      ("forbidden", "Access forbidden");
      ("not_found", "Resource not found");
      ("bad_request", "Bad request")
    ].

Definition arabic : gmap string string :=
    list_to_map [
      ("welcome", "أهلا وسهلا");
      ("user_not_found", "المستخدم غير موجود");
      ("invalid_credentials", "بيانات الاعتماد غير صحيحة");
      ("user_created", "تم إنشاء المستخدم بنجاح");
      ("login_successful", "تم تسجيل الدخول بنجاح");
      ("logout_successful", "تم تسجيل الخروج بنجاح");
      ("user_updated", "تم تحديث المستخدم بنجاح");
      ("user_deleted", "تم حذف المستخدم بنجاح");
      ("email_exists", "البريد الإلكتروني موجود بالفعل");
      ("username_exists", "اسم المستخدم موجود بالفعل");
      ("validation_error", "خطأ في التحقق");
      ("internal_error", "خطأ في الخادم الداخلي");
      ("unauthorized", "الوصول غير مصرح");
      ("forbidden", "الوصول محظور");
      ("not_found", "المورد غير موجود");
      ("bad_request", "طلب خاطئ")
    ].

Definition german : gmap string string :=
    list_to_map [
      ("welcome", "Willkommen");
      ("user_not_found", "Benutzer nicht gefunden");
      ("invalid_credentials", "Ungültige Anmeldedaten");
      ("user_created", "Benutzer erfolgreich erstellt");
      ("login_successful", "Anmeldung erfolgreich");
      ("logout_successful", "Abmeldung erfolgreich");
      ("user_updated", "Benutzer erfolgreich aktualisiert");
      ("user_deleted", "Benutzer erfolgreich gelöscht");
      ("email_exists", "E-Mail bereits vorhanden");
      ("username_exists", "Benutzername bereits vorhanden");
      ("validation_error", "Validierungsfehler");
      ("internal_error", "Interner Serverfehler");
      ("unauthorized", "Nicht autorisierter Zugriff");
      ("forbidden", "Zugriff verboten");
      ("not_found", "Ressource nicht gefunden");
      ("bad_request", "Fehlerhafte Anfrage")
    ].

Definition loadTranslations (l : Localizer) : Localizer :=
    mkLocalizer (DefaultLanguage l)
      (<["de" := german]> (<["ar" := arabic]> (<["en" := english]> (translations l)))).

Definition NewLocalizer (defaultLang : string) : Localizer :=
    loadTranslations (mkLocalizer defaultLang ∅).

Definition Get (l : Localizer) (lang key : string) : string :=
    match translations l !! lang ≫= (fun t => t !! key) with
    | Some text => text
    | None =>
        match translations l !! DefaultLanguage l ≫= (fun t => t !! key) with
        | Some text => text
        | None => key
        end
    end.

  (** *** PasswordUtils *)

  Section WithLibraries.
    Context `{Libraries}.

Definition HashPassword (password : string) (rand : option bcrypt.Salt)
      : bcrypt.error + string :=
      match bcrypt.GenerateFromPassword password bcrypt.DefaultCost rand with
      | inl err => inl err
      | inr hashedPassword => inr hashedPassword
      end.

Definition VerifyPassword (hashedPassword password : string)
      : option bcrypt.error :=
      bcrypt.CompareHashAndPassword hashedPassword password.

  End WithLibraries.

  (** *** ResponseUtils *)

Definition SuccessResponse (message : string) (data : payload) : APIResponse.t :=
    APIResponse.mk true message (Some data) "".

Definition ErrorResponse (message error : string) : APIResponse.t :=
    APIResponse.mk false message None error.

Definition PaginatedResponse (data : list UserInfo.t)
      (pagination : Pagination.t) : PaginatedResponse.t :=
    PaginatedResponse.mk data pagination.

End utils.

(** ** Package config *)

Module config.

Definition getEnv (env : gmap string string) (key defaultValue : string) : string :=
    match env !! key with
    | Some value => if String.eqb value "" then defaultValue else value
    | None => defaultValue
    end.

  (** The fields of [Config] the modelled code reads. *)
Record Config : Type := mkConfig {
    DefaultLanguage : string;
    JWTSecret : string
  }.

Definition Load (env : gmap string string) : Config :=
    mkConfig
      (getEnv env "DEFAULT_LANGUAGE" "en")
      (getEnv env "JWT_SECRET" "your-secret-key-change-this-in-production").

End config.

(** ** Package jwt *)

Module jwt.

Record Claims : Type := mkClaims {
    UserID : any;
    Email : string;
    Username : string;
    Role : string;
    ExpiresAt : option Time;
    IssuedAt : option Time;
    NotBefore : option Time
  }.

Inductive error : Type :=
  | ErrTokenMalformed
  | ErrTokenUnverifiable
  | ErrTokenSignatureInvalid
  | ErrTokenExpired
  | ErrTokenNotValidYet
  | ErrSignatureInvalid.

Definition marshal (c : Claims) : jose.Payload :=
    jose.mkPayload (json_Marshal (UserID c)) (Email c) (Username c) (Role c)
                   (ExpiresAt c) (IssuedAt c) (NotBefore c).

Definition unmarshal (p : jose.Payload) : Claims :=
    mkClaims (json_Unmarshal (jose.user_id p)) (jose.email p) (jose.username p)
             (jose.role p) (jose.exp p) (jose.iat p) (jose.nbf p).

  (** The algorithms that verify against the [[]byte] key the key function
      returns. *)
Definition is_hmac (alg : string) : bool :=
    String.eqb alg "HS256" || String.eqb alg "HS384" || String.eqb alg "HS512".

  (** The library's validator: [exp] and [nbf] are checked when present
      ([now] must be before [exp] and not before [nbf]); [iat] is not. *)
Definition expired (c : Claims) (now : Time) : bool :=
    match ExpiresAt c with
    | Some e => negb (now <? e)
    | None => false
    end.

Definition not_valid_yet (c : Claims) (now : Time) : bool :=
    match NotBefore c with
    | Some n => now <? n
    | None => false
    end.

Definition validate (c : Claims) (now : Time) : option error :=
    if expired c now then Some ErrTokenExpired
    else if not_valid_yet c now then Some ErrTokenNotValidYet
    else None.

  Section WithLibraries.
    Context `{Libraries}.

    (** [token.SignedString] with [SigningMethodHS256]. *)
Definition SignedString (claims : Claims) (key : string) : string :=
      let p := marshal claims in
      compact (jose.mkToken "HS256" p (hmac "HS256" key p)).

Definition GenerateToken (secret : string) (userID : any)
        (email username role : string) (clk : Clock)
      : error + (string * Time) :=
      let expirationTime := clk 0%nat + 24 * hour in
      let claims :=
        mkClaims userID email username role
                 (Some expirationTime) (Some (clk 1%nat)) (Some (clk 2%nat)) in
      let tokenString := SignedString claims secret in
      inr (tokenString, expirationTime).

    (** [jwt.ParseWithClaims]: parse, verify the signature with the key the
        key function returns, then validate the claims at the current
        time. *)
Definition ParseWithClaims (tokenString key : string) (now : Time)
      : error + Claims :=
      match parse_compact tokenString with
      | None => inl ErrTokenMalformed
      | Some t =>
          if negb (is_hmac (jose.alg t)) then inl ErrTokenUnverifiable
          else if negb (String.eqb (jose.signature t)
                          (hmac (jose.alg t) key (jose.payload t)))
          then inl ErrTokenSignatureInvalid
          else
            let claims := unmarshal (jose.payload t) in
            match validate claims now with
            | Some e => inl e
            | None => inr claims
            end
      end.

Definition ValidateToken (secret tokenString : string) (now : Time)
      : error + Claims :=
      match ParseWithClaims tokenString secret now with
      | inl err => inl err
      | inr claims => inr claims
      end.

  End WithLibraries.

End jwt.

(** ** gin.Context, as far as the code uses it *)

Module gin.

Record Context : Type := mkContext {
    Authorization : string;
    Keys : gmap string any
  }.

Definition GetHeader_Authorization (c : Context) : string := Authorization c.

Definition Set_ (key : string) (value : any) (c : Context) : Context :=
    mkContext (Authorization c) (<[key := value]> (Keys c)).

Definition Get (key : string) (c : Context) : option any := Keys c !! key.

  (** [GetString]: the value under [key] when it is a [string], the empty
      string otherwise. *)
Definition GetString (key : string) (c : Context) : string :=
    match Get key c with
    | Some (AString s) => s
    | _ => ""
    end.

End gin.

Definition Response : Type := Z * APIResponse.t.

Module http.
Definition StatusOK : Z := 200.
Definition StatusCreated : Z := 201.
Definition StatusBadRequest : Z := 400.
Definition StatusUnauthorized : Z := 401.
Definition StatusNotFound : Z := 404.
Definition StatusConflict : Z := 409.
Definition StatusInternalServerError : Z := 500.
Definition StatusServiceUnavailable : Z := 503.
End http.

(** ** Package middleware *)

Module middleware.

Inductive outcome : Type :=
  | Abort (r : Response)
  | Next (c : gin.Context).

  Section WithLibraries.
    Context `{Libraries}.

Definition JWTAuth (env : gmap string string) (now : Time) (c : gin.Context)
      : outcome :=
      let authHeader := gin.GetHeader_Authorization c in
      if String.eqb authHeader "" then
        Abort (http.StatusUnauthorized,
               APIResponse.mk false "Authorization header required" None
                              "No authorization header provided")
      else
        let tokenString := strings_.TrimPrefix authHeader "Bearer " in
        if String.eqb tokenString authHeader then
          Abort (http.StatusUnauthorized,
                 APIResponse.mk false "Invalid authorization header format" None
                                "Authorization header must start with 'Bearer '")
        else
          let cfg := config.Load env in
          match jwt.ValidateToken (config.JWTSecret cfg) tokenString now with
          | inl _ =>
              Abort (http.StatusUnauthorized,
                     APIResponse.mk false "Invalid or expired token" None
                                    "Authentication failed")
          | inr claims =>
              Next (gin.Set_ "user_role" (AString (jwt.Role claims))
                     (gin.Set_ "user_username" (AString (jwt.Username claims))
                       (gin.Set_ "user_email" (AString (jwt.Email claims))
                         (gin.Set_ "user_id" (jwt.UserID claims) c))))
          end.

  End WithLibraries.

End middleware.

(** ** Package database: the two backends

    A backend reference of a handler is [None] for a nil pointer and the
    current contents of the database otherwise.  Queries are the ones the
    handlers build; the databases answer them as PostgreSQL (through GORM)
    and MongoDB do.  [unique_indexes] tells whether the unique indexes on
    [email] and [username] (the [uniqueIndex] tags of [models.User], the
    index script of the document store) have been created in the
    database. *)

Module database.

Inductive field : Type := first_name | last_name | email | username.

  (** *** PostgreSQL through GORM *)

  Module PostgresDB.
Record t : Type := mk {
      rows : list User.t;
      next_id : Z;
      unique_indexes : bool
    }.
  End PostgresDB.

  Module gorm.

Inductive error : Type :=
    | ErrRecordNotFound
    | ErrDuplicatedKey
    | ErrInvalidQuery.

    (** The conditions the handlers pass to [Where] and [First]. *)
Inductive cond : Type :=
    | PrimaryKey (id : Z)
    | Eq (f : field) (v : string)
    | ILike (f : field) (pattern : string)
    | Or (a b : cond).

Definition column (f : field) (u : User.t) : string :=
      match f with
      | first_name => User.FirstName u
      | last_name => User.LastName u
      | email => User.Email u
      | username => User.Username u
      end.

    (** Soft delete: every query on [models.User] adds
        [deleted_at IS NULL]. *)
Definition live (u : User.t) : bool :=
      match User.DeletedAt u with
      | None => true
      | Some _ => false
      end.

    (** [ORDER BY id LIMIT 1]. *)
Fixpoint lowest (l : list User.t) : option User.t :=
      match l with
      | [] => None
      | u :: r =>
          match lowest r with
          | None => Some u
          | Some v => if User.ID u <=? User.ID v then Some u else Some v
          end
      end.

Definition set_ID (id : Z) (u : User.t) : User.t :=
      User.mk id (User.Email u) (User.Username u) (User.Password u)
              (User.FirstName u) (User.LastName u) (User.Role u)
              (User.IsActive u) (User.CreatedAt u) (User.UpdatedAt u)
              (User.DeletedAt u).

Definition set_UpdatedAt (now : Time) (u : User.t) : User.t :=
      User.mk (User.ID u) (User.Email u) (User.Username u) (User.Password u)
              (User.FirstName u) (User.LastName u) (User.Role u)
              (User.IsActive u) (User.CreatedAt u) now (User.DeletedAt u).

    (** A unique index counts every row, soft-deleted ones too. *)
Definition clashes (u r : User.t) : bool :=
      negb (User.ID r =? User.ID u)
      && (String.eqb (User.Email r) (User.Email u)
          || String.eqb (User.Username r) (User.Username u)).

    Section WithLibraries.
      Context `{Libraries}.

Fixpoint holds (c : cond) (u : User.t) : bool :=
        match c with
        | PrimaryKey id => User.ID u =? id
        | Eq f v => String.eqb (column f u) v
        | ILike f p => ilike p (column f u)
        | Or a b => holds a u || holds b u
        end.

Definition select (conds : list cond) (db : PostgresDB.t) : list User.t :=
        List.filter (fun u => live u && forallb (fun c => holds c u) conds)
                    (PostgresDB.rows db).

Definition First (conds : list cond) (db : PostgresDB.t)
        : error + User.t :=
        match lowest (select conds db) with
        | Some u => inr u
        | None => inl ErrRecordNotFound
        end.

      (** [Create] of a value whose [ID] is zero: the key comes from the
          table's sequence. *)
Definition Create (user : User.t) (db : PostgresDB.t)
        : error + (User.t * PostgresDB.t) :=
        let id := if User.ID user =? 0 then PostgresDB.next_id db else User.ID user in
        let user := set_ID id user in
        if existsb (fun r => User.ID r =? id) (PostgresDB.rows db)
        then inl ErrDuplicatedKey
        else if PostgresDB.unique_indexes db
                && existsb (clashes user) (PostgresDB.rows db)
        then inl ErrDuplicatedKey
        else
          inr (user,
               PostgresDB.mk (PostgresDB.rows db ++ [user])
                             (PostgresDB.next_id db + 1)
                             (PostgresDB.unique_indexes db)).

      (** [Save] of a value whose [ID] is set: an update of all columns of
          that row, with [updated_at] set to the current time. *)
Definition Save (user : User.t) (now : Time) (db : PostgresDB.t)
        : error + (User.t * PostgresDB.t) :=
        let user := set_UpdatedAt now user in
        if PostgresDB.unique_indexes db
           && existsb (clashes user) (PostgresDB.rows db)
        then inl ErrDuplicatedKey
        else
          inr (user,
               PostgresDB.mk
                 (List.map (fun r => if live r && (User.ID r =? User.ID user)
                                     then user else r)
                           (PostgresDB.rows db))
                 (PostgresDB.next_id db)
                 (PostgresDB.unique_indexes db)).

Definition Count (conds : list cond) (db : PostgresDB.t) : Z :=
        wrap64 (Z.of_nat (List.length (select conds db))).

      (** [Offset(offset).Limit(limit).Order(order).Find]: an offset that
          is not positive adds no [OFFSET], a negative limit no [LIMIT]. *)
Definition Find (conds : list cond) (offset limit : Z) (order : string)
          (db : PostgresDB.t) : error + list User.t :=
        match order_by order (select conds db) with
        | None => inl ErrInvalidQuery
        | Some sorted =>
            let skipped :=
              if 0 <? offset then List.skipn (Z.to_nat offset) sorted else sorted in
            inr (if 0 <=? limit then List.firstn (Z.to_nat limit) skipped
                 else skipped)
        end.

    End WithLibraries.

  End gorm.

  (** *** MongoDB through the Go driver *)

  Module MongoDB.
Record t : Type := mk {
      docs : list UserMongo.t;
      unique_indexes : bool
    }.
  End MongoDB.

  Module bson.

Inductive value : Type :=
    | VString (s : string)
    | VTime (t : Time).

    (** The filter documents the handlers build. *)
Inductive M : Type :=
    | All
    | Id (oid : ObjectID)
    | Is (f : field) (v : string)
    | Regex (f : field) (pattern : string)
    | Or_ (a b : M).

  End bson.

  Module mongo.

Inductive error : Type :=
    | ErrNoDocuments
    | ErrDuplicateKey
    | ErrBadValue.

Definition key (f : field) (u : UserMongo.t) : string :=
      match f with
      | first_name => UserMongo.FirstName u
      | last_name => UserMongo.LastName u
      | email => UserMongo.Email u
      | username => UserMongo.Username u
      end.

Definition set_ID (oid : ObjectID) (u : UserMongo.t) : UserMongo.t :=
      UserMongo.mk oid (UserMongo.Email u) (UserMongo.Username u)
                   (UserMongo.Password u) (UserMongo.FirstName u)
                   (UserMongo.LastName u) (UserMongo.Role u)
                   (UserMongo.IsActive u) (UserMongo.CreatedAt u)
                   (UserMongo.UpdatedAt u).

Definition string_of (v : option bson.value) (old : string) : string :=
      match v with
      | Some (bson.VString s) => s
      | _ => old
      end.

Definition time_of (v : option bson.value) (old : Time) : Time :=
      match v with
      | Some (bson.VTime t) => t
      | _ => old
      end.

    (** [$set]: every key of the document overwrites that field. *)
Definition apply_set (set : gmap string bson.value) (u : UserMongo.t)
      : UserMongo.t :=
      UserMongo.mk (UserMongo.ID u)
                   (string_of (set !! "email") (UserMongo.Email u))
                   (string_of (set !! "username") (UserMongo.Username u))
                   (string_of (set !! "password") (UserMongo.Password u))
                   (string_of (set !! "first_name") (UserMongo.FirstName u))
                   (string_of (set !! "last_name") (UserMongo.LastName u))
                   (string_of (set !! "role") (UserMongo.Role u))
                   (UserMongo.IsActive u)
                   (time_of (set !! "created_at") (UserMongo.CreatedAt u))
                   (time_of (set !! "updated_at") (UserMongo.UpdatedAt u)).

Definition clashes (u r : UserMongo.t) : bool :=
      negb (String.eqb (UserMongo.ID r) (UserMongo.ID u))
      && (String.eqb (UserMongo.Email r) (UserMongo.Email u)
          || String.eqb (UserMongo.Username r) (UserMongo.Username u)).

    Section WithLibraries.
      Context `{Libraries}.

      (** A filter is checked before it is run: it compiles or the command
          fails. *)
Fixpoint compiles (f : bson.M) : bool :=
        match f with
        | bson.Regex _ p =>
            match regex_i p with
            | Some _ => true
            | None => false
            end
        | bson.Or_ a b => compiles a && compiles b
        | _ => true
        end.

Fixpoint selects (f : bson.M) (u : UserMongo.t) : bool :=
        match f with
        | bson.All => true
        | bson.Id oid => String.eqb (UserMongo.ID u) oid
        | bson.Is fld v => String.eqb (key fld u) v
        | bson.Regex fld p =>
            match regex_i p with
            | Some re => re (key fld u)
            | None => false
            end
        | bson.Or_ a b => selects a u || selects b u
        end.

Definition FindOne (f : bson.M) (db : MongoDB.t) : error + UserMongo.t :=
        if negb (compiles f) then inl ErrBadValue
        else
          match List.find (selects f) (MongoDB.docs db) with
          | Some u => inr u
          | None => inl ErrNoDocuments
          end.

      (** [InsertOne] of a document without [_id]: the driver adds the
          fresh identifier [oid]. *)
Definition InsertOne (doc : UserMongo.t) (oid : ObjectID) (db : MongoDB.t)
        : error + (ObjectID * MongoDB.t) :=
        let doc := set_ID oid doc in
        if existsb (fun r => String.eqb (UserMongo.ID r) oid) (MongoDB.docs db)
        then inl ErrDuplicateKey
        else if MongoDB.unique_indexes db
                && existsb (clashes doc) (MongoDB.docs db)
        then inl ErrDuplicateKey
        else inr (oid, MongoDB.mk (MongoDB.docs db ++ [doc])
                                  (MongoDB.unique_indexes db)).

Fixpoint update_first (p : UserMongo.t -> bool)
          (g : UserMongo.t -> UserMongo.t) (l : list UserMongo.t)
        : list UserMongo.t :=
        match l with
        | [] => []
        | u :: r => if p u then g u :: r else u :: update_first p g r
        end.

      (** [UpdateOne]: the first matching document is updated; no match is
          no error. *)
Definition UpdateOne (f : bson.M) (set : gmap string bson.value)
          (db : MongoDB.t) : error + MongoDB.t :=
        if negb (compiles f) then inl ErrBadValue
        else
          match List.find (selects f) (MongoDB.docs db) with
          | None => inr db
          | Some u =>
              if MongoDB.unique_indexes db
                 && existsb (clashes (apply_set set u)) (MongoDB.docs db)
              then inl ErrDuplicateKey
              else inr (MongoDB.mk
                          (update_first (selects f) (apply_set set) (MongoDB.docs db))
                          (MongoDB.unique_indexes db))
          end.

Definition CountDocuments (f : bson.M) (db : MongoDB.t) : error + Z :=
        if negb (compiles f) then inl ErrBadValue
        else inr (wrap64 (Z.of_nat (List.length
                                      (List.filter (selects f) (MongoDB.docs db))))).

      (** [Find] with [SetSkip] and [SetLimit]: a negative skip is refused
          by the server, a limit of zero is no limit. *)
Definition Find (f : bson.M) (skip limit : Z) (db : MongoDB.t)
        : error + list UserMongo.t :=
        if negb (compiles f) then inl ErrBadValue
        else if skip <? 0 then inl ErrBadValue
        else
          let skipped :=
            List.skipn (Z.to_nat skip) (List.filter (selects f) (MongoDB.docs db)) in
          inr (if limit =? 0 then skipped
               else List.firstn (Z.to_nat (Z.abs limit)) skipped).

    End WithLibraries.

  End mongo.

End database.

(** ** primitive.ObjectID *)

Module primitive.

Definition is_hex (c : ascii) : bool :=
    let n := N_of_ascii c in
    ((48 <=? n) && (n <=? 57) || (97 <=? n) && (n <=? 102)
     || (65 <=? n) && (n <=? 70))%N.

Fixpoint all_hex (s : string) : bool :=
    match s with
    | EmptyString => true
    | String c r => is_hex c && all_hex r
    end.

  (** [ObjectIDFromHex]: 24 hexadecimal digits of either case. *)
Definition ObjectIDFromHex (s : string) : option ObjectID :=
    if (String.length s =? 24)%nat && all_hex s
    then Some (strings_.ToLower s)
    else None.

Definition Hex (oid : ObjectID) : string := oid.

End primitive.

(** ** Request binding ([ShouldBindJSON], [ShouldBindQuery]) and the
    [binding] tags of package models *)

Module binding.

  (** A request body or query string: one the decoder refuses, or the
      struct it fills. *)
Inductive input (A : Type) : Type :=
  | Malformed (err : string)
  | Decoded (a : A).

  Arguments Malformed {A} err.
  Arguments Decoded {A} a.

Definition newline : string := String (ascii_of_nat 10) EmptyString.

Definition FieldError (structName fieldName tag : string) : string :=
    "Key: '" ++ structName ++ "." ++ fieldName
      ++ "' Error:Field validation for '" ++ fieldName
      ++ "' failed on the '" ++ tag ++ "' tag".

Definition required (v : string) : bool := negb (String.eqb v "").

Definition min_runes (n : Z) (v : string) : bool :=
    n <=? utf8.RuneCountInString v.

  (** The first tag of a field that fails, if any. *)
Fixpoint failing (tags : list (string * bool)) : option string :=
    match tags with
    | [] => None
    | (tag, ok) :: r => if ok then failing r else Some tag
    end.

Fixpoint errors (structName : string)
      (fields : list (string * list (string * bool))) : list string :=
    match fields with
    | [] => []
    | (name, tags) :: r =>
        match failing tags with
        | Some tag => FieldError structName name tag :: errors structName r
        | None => errors structName r
        end
    end.

Definition result {A : Type} (a : A) (es : list string) : string + A :=
    match es with
    | [] => inr a
    | _ => inl (String.concat newline es)
    end.

  Section WithLibraries.
    Context `{Libraries}.

Definition RegisterRequest_errors (r : RegisterRequest.t) : list string :=
      errors "RegisterRequest"
        [ ("Email", [ ("required", required (RegisterRequest.Email r));
                      ("email", is_email (RegisterRequest.Email r)) ]);
          ("Username", [ ("required", required (RegisterRequest.Username r));
                         ("min", min_runes 3 (RegisterRequest.Username r)) ]);
          ("Password", [ ("required", required (RegisterRequest.Password r));
                         ("min", min_runes 6 (RegisterRequest.Password r)) ]);
          ("FirstName", [ ("required", required (RegisterRequest.FirstName r)) ]);
          ("LastName", [ ("required", required (RegisterRequest.LastName r)) ]) ].

Definition LoginRequest_errors (r : LoginRequest.t) : list string :=
      errors "LoginRequest"
        [ ("Email", [ ("required", required (LoginRequest.Email r));
                      ("email", is_email (LoginRequest.Email r)) ]);
          ("Password", [ ("required", required (LoginRequest.Password r));
                         ("min", min_runes 6 (LoginRequest.Password r)) ]) ].

Definition UpdateUserRequest_errors (r : UpdateUserRequest.t) : list string :=
      errors "UpdateUserRequest"
        [ ("Email", [ ("email", String.eqb (UpdateUserRequest.Email r) ""
                                || is_email (UpdateUserRequest.Email r)) ]) ].

Definition ShouldBindJSON_RegisterRequest (b : input RegisterRequest.t)
      : string + RegisterRequest.t :=
      match b with
      | Malformed err => inl err
      | Decoded r => result r (RegisterRequest_errors r)
      end.

Definition ShouldBindJSON_LoginRequest (b : input LoginRequest.t)
      : string + LoginRequest.t :=
      match b with
      | Malformed err => inl err
      | Decoded r => result r (LoginRequest_errors r)
      end.

Definition ShouldBindJSON_UpdateUserRequest (b : input UpdateUserRequest.t)
      : string + UpdateUserRequest.t :=
      match b with
      | Malformed err => inl err
      | Decoded r => result r (UpdateUserRequest_errors r)
      end.

  End WithLibraries.

  (** The query string of [GET /users]: [page] and [page_size] are absent
      or hold an integer. *)
Record Query : Type := mkQuery {
    page : option Z;
    page_size : option Z;
    sort : string;
    search : string
  }.

Definition form_int (v : option Z) (default : Z) : Z :=
    match v with
    | Some z => z
    | None => default
    end.

Definition PaginationQuery_errors (q : PaginationQuery.t) : list string :=
    errors "PaginationQuery"
      [ ("Page", [ ("min", 1 <=? PaginationQuery.Page q) ]);
        ("PageSize", [ ("min", 1 <=? PaginationQuery.PageSize q);
                       ("max", PaginationQuery.PageSize q <=? 100) ]) ].

  (** [ShouldBindQuery]: the defaults of the [form] tags, the range of a Go
      [int], then the [binding] tags. *)
Definition ShouldBindQuery (b : input Query) : string + PaginationQuery.t :=
    match b with
    | Malformed err => inl err
    | Decoded q =>
        let p := form_int (page q) 1 in
        let s := form_int (page_size q) 10 in
        if negb (in_int p && in_int s) then inl "strconv.ParseInt: value out of range"
        else
          let query := PaginationQuery.mk p s (sort q) (search q) in
          result query (PaginationQuery_errors query)
    end.

End binding.

(** ** Package handlers *)

Module handlers.

  Import utils database.

  (** [AuthHandler], [UserHandler] and [HealthHandler] hold the same
      references: the two backends (nil or a database), the localizer and,
      for [AuthHandler], the signing secret. *)
Record Handler : Type := mkHandler {
    mongoDB : option MongoDB.t;
    postgresDB : option PostgresDB.t;
    localizer : Localizer;
    jwtUtils_Secret : string
  }.

Definition with_postgresDB (db : PostgresDB.t) (h : Handler) : Handler :=
    mkHandler (mongoDB h) (Some db) (localizer h) (jwtUtils_Secret h).

Definition with_mongoDB (db : MongoDB.t) (h : Handler) : Handler :=
    mkHandler (Some db) (postgresDB h) (localizer h) (jwtUtils_Secret h).

  (** What one request draws from outside: the clock, the random salt of
      the password hash ([None]: the random source fails) and the
      identifier the driver generates for a new document. *)
Record Env : Type := mkEnv {
    now : Clock;
    rand : option bcrypt.Salt;
    new_oid : ObjectID
  }.

  (** The response written with [c.JSON] ([None]: the handler returns
      without writing one) and the handler with its backends afterwards. *)
Definition Result : Type := option Response * Handler.

Definition UserInfo_of_User (user : User.t) : UserInfo.t :=
    UserInfo.mk (AUint (User.ID user)) (User.Email user) (User.Username user)
                (User.FirstName user) (User.LastName user) (User.Role user)
                (User.IsActive user) (User.CreatedAt user) (User.UpdatedAt user).

Definition UserInfo_of_UserMongo (user : UserMongo.t) : UserInfo.t :=
    UserInfo.mk (AString (primitive.Hex (UserMongo.ID user)))
                (UserMongo.Email user) (UserMongo.Username user)
                (UserMongo.FirstName user) (UserMongo.LastName user)
                (UserMongo.Role user) (UserMongo.IsActive user)
                (UserMongo.CreatedAt user) (UserMongo.UpdatedAt user).

Definition set_FirstName (v : string) (u : User.t) : User.t :=
    User.mk (User.ID u) (User.Email u) (User.Username u) (User.Password u)
            v (User.LastName u) (User.Role u) (User.IsActive u)
            (User.CreatedAt u) (User.UpdatedAt u) (User.DeletedAt u).

Definition set_LastName (v : string) (u : User.t) : User.t :=
    User.mk (User.ID u) (User.Email u) (User.Username u) (User.Password u)
            (User.FirstName u) v (User.Role u) (User.IsActive u)
            (User.CreatedAt u) (User.UpdatedAt u) (User.DeletedAt u).

Definition set_Email (v : string) (u : User.t) : User.t :=
    User.mk (User.ID u) v (User.Username u) (User.Password u)
            (User.FirstName u) (User.LastName u) (User.Role u) (User.IsActive u)
            (User.CreatedAt u) (User.UpdatedAt u) (User.DeletedAt u).

Definition nonempty (s : string) : bool := negb (String.eqb s "").

  Section WithLibraries.
    Context `{Libraries}.

    (** *** Register *)

Definition Register (h : Handler) (env : Env) (c : gin.Context)
        (body : binding.input RegisterRequest.t) : Result :=
      let lang := gin.GetString "language" c in
      match binding.ShouldBindJSON_RegisterRequest body with
      | inl err =>
          (Some (http.StatusBadRequest,
                 ErrorResponse (Get (localizer h) lang "validation_error") err), h)
      | inr req =>
      match HashPassword (RegisterRequest.Password req) (rand env) with
      | inl _ =>
          (Some (http.StatusInternalServerError,
                 ErrorResponse (Get (localizer h) lang "internal_error")
                               "Failed to process password"), h)
      | inr hashedPassword =>
      match postgresDB h with
      | Some pg =>
          let user :=
            User.mk 0 (RegisterRequest.Email req) (RegisterRequest.Username req)
                    hashedPassword (RegisterRequest.FirstName req)
                    (RegisterRequest.LastName req) "user" true
                    (now env 0%nat) (now env 1%nat) None in
          match gorm.First
                  [gorm.Or (gorm.Eq email (RegisterRequest.Email req))
                           (gorm.Eq username (RegisterRequest.Username req))] pg with
          | inr _ =>
              (Some (http.StatusConflict,
                     ErrorResponse (Get (localizer h) lang "email_exists")
                                   "User already exists"), h)
          | inl _ =>
          match gorm.Create user pg with
          | inl _ =>
              (Some (http.StatusInternalServerError,
                     ErrorResponse (Get (localizer h) lang "internal_error")
                                   "Failed to create user"), h)
          | inr (user, pg') =>
          match jwt.GenerateToken (jwtUtils_Secret h) (AUint (User.ID user))
                  (User.Email user) (User.Username user) (User.Role user)
                  (tick 2 (now env)) with
          | inl _ =>
              (Some (http.StatusInternalServerError,
                     ErrorResponse (Get (localizer h) lang "internal_error")
                                   "Failed to generate token"),
               with_postgresDB pg' h)
          | inr (token, expiresAt) =>
              (Some (http.StatusCreated,
                     SuccessResponse (Get (localizer h) lang "user_created")
                       (DataAuth (AuthResponse.mk token (UserInfo_of_User user)
                                                  expiresAt))),
               with_postgresDB pg' h)
          end end end
      | None =>
      match mongoDB h with
      | Some mg =>
          let userMongo :=
            UserMongo.mk "" (RegisterRequest.Email req)
                         (RegisterRequest.Username req) hashedPassword
                         (RegisterRequest.FirstName req)
                         (RegisterRequest.LastName req) "user" true
                         (now env 0%nat) (now env 1%nat) in
          match mongo.FindOne
                  (bson.Or_ (bson.Is email (RegisterRequest.Email req))
                            (bson.Is username (RegisterRequest.Username req))) mg with
          | inr _ =>
              (Some (http.StatusConflict,
                     ErrorResponse (Get (localizer h) lang "email_exists")
                                   "User already exists"), h)
          | inl _ =>
          match mongo.InsertOne userMongo (new_oid env) mg with
          | inl _ =>
              (Some (http.StatusInternalServerError,
                     ErrorResponse (Get (localizer h) lang "internal_error")
                                   "Failed to create user"), h)
          | inr (insertedID, mg') =>
          let userMongo := mongo.set_ID insertedID userMongo in
          match jwt.GenerateToken (jwtUtils_Secret h)
                  (AString (primitive.Hex (UserMongo.ID userMongo)))
                  (UserMongo.Email userMongo) (UserMongo.Username userMongo)
                  (UserMongo.Role userMongo) (tick 2 (now env)) with
          | inl _ =>
              (Some (http.StatusInternalServerError,
                     ErrorResponse (Get (localizer h) lang "internal_error")
                                   "Failed to generate token"),
               with_mongoDB mg' h)
          | inr (token, expiresAt) =>
              (Some (http.StatusCreated,
                     SuccessResponse (Get (localizer h) lang "user_created")
                       (DataAuth (AuthResponse.mk token
                                    (UserInfo_of_UserMongo userMongo) expiresAt))),
               with_mongoDB mg' h)
          end end end
      | None => (None, h)
      end end end end.

    (** *** Login *)

Definition Login (h : Handler) (env : Env) (c : gin.Context)
        (body : binding.input LoginRequest.t) : Result :=
      let lang := gin.GetString "language" c in
      match binding.ShouldBindJSON_LoginRequest body with
      | inl err =>
          (Some (http.StatusBadRequest,
                 ErrorResponse (Get (localizer h) lang "validation_error") err), h)
      | inr req =>
      match postgresDB h with
      | Some pg =>
          match gorm.First [gorm.Eq email (LoginRequest.Email req)] pg with
          | inl _ =>
              (Some (http.StatusUnauthorized,
                     ErrorResponse (Get (localizer h) lang "invalid_credentials")
                                   "Authentication failed"), h)
          | inr user =>
          match VerifyPassword (User.Password user) (LoginRequest.Password req) with
          | Some _ =>
              (Some (http.StatusUnauthorized,
                     ErrorResponse (Get (localizer h) lang "invalid_credentials")
                                   "Authentication failed"), h)
          | None =>
          match jwt.GenerateToken (jwtUtils_Secret h) (AUint (User.ID user))
                  (User.Email user) (User.Username user) (User.Role user)
                  (now env) with
          | inl _ =>
              (Some (http.StatusInternalServerError,
                     ErrorResponse (Get (localizer h) lang "internal_error")
                                   "Failed to generate token"), h)
          | inr (token, expiresAt) =>
              (Some (http.StatusOK,
                     SuccessResponse (Get (localizer h) lang "login_successful")
                       (DataAuth (AuthResponse.mk token (UserInfo_of_User user)
                                                  expiresAt))), h)
          end end end
      | None =>
      match mongoDB h with
      | Some mg =>
          match mongo.FindOne (bson.Is email (LoginRequest.Email req)) mg with
          | inl _ =>
              (Some (http.StatusUnauthorized,
                     ErrorResponse (Get (localizer h) lang "invalid_credentials")
                                   "Authentication failed"), h)
          | inr user =>
          match VerifyPassword (UserMongo.Password user)
                               (LoginRequest.Password req) with
          | Some _ =>
              (Some (http.StatusUnauthorized,
                     ErrorResponse (Get (localizer h) lang "invalid_credentials")
                                   "Authentication failed"), h)
          | None =>
          match jwt.GenerateToken (jwtUtils_Secret h)
                  (AString (primitive.Hex (UserMongo.ID user)))
                  (UserMongo.Email user) (UserMongo.Username user)
                  (UserMongo.Role user) (now env) with
          | inl _ =>
              (Some (http.StatusInternalServerError,
                     ErrorResponse (Get (localizer h) lang "internal_error")
                                   "Failed to generate token"), h)
          | inr (token, expiresAt) =>
              (Some (http.StatusOK,
                     SuccessResponse (Get (localizer h) lang "login_successful")
                       (DataAuth (AuthResponse.mk token
                                    (UserInfo_of_UserMongo user) expiresAt))), h)
          end end end
      | None => (None, h)
      end end end.

    (** *** GetProfile *)

Definition GetProfile (h : Handler) (c : gin.Context) : Result :=
      let userID := gin.GetString "user_id" c in
      let lang := gin.GetString "language" c in
      match postgresDB h with
      | Some pg =>
          let id := fst (strconv.ParseUint userID 32) in
          match gorm.First [gorm.PrimaryKey id] pg with
          | inl _ =>
              (Some (http.StatusNotFound,
                     ErrorResponse (Get (localizer h) lang "user_not_found")
                                   "User not found"), h)
          | inr user =>
              (Some (http.StatusOK,
                     SuccessResponse "Profile retrieved successfully"
                                     (DataUser (UserInfo_of_User user))), h)
          end
      | None =>
      match mongoDB h with
      | Some mg =>
          match primitive.ObjectIDFromHex userID with
          | None =>
              (Some (http.StatusBadRequest,
                     ErrorResponse (Get (localizer h) lang "bad_request")
                                   "Invalid user ID format"), h)
          | Some objectID =>
          match mongo.FindOne (bson.Id objectID) mg with
          | inl _ =>
              (Some (http.StatusNotFound,
                     ErrorResponse (Get (localizer h) lang "user_not_found")
                                   "User not found"), h)
          | inr user =>
              (Some (http.StatusOK,
                     SuccessResponse "Profile retrieved successfully"
                                     (DataUser (UserInfo_of_UserMongo user))), h)
          end end
      | None => (None, h)
      end end.

    (** *** UpdateProfile *)

Definition UpdateProfile (h : Handler) (env : Env) (c : gin.Context)
        (body : binding.input UpdateUserRequest.t) : Result :=
      let userID := gin.GetString "user_id" c in
      let lang := gin.GetString "language" c in
      match binding.ShouldBindJSON_UpdateUserRequest body with
      | inl err =>
          (Some (http.StatusBadRequest,
                 ErrorResponse (Get (localizer h) lang "validation_error") err), h)
      | inr req =>
      match postgresDB h with
      | Some pg =>
          let id := fst (strconv.ParseUint userID 32) in
          match gorm.First [gorm.PrimaryKey id] pg with
          | inl _ =>
              (Some (http.StatusNotFound,
                     ErrorResponse (Get (localizer h) lang "user_not_found")
                                   "User not found"), h)
          | inr user =>
          let user :=
            if nonempty (UpdateUserRequest.FirstName req)
            then set_FirstName (UpdateUserRequest.FirstName req) user else user in
          let user :=
            if nonempty (UpdateUserRequest.LastName req)
            then set_LastName (UpdateUserRequest.LastName req) user else user in
          let user :=
            if nonempty (UpdateUserRequest.Email req)
            then set_Email (UpdateUserRequest.Email req) user else user in
          let user := gorm.set_UpdatedAt (now env 0%nat) user in
          match gorm.Save user (now env 1%nat) pg with
          | inl _ =>
              (Some (http.StatusInternalServerError,
                     ErrorResponse (Get (localizer h) lang "internal_error")
                                   "Failed to update profile"), h)
          | inr (user, pg') =>
              (Some (http.StatusOK,
                     SuccessResponse (Get (localizer h) lang "user_updated")
                                     (DataUser (UserInfo_of_User user))),
               with_postgresDB pg' h)
          end end
      | None =>
      match mongoDB h with
      | Some mg =>
          match primitive.ObjectIDFromHex userID with
          | None =>
              (Some (http.StatusBadRequest,
                     ErrorResponse (Get (localizer h) lang "bad_request")
                                   "Invalid user ID format"), h)
          | Some objectID =>
          let set : gmap string bson.value :=
            {[ "updated_at" := bson.VTime (now env 0%nat) ]} in
          let set :=
            if nonempty (UpdateUserRequest.FirstName req)
            then <["first_name" := bson.VString (UpdateUserRequest.FirstName req)]> set
            else set in
          let set :=
            if nonempty (UpdateUserRequest.LastName req)
            then <["last_name" := bson.VString (UpdateUserRequest.LastName req)]> set
            else set in
          let set :=
            if nonempty (UpdateUserRequest.Email req)
            then <["email" := bson.VString (UpdateUserRequest.Email req)]> set
            else set in
          match mongo.UpdateOne (bson.Id objectID) set mg with
          | inl _ =>
              (Some (http.StatusInternalServerError,
                     ErrorResponse (Get (localizer h) lang "internal_error")
                                   "Failed to update profile"), h)
          | inr mg' =>
          match mongo.FindOne (bson.Id objectID) mg' with
          | inl _ =>
              (Some (http.StatusInternalServerError,
                     ErrorResponse (Get (localizer h) lang "internal_error")
                                   "Failed to retrieve updated profile"),
               with_mongoDB mg' h)
          | inr user =>
              (Some (http.StatusOK,
                     SuccessResponse (Get (localizer h) lang "user_updated")
                                     (DataUser (UserInfo_of_UserMongo user))),
               with_mongoDB mg' h)
          end end end
      | None => (None, h)
      end end end.

    (** *** GetUsers *)

Definition TotalPage (total pageSize : Z) : Z :=
      wrap64 (Z.quot (wrap64 (wrap64 (total + pageSize) - 1)) pageSize).

Definition GetUsers (h : Handler) (c : gin.Context)
        (q : binding.input binding.Query) : Result :=
      let lang := gin.GetString "language" c in
      match binding.ShouldBindQuery q with
      | inl err =>
          (Some (http.StatusBadRequest,
                 ErrorResponse (Get (localizer h) lang "validation_error") err), h)
      | inr query =>
      match postgresDB h with
      | Some pg =>
          let conds :=
            if nonempty (PaginationQuery.Search query) then
              let searchPattern := "%" ++ PaginationQuery.Search query ++ "%" in
              [gorm.Or (gorm.ILike first_name searchPattern)
                 (gorm.Or (gorm.ILike last_name searchPattern)
                    (gorm.Or (gorm.ILike email searchPattern)
                             (gorm.ILike username searchPattern)))]
            else [] in
          let total := gorm.Count conds pg in
          let offset :=
            wrap64 (wrap64 (PaginationQuery.Page query - 1)
                    * PaginationQuery.PageSize query) in
          let order :=
            if nonempty (PaginationQuery.Sort query)
            then PaginationQuery.Sort query else "created_at DESC" in
          match gorm.Find conds offset (PaginationQuery.PageSize query) order pg with
          | inl _ =>
              (Some (http.StatusInternalServerError,
                     ErrorResponse (Get (localizer h) lang "internal_error")
                                   "Failed to retrieve users"), h)
          | inr users =>
              let userInfos := List.map UserInfo_of_User users in
              let pagination :=
                Pagination.mk (PaginationQuery.Page query)
                              (PaginationQuery.PageSize query) total
                              (TotalPage total (PaginationQuery.PageSize query)) in
              (Some (http.StatusOK,
                     SuccessResponse "Users retrieved successfully"
                       (DataPage (PaginatedResponse userInfos pagination))), h)
          end
      | None =>
      match mongoDB h with
      | Some mg =>
          let filter :=
            if nonempty (PaginationQuery.Search query) then
              bson.Or_ (bson.Regex first_name (PaginationQuery.Search query))
                (bson.Or_ (bson.Regex last_name (PaginationQuery.Search query))
                   (bson.Or_ (bson.Regex email (PaginationQuery.Search query))
                             (bson.Regex username (PaginationQuery.Search query))))
            else bson.All in
          match mongo.CountDocuments filter mg with
          | inl _ =>
              (Some (http.StatusInternalServerError,
                     ErrorResponse (Get (localizer h) lang "internal_error")
                                   "Failed to count users"), h)
          | inr total =>
          let skip :=
            wrap64 (wrap64 (PaginationQuery.Page query - 1)
                    * PaginationQuery.PageSize query) in
          let limit := PaginationQuery.PageSize query in
          match mongo.Find filter skip limit mg with
          | inl _ =>
              (Some (http.StatusInternalServerError,
                     ErrorResponse (Get (localizer h) lang "internal_error")
                                   "Failed to retrieve users"), h)
          | inr users =>
              let userInfos := List.map UserInfo_of_UserMongo users in
              let pagination :=
                Pagination.mk (PaginationQuery.Page query)
                              (PaginationQuery.PageSize query) total
                              (TotalPage total (PaginationQuery.PageSize query)) in
              (Some (http.StatusOK,
                     SuccessResponse "Users retrieved successfully"
                       (DataPage (PaginatedResponse userInfos pagination))), h)
          end end
      | None => (None, h)
      end end end.

  End WithLibraries.

  (** *** HealthCheck

      [pg_ping] and [mongo_ping] are what the [HealthCheck] methods of the
      two connections return ([None] is a nil error). *)

Definition HealthCheck (h : Handler) (pg_ping mongo_ping : option string)
      (now : Time) : Result :=
    let services : gmap string string := ∅ in
    let overallStatus := "healthy" in
    let '(services, overallStatus) :=
      match postgresDB h with
      | Some _ =>
          match pg_ping with
          | Some _ => (<["postgresql" := "unhealthy"]> services, "unhealthy")
          | None => (<["postgresql" := "healthy"]> services, overallStatus)
          end
      | None => (services, overallStatus)
      end in
    let '(services, overallStatus) :=
      match mongoDB h with
      | Some _ =>
          match mongo_ping with
          | Some _ => (<["mongodb" := "unhealthy"]> services, "unhealthy")
          | None => (<["mongodb" := "healthy"]> services, overallStatus)
          end
      | None => (services, overallStatus)
      end in
    let healthResponse :=
      HealthResponse.mk overallStatus now services "1.0.0" in
    if String.eqb overallStatus "healthy" then
      (Some (http.StatusOK,
             SuccessResponse "System is healthy" (DataHealth healthResponse)), h)
    else
      (Some (http.StatusServiceUnavailable,
             ErrorResponse "System is unhealthy" "One or more services are down"), h).

End handlers.

(** * The rest of the packages: middleware, routes, configuration

    The middleware that guards the routes beside [JWTAuth], the route
    groups of [SetupRoutes], the whole of [config.Load] and the connection
    strings of package [database]. *)

(** ** The Go standard library, as far as this code calls it *)

Module golang.

  (** [strings.Index]: the offset of the first occurrence of [substr]. *)
Fixpoint Index (s substr : string) : option nat :=
    if String.prefix substr s then Some 0%nat
    else
      match s with
      | EmptyString => None
      | String _ r => option_map S (Index r substr)
      end.

Definition Contains (s substr : string) : bool :=
    match Index s substr with
    | Some _ => true
    | None => false
    end.

  (** [strings.Split] for a separator that is not empty (the code splits at
      [","] and at ["-"]): the pieces between the occurrences of [sep],
      found from left to right; [skip] counts the bytes of an occurrence
      still to be passed over. *)
Fixpoint split_from (sep : string) (skip : nat) (s : string) : list string :=
    match s with
    | EmptyString => [EmptyString]
    | String c r =>
        match skip with
        | S k => split_from sep k r
        | O =>
            if String.prefix sep s
            then EmptyString :: split_from sep (String.length sep - 1) r
            else
              match split_from sep 0 r with
              | piece :: pieces => String c piece :: pieces
              | [] => [String c EmptyString]
              end
        end
    end.

Definition Split (s sep : string) : list string := split_from sep 0 s.

  (** [strconv.ParseBool]. *)
Definition ParseBool (str : string) : option bool :=
    if existsb (String.eqb str) ["1"; "t"; "T"; "TRUE"; "true"; "True"]
    then Some true
    else if existsb (String.eqb str) ["0"; "f"; "F"; "FALSE"; "false"; "False"]
    then Some false
    else None.

End golang.

(** [time.Time] where the code compares two readings of the clock with each
    other: a count of nanoseconds. *)
Module time_.

Definition Instant : Type := Z.

Definition Minute : Z := 60 * 1000000000.

Definition Add (t : Instant) (d : Z) : Instant := t + d.

Definition After (t u : Instant) : bool := u <? t.

End time_.

Module net_http.
Definition StatusForbidden : Z := 403.
Definition StatusTooManyRequests : Z := 429.
End net_http.

(** ** Package middleware: [RequireRole], [RateLimiter], [Localization] *)

Module middlewares.

  Import utils middleware.

  (** *** RequireRole

      [None]: the type assertion [userRole.(string)] panics. *)
Definition RequireRole (requiredRoles : list string) (c : gin.Context)
    : option outcome :=
    match gin.Get "user_role" c with
    | None =>
        Some (Abort (http.StatusUnauthorized,
                     APIResponse.mk false "User role not found" None
                                    "Authorization failed"))
    | Some userRole =>
        match userRole with
        | AString role =>
            if existsb (String.eqb role) requiredRoles
            then Some (Next c)
            else
              Some (Abort (net_http.StatusForbidden,
                           APIResponse.mk false "Insufficient permissions" None
                             "You don't have permission to access this resource"))
        | _ => None
        end
    end.

  (** *** RateLimiter

      The table [clients] of the closure is threaded through the calls;
      [clientIP] is what [c.ClientIP()] returns and [now] what [time.Now()]
      does.  The calls are taken one after the other. *)
Record client : Type := mkClient {
    requests : Z;
    resetTime : time_.Instant
  }.

Definition limit : Z := 100.

Definition window : Z := time_.Minute.

Definition RateLimiter (clients : gmap string client) (clientIP : string)
      (now : time_.Instant) (c : gin.Context)
    : gmap string client * outcome :=
    match clients !! clientIP with
    | None =>
        (<[clientIP := mkClient 1 (time_.Add now window)]> clients, Next c)
    | Some cl =>
        if time_.After now (resetTime cl) then
          (<[clientIP := mkClient 1 (time_.Add now window)]> clients, Next c)
        else if limit <=? requests cl then
          (clients,
           Abort (net_http.StatusTooManyRequests,
                  APIResponse.mk false "Rate limit exceeded" None
                                 "Too many requests, please try again later"))
        else
          (<[clientIP := mkClient (wrap64 (requests cl + 1)) (resetTime cl)]> clients,
           Next c)
    end.

  (** *** Localization

      [acceptLanguage] is the header [Accept-Language] and [queryLang] the
      query parameter [lang], each empty when absent.  The second component
      is the value stored under the key ["localizer"], which is not one of
      the basic values of [any]. *)
Definition Localization (localizer : Localizer)
      (acceptLanguage queryLang : string) (c : gin.Context)
    : gin.Context * Localizer :=
    let lang := acceptLanguage in
    let lang := if String.eqb lang "" then queryLang else lang in
    let lang := if String.eqb lang "" then DefaultLanguage localizer else lang in
    let lang :=
      if golang.Contains lang "," then hd "" (golang.Split lang ",") else lang in
    let lang :=
      if golang.Contains lang "-" then hd "" (golang.Split lang "-") else lang in
    (gin.Set_ "language" (AString lang) c, localizer).

End middlewares.

(** ** Package routes: the groups of [SetupRoutes]

    The handler chain of each route below the two middleware the router
    itself carries: the routes of group [protected] run [JWTAuth] first,
    those of group [adminUsers] then [RequireRole("admin", "superadmin")]. *)

Module routes.

  Import utils database handlers middleware middlewares.

  (** What a chain ends in: a panic, or the answer of the middleware that
      aborts or of the handler. *)
Inductive served : Type :=
  | Panic
  | Served (r : Result).

  Section WithLibraries.
    Context `{Libraries}.

Definition protected (vars : gmap string string) (now : Time) (h : Handler)
        (c : gin.Context) (next : gin.Context -> served) : served :=
      match JWTAuth vars now c with
      | Abort r => Served (Some r, h)
      | Next c' => next c'
      end.

Definition adminUsers (vars : gmap string string) (now : Time) (h : Handler)
        (c : gin.Context) (next : gin.Context -> served) : served :=
      protected vars now h c
        (fun c' =>
           match RequireRole ["admin"; "superadmin"] c' with
           | None => Panic
           | Some (Abort r) => Served (Some r, h)
           | Some (Next c'') => next c''
           end).

Definition GET_users_profile (vars : gmap string string) (now : Time)
        (h : Handler) (c : gin.Context) : served :=
      protected vars now h c (fun c' => Served (GetProfile h c')).

Definition PUT_users_profile (vars : gmap string string) (now : Time)
        (h : Handler) (env : Env) (c : gin.Context)
        (body : binding.input UpdateUserRequest.t) : served :=
      protected vars now h c (fun c' => Served (UpdateProfile h env c' body)).

Definition GET_users (vars : gmap string string) (now : Time)
        (h : Handler) (c : gin.Context) (q : binding.input binding.Query)
      : served :=
      adminUsers vars now h c (fun c' => Served (GetUsers h c' q)).

  End WithLibraries.

End routes.

(** ** Package config in full *)

Module configuration.

  Module MongoDBConfig.
Record t : Type := mk {
      Enabled : bool;
      URI : string;
      Database : string;
      Username : string;
      Password : string;
      Host : string;
      Port : string
    }.
  End MongoDBConfig.

  Module PostgresDBConfig.
Record t : Type := mk {
      Enabled : bool;
      Host : string;
      Port : string;
      Username : string;
      Password : string;
      Database : string;
      SSLMode : string
    }.
  End PostgresDBConfig.

Record Config : Type := mkConfig {
    Environment : string;
    Port : string;
    LogLevel : string;
    DefaultLanguage : string;
    JWTSecret : string;
    MongoDB : MongoDBConfig.t;
    PostgresDB : PostgresDBConfig.t
  }.

  (** [strings.ToLower] is the one of the ASCII letters here: no other
      letter is lowered to a character of the spellings [ParseBool]
      knows. *)
Definition getBoolEnv (env : gmap string string) (key : string)
      (defaultValue : bool) : bool :=
    match env !! key with
    | Some value =>
        if String.eqb value "" then defaultValue
        else
          match golang.ParseBool (strings_.ToLower value) with
          | Some parsed => parsed
          | None => defaultValue
          end
    | None => defaultValue
    end.

Definition Load (env : gmap string string) : Config :=
    mkConfig
      (config.getEnv env "ENVIRONMENT" "development")
      (config.getEnv env "PORT" "8080")
      (config.getEnv env "LOG_LEVEL" "info")
      (config.getEnv env "DEFAULT_LANGUAGE" "en")
      (config.getEnv env "JWT_SECRET" "your-secret-key-change-this-in-production")
      (MongoDBConfig.mk
         (getBoolEnv env "MONGODB_ENABLED" true)
         (config.getEnv env "MONGODB_URI" "")
         (config.getEnv env "MONGODB_DATABASE" "mygo")
         (config.getEnv env "MONGODB_USERNAME" "root")
         (config.getEnv env "MONGODB_PASSWORD" "4jClkoZfth8Jq4lB")
         (config.getEnv env "MONGODB_HOST" "localhost")
         (config.getEnv env "MONGODB_PORT" "27017"))
      (PostgresDBConfig.mk
         (getBoolEnv env "POSTGRES_ENABLED" false)
         (config.getEnv env "POSTGRES_HOST" "localhost")
         (config.getEnv env "POSTGRES_PORT" "5432")
         (config.getEnv env "POSTGRES_USERNAME" "postgres")
         (config.getEnv env "POSTGRES_PASSWORD" "password")
         (config.getEnv env "POSTGRES_DATABASE" "backend_template")
         (config.getEnv env "POSTGRES_SSLMODE" "disable")).

End configuration.

(** ** Package database: the connection strings *)

Module connection.

  Import configuration.

  (** The [uri] that [NewMongoDB] hands to the driver. *)
Definition NewMongoDB_uri (cfg : MongoDBConfig.t) : string :=
    if negb (String.eqb (MongoDBConfig.URI cfg) "") then MongoDBConfig.URI cfg
    else if negb (String.eqb (MongoDBConfig.Username cfg) "")
            && negb (String.eqb (MongoDBConfig.Password cfg) "")
    then "mongodb://" ++ MongoDBConfig.Username cfg ++ ":"
           ++ MongoDBConfig.Password cfg ++ "@" ++ MongoDBConfig.Host cfg ++ ":"
           ++ MongoDBConfig.Port cfg
    else "mongodb://" ++ MongoDBConfig.Host cfg ++ ":" ++ MongoDBConfig.Port cfg.

End connection.

(** ** Package handlers: the constructor of [AuthHandler]

    The signing secret is read from the environment when the handler is
    built. *)

Module constructors.

  Import handlers.

Definition NewAuthHandler (mongoDB : option database.MongoDB.t)
      (postgresDB : option database.PostgresDB.t) (localizer : utils.Localizer)
      (env : gmap string string) : Handler :=
    let cfg := config.Load env in
    mkHandler mongoDB postgresDB localizer (config.JWTSecret cfg).

End constructors.

(** ** Package utils: ValidationUtils *)

Module validation.

Definition IsValidPassword (password : string) : bool :=
    6 <=? Z.of_nat (String.length password).

End validation.

(** ** One implementation of the libraries

    A small, executable stand-in for the libraries, used to run the code on
    concrete requests: digests and signatures that are plain functions of
    their inputs, a bit-string serialisation of tokens, substring matching
    for [ILIKE] and [$regex], and an insertion sort for [ORDER BY]. *)

Module Plain.

#[global] Instance json_eq_dec : EqDecision json.
Proof. solve_decision. Defined.

#[global] Instance Payload_eq_dec : EqDecision jose.Payload.
Proof. solve_decision. Defined.

#[global] Instance Token_eq_dec : EqDecision jose.Token.
Proof. solve_decision. Defined.

#[global] Instance json_countable : Countable json :=
  inj_countable'
    (fun j => match j with
              | JNull => inl ()
              | JNumber x => inr (inl x)
              | JString s => inr (inr s)
              end)
    (fun x => match x with
              | inl _ => JNull
              | inr (inl x) => JNumber x
              | inr (inr s) => JString s
              end)
    (fun j => match j with JNull | JNumber _ | JString _ => eq_refl end).

#[global] Instance Payload_countable : Countable jose.Payload :=
  inj_countable'
    (fun p => (jose.user_id p, jose.email p, jose.username p, jose.role p,
               jose.exp p, jose.iat p, jose.nbf p))
    (fun '(u, e, n, r, x, i, b) => jose.mkPayload u e n r x i b)
    (fun p => match p with jose.mkPayload _ _ _ _ _ _ _ => eq_refl end).

#[global] Instance Token_countable : Countable jose.Token :=
  inj_countable'
    (fun t => (jose.alg t, jose.payload t, jose.signature t))
    (fun '(a, p, s) => jose.mkToken a p s)
    (fun t => match t with jose.mkToken _ _ _ => eq_refl end).

Fixpoint bits (p : positive) : string :=
  match p with
  | xH => EmptyString
  | xO q => String "0" (bits q)
  | xI q => String "1" (bits q)
  end.

Fixpoint of_bits (s : string) : option positive :=
  match s with
  | EmptyString => Some xH
  | String c r =>
      if Ascii.eqb c "0" then option_map xO (of_bits r)
      else if Ascii.eqb c "1" then option_map xI (of_bits r)
      else None
  end.

Definition serialize (t : jose.Token) : string := bits (encode t).

Definition parse (s : string) : option jose.Token :=
  match of_bits s with
  | Some p => decode p
  | None => None
  end.

Fixpoint take_pad (n : nat) (s : string) : string :=
  match n with
  | O => EmptyString
  | S n' =>
      match s with
      | EmptyString => String "." (take_pad n' EmptyString)
      | String c r => String c (take_pad n' r)
      end
  end.

Definition digest (cost : Z) (salt key : string) : string :=
  take_pad 31 key.

Definition sign (alg key : string) (p : jose.Payload) : string :=
  alg ++ "/" ++ key ++ "/" ++ jose.username p.

Fixpoint contains (s sub : string) : bool :=
  String.prefix sub s
  || match s with
     | EmptyString => false
     | String _ r => contains r sub
     end.

Definition contains_fold (s sub : string) : bool :=
  contains (strings_.ToLower s) (strings_.ToLower sub).

Definition trim_percent (p : string) : string :=
  let p := strings_.TrimPrefix p "%" in
  if String.eqb p "" then p
  else if String.eqb (String.substring (String.length p - 1) 1 p) "%"
       then String.substring 0 (String.length p - 1) p
       else p.

Definition like (pattern text : string) : bool :=
  contains_fold text (trim_percent pattern).

Definition regex (pattern : string) : option (string -> bool) :=
  if contains pattern "(" || contains pattern "[" || contains pattern "*"
  then None
  else Some (fun text => contains_fold text pattern).

Fixpoint insert_by (le : User.t -> User.t -> bool) (u : User.t)
    (l : list User.t) : list User.t :=
  match l with
  | [] => [u]
  | v :: r => if le u v then u :: v :: r else v :: insert_by le u r
  end.

Fixpoint sort_by (le : User.t -> User.t -> bool) (l : list User.t)
  : list User.t :=
  match l with
  | [] => []
  | u :: r => insert_by le u (sort_by le r)
  end.

Definition sorted (clause : string) (rows : list User.t)
  : option (list User.t) :=
  if String.eqb clause "created_at DESC"
  then Some (sort_by (fun a b => User.CreatedAt b <=? User.CreatedAt a) rows)
  else if String.eqb clause "created_at" || String.eqb clause "created_at ASC"
  then Some (sort_by (fun a b => User.CreatedAt a <=? User.CreatedAt b) rows)
  else if String.eqb clause "id" || String.eqb clause "id ASC"
  then Some (sort_by (fun a b => User.ID a <=? User.ID b) rows)
  else None.

(** The stand-in implements the interface: digests have 31 characters,
    parsing inverts serialisation, sorting permutes. *)
#[global, refine] Instance libs : Libraries := {|
  salt_decodes := fun _ => true;
  eks_blowfish := digest;
  eks_blowfish_length := _;
  hmac := sign;
  compact := serialize;
  parse_compact := parse;
  parse_compact_compact := _;
  is_email := fun s => contains s "@";
  ilike := like;
  regex_i := regex;
  order_by := sorted;
  order_by_Permutation := _
|}.
Proof.
  - intros cost salt key. unfold digest. clear cost salt.
    generalize 31%nat. intros n. revert key.
    induction n as [| n IH]; intros key; simpl; [reflexivity |].
    destruct key; simpl; rewrite IH; reflexivity.
  - intros t. unfold parse, serialize.
    assert (B : forall p, of_bits (bits p) = Some p).
    { induction p as [q IH | q IH | ]; simpl; try rewrite IH; reflexivity. }
    rewrite B. apply decode_encode.
  - assert (I : forall le u l, Permutation (u :: l) (insert_by le u l)).
    { intros le u l. induction l as [| v r IH]; simpl; [reflexivity |].
      destruct (le u v); [reflexivity |].
      rewrite perm_swap. apply perm_skip, IH. }
    assert (S : forall le l, Permutation l (sort_by le l)).
    { intros le l. induction l as [| u r IH]; simpl; [reflexivity |].
      rewrite <- I. apply perm_skip, IH. }
    intros clause rows rows'. unfold sorted.
    repeat match goal with |- context [if ?b then _ else _] => destruct b end;
      intros E; inversion E; subst; apply S.
Defined.

End Plain.

(** * The vocabulary of the properties, and sample data *)

Import utils database handlers.

(** A configured backend is one whose reference is not nil; its check
    succeeds when its [HealthCheck] returns a nil error. *)
Definition every_configured_backend_succeeds (h : Handler)
    (pg_ping mongo_ping : option string) : Prop :=
  (postgresDB h <> None -> pg_ping = None)
  /\ (mongoDB h <> None -> mongo_ping = None).

Definition service_status (backend_configured : bool) (ping : option string)
  : option string :=
  if backend_configured
  then Some (match ping with None => "healthy" | Some _ => "unhealthy" end)
  else None.

(** The claims of a token issued at time [t] for an identity. *)
Definition issued_claims (userID : any) (email username role : string)
    (t : Time) : jwt.Claims :=
  jwt.mkClaims userID email username role (Some (t + 24 * hour)) (Some t) (Some t).

(** What the verifier hands back for them: the same claims, the user
    identifier as JSON decoding leaves it. *)
Definition verified_claims (userID : any) (email username role : string)
    (t : Time) : jwt.Claims :=
  issued_claims (json_Unmarshal (json_Marshal userID)) email username role t.

Definition salt0 : bcrypt.Salt := bcrypt.mkSalt "abcdefghijklmnopqrstuv" eq_refl.

Definition seventy_two_a : string :=
  "aaaaaaaaaaaaaaaaaaaaaaaaaaaaaaaaaaaaaaaaaaaaaaaaaaaaaaaaaaaaaaaaaaaaaaaa".

Record Account : Type := mkAccount {
  email_of : string;
  username_of : string;
  hash_of : string
}.

Definition Account_of_User (u : User.t) : Account :=
  mkAccount (User.Email u) (User.Username u) (User.Password u).

Definition Account_of_UserMongo (u : UserMongo.t) : Account :=
  mkAccount (UserMongo.Email u) (UserMongo.Username u) (UserMongo.Password u).

(** The backend a handler works on is the relational one when it is
    configured, the document store otherwise; its users are the rows that
    are not soft-deleted, respectively the documents.  [None]: no backend
    is configured. *)
Definition accounts (h : Handler) : option (list Account) :=
  match postgresDB h with
  | Some pg =>
      Some (List.map Account_of_User (List.filter gorm.live (PostgresDB.rows pg)))
  | None =>
      match mongoDB h with
      | Some mg => Some (List.map Account_of_UserMongo (MongoDB.docs mg))
      | None => None
      end
  end.

Definition denied (h : Handler) (c : gin.Context) : option Response :=
  Some (http.StatusUnauthorized,
        ErrorResponse (Get (localizer h) (gin.GetString "language" c)
                           "invalid_credentials")
                      "Authentication failed").



Module Sample.

Definition password_hash (password : string) : string :=
  match HashPassword (H := Plain.libs) password (Some salt0) with
  | inr hashedPassword => hashedPassword
  | inl _ => ""
  end.

Definition ann : User.t :=
  User.mk 1 "ann@example.com" "ann" (password_hash "password123")
          "Ann" "Lee" "user" true 1700000000 1700000000 None.

Definition bob : User.t :=
  User.mk 2 "bob@example.com" "bob" (password_hash "hunter2222")
          "Bob" "Ray" "admin" true 1700000100 1700000100 None.

Definition ann_doc : UserMongo.t :=
  UserMongo.mk "64b7f3a2c1d4e5f60718293a" "ann@example.com" "ann"
               (password_hash "password123") "Ann" "Lee" "user" true
               1700000000 1700000000.

Definition bob_doc : UserMongo.t :=
  UserMongo.mk "64b7f3a2c1d4e5f60718293b" "bob@example.com" "bob"
               (password_hash "hunter2222") "Bob" "Ray" "admin" true
               1700000100 1700000100.

Definition table : PostgresDB.t := PostgresDB.mk [ann; bob] 3 true.

Definition collection : MongoDB.t := MongoDB.mk [ann_doc; bob_doc] false.

Definition relational : Handler :=
  mkHandler None (Some table) (NewLocalizer "en") "secret".

Definition documents : Handler :=
  mkHandler (Some collection) None (NewLocalizer "en") "secret".

Definition unconfigured : Handler :=
  mkHandler None None (NewLocalizer "en") "secret".

Definition context : gin.Context :=
  gin.mkContext "" {[ "language" := AString "en" ]}.

Definition env : Env :=
  mkEnv (fun n => 1700001000 + Z.of_nat n) (Some salt0)
        "64b7f3a2c1d4e5f60718293c".

Definition users : list Account :=
  [ mkAccount "ann@example.com" "ann" (password_hash "password123");
    mkAccount "bob@example.com" "bob" (password_hash "hunter2222") ].

End Sample.

Definition seventy_three_a : string := seventy_two_a ++ "a".

(** What the specification asks of an update: a supplied field that is not
    empty replaces the stored one, an empty one leaves it. *)
Definition supplied (new old : string) : string :=
  if String.eqb new "" then old else new.

(** The stored user an update request is to produce from [u] at time [t]:
    [firstName], [lastName] and [email] as supplied, [updatedAt] refreshed,
    every other field as it was. *)
Definition expected_User (req : UpdateUserRequest.t) (t : Time) (u : User.t)
  : User.t :=
  User.mk (User.ID u)
          (supplied (UpdateUserRequest.Email req) (User.Email u))
          (User.Username u) (User.Password u)
          (supplied (UpdateUserRequest.FirstName req) (User.FirstName u))
          (supplied (UpdateUserRequest.LastName req) (User.LastName u))
          (User.Role u) (User.IsActive u) (User.CreatedAt u) t
          (User.DeletedAt u).

Definition expected_UserMongo (req : UpdateUserRequest.t) (t : Time)
    (u : UserMongo.t) : UserMongo.t :=
  UserMongo.mk (UserMongo.ID u)
               (supplied (UpdateUserRequest.Email req) (UserMongo.Email u))
               (UserMongo.Username u) (UserMongo.Password u)
               (supplied (UpdateUserRequest.FirstName req) (UserMongo.FirstName u))
               (supplied (UpdateUserRequest.LastName req) (UserMongo.LastName u))
               (UserMongo.Role u) (UserMongo.IsActive u)
               (UserMongo.CreatedAt u) t.

(** The [$set] document the handler builds. *)
Definition set_document (req : UpdateUserRequest.t) (t : Time)
  : gmap string bson.value :=
  let set : gmap string bson.value := {[ "updated_at" := bson.VTime t ]} in
  let set :=
    if nonempty (UpdateUserRequest.FirstName req)
    then <["first_name" := bson.VString (UpdateUserRequest.FirstName req)]> set
    else set in
  let set :=
    if nonempty (UpdateUserRequest.LastName req)
    then <["last_name" := bson.VString (UpdateUserRequest.LastName req)]> set
    else set in
  if nonempty (UpdateUserRequest.Email req)
  then <["email" := bson.VString (UpdateUserRequest.Email req)]> set
  else set.


(** In a collection, [_id] identifies the document. *)
Definition document_key (mg : MongoDB.t) : Prop :=
  forall d1 d2,
    In d1 (MongoDB.docs mg) -> In d2 (MongoDB.docs mg) ->
    UserMongo.ID d1 = UserMongo.ID d2 -> d1 = d2.

(** The context the JWT middleware leaves for a caller identified by the
    string [user_id]. *)
Definition context_of (user_id : any) : gin.Context :=
  gin.Set_ "user_id" user_id Sample.context.

Definition ann_context : gin.Context :=
  context_of (AString "64b7f3a2c1d4e5f60718293a").

Definition smith : UpdateUserRequest.t := UpdateUserRequest.mk "" "Smith" "".


(** The slice of a list that page [page] of size [pageSize] holds. *)
Definition page_of {A : Type} (page pageSize : Z) (l : list A) : list A :=
  List.firstn (Z.to_nat pageSize)
              (List.skipn (Z.to_nat ((page - 1) * pageSize)) l).

(** The search condition, search filter and ordering the handler builds. *)
Definition search_conds (search : string) : list gorm.cond :=
  if nonempty search then
    [gorm.Or (gorm.ILike first_name ("%" ++ search ++ "%"))
       (gorm.Or (gorm.ILike last_name ("%" ++ search ++ "%"))
          (gorm.Or (gorm.ILike email ("%" ++ search ++ "%"))
                   (gorm.ILike username ("%" ++ search ++ "%"))))]
  else [].


Definition order_clause (sort : string) : string :=
  if nonempty sort then sort else "created_at DESC".

Definition page_answer (query : PaginationQuery.t) (total : Z)
    (rows : list UserInfo.t) : option Response :=
  Some (http.StatusOK,
        SuccessResponse "Users retrieved successfully"
          (DataPage
             (PaginatedResponse.mk rows
                (Pagination.mk (PaginationQuery.Page query)
                               (PaginationQuery.PageSize query) total
                               (TotalPage total (PaginationQuery.PageSize query)))))).

Module Crowd.

Definition doc (i : nat) : UserMongo.t :=
  UserMongo.mk ("64b7f3a2c1d4e5f6071829" ++ bcrypt.fmt02 (Z.of_nat i))
               ("user" ++ bcrypt.fmt02 (Z.of_nat i) ++ "@example.com")
               ("user" ++ bcrypt.fmt02 (Z.of_nat i))
               (Sample.password_hash "password123") "Un" "Known" "user" true
               (1700000000 + Z.of_nat i) (1700000000 + Z.of_nat i).

Definition row (i : nat) : User.t :=
  User.mk (Z.of_nat i)
          ("user" ++ bcrypt.fmt02 (Z.of_nat i) ++ "@example.com")
          ("user" ++ bcrypt.fmt02 (Z.of_nat i))
          (Sample.password_hash "password123") "Un" "Known" "user" true
          (1700000000 + Z.of_nat i) (1700000000 + Z.of_nat i) None.

Definition docs : list UserMongo.t := List.map doc (List.seq 1 25).

Definition rows : list User.t := List.map row (List.seq 1 25).

Definition documents : Handler :=
  mkHandler (Some (MongoDB.mk docs true)) None (NewLocalizer "en") "secret".

Definition relational : Handler :=
  mkHandler None (Some (PostgresDB.mk rows 26 true)) (NewLocalizer "en") "secret".

Definition third_page_of_ten : binding.input binding.Query :=
  binding.Decoded (binding.mkQuery (Some 3) (Some 10) "" "").

Definition far_page : Z := 2 ^ 62 + 1.

Definition far_page_of_four : binding.input binding.Query :=
  binding.Decoded (binding.mkQuery (Some far_page) (Some 4) "" "").

End Crowd.

Definition token_of (r : Result) : string :=
  match fst r with
  | Some (_, resp) =>
      match APIResponse.Data resp with
      | Some (DataAuth a) => AuthResponse.Token a
      | _ => ""
      end
  | None => ""
  end.

Definition environment : gmap string string := {[ "JWT_SECRET" := "secret" ]}.

Definition ann_logs_in : LoginRequest.t :=
  LoginRequest.mk "ann@example.com" "password123".

(** What the profile request of a caller answers who has just logged in
    as Ann on backend [h]. *)
Definition profile_after_login (h : Handler) : option Response :=
  let login :=
    Login (H := Plain.libs) h Sample.env Sample.context
          (binding.Decoded ann_logs_in) in
  match middleware.JWTAuth (H := Plain.libs) environment 1700002000
          (gin.mkContext ("Bearer " ++ token_of login) (gin.Keys Sample.context)) with
  | middleware.Next c => fst (GetProfile (H := Plain.libs) (snd login) c)
  | middleware.Abort r => Some r
  end.

(** Two distinct passwords of six and thirteen bytes that give the cipher
    the same key stream: the key is read cyclically, NUL terminator
    included. *)
Definition abcdef_twice : string := "abcdef" ++ String zero "abcdef".

Section Matching.
  Context `{Libraries}.

(** The users a list request matches, in the order the backend returns
    them: the rows that are not soft-deleted and match the search, sorted by
    the sort clause, respectively the matching documents in the order of
    the collection.  [None]: the database refuses the query. *)
Definition matching_rows (pg : PostgresDB.t) (query : PaginationQuery.t)
  : option (list User.t) :=
  order_by (order_clause (PaginationQuery.Sort query))
           (gorm.select (search_conds (PaginationQuery.Search query)) pg).


End Matching.

(** ** Further vocabulary *)

(** The status a handler answers with, if it answers. *)
Definition status_of (r : Result) : option Z := option_map fst (fst r).


(** The claims [GenerateToken] signs when the clock reads [clk]. *)
Definition claims_at (userID : any) (email username role : string)
    (clk : Clock) : jwt.Claims :=
  jwt.mkClaims userID email username role
               (Some (clk 0%nat + 24 * hour)) (Some (clk 1%nat)) (Some (clk 2%nat)).

(** The user a registration stores, under the key the backend gives it. *)
Definition new_User (req : RegisterRequest.t) (hashedPassword : string)
    (env : Env) (id : Z) : User.t :=
  User.mk id (RegisterRequest.Email req) (RegisterRequest.Username req)
          hashedPassword (RegisterRequest.FirstName req)
          (RegisterRequest.LastName req) "user" true
          (now env 0%nat) (now env 1%nat) None.

Definition new_UserMongo (req : RegisterRequest.t) (hashedPassword : string)
    (env : Env) (oid : ObjectID) : UserMongo.t :=
  UserMongo.mk oid (RegisterRequest.Email req) (RegisterRequest.Username req)
               hashedPassword (RegisterRequest.FirstName req)
               (RegisterRequest.LastName req) "user" true
               (now env 0%nat) (now env 1%nat).

(** The rules of the [binding] tags of [RegisterRequest] and
    [LoginRequest], field by field. *)
Definition valid_RegisterRequest `{Libraries} (r : RegisterRequest.t) : bool :=
  binding.required (RegisterRequest.Email r)
  && is_email (RegisterRequest.Email r)
  && binding.required (RegisterRequest.Username r)
  && binding.min_runes 3 (RegisterRequest.Username r)
  && binding.required (RegisterRequest.Password r)
  && binding.min_runes 6 (RegisterRequest.Password r)
  && binding.required (RegisterRequest.FirstName r)
  && binding.required (RegisterRequest.LastName r).

Definition valid_LoginRequest `{Libraries} (r : LoginRequest.t) : bool :=
  binding.required (LoginRequest.Email r)
  && is_email (LoginRequest.Email r)
  && binding.required (LoginRequest.Password r)
  && binding.min_runes 6 (LoginRequest.Password r).

(** A registration on the sample users. *)
Definition carl : RegisterRequest.t :=
  RegisterRequest.mk "carl@example.com" "carl" "password123" "Carl" "Orr".

Definition carl_registers (h : Handler) : Result :=
  Register (H := Plain.libs) h Sample.env Sample.context (binding.Decoded carl).


(** The envelope of an answer. *)
Definition envelope_of (r : Result) : APIResponse.t :=
  match fst r with
  | Some (_, resp) => resp
  | None => ErrorResponse "" ""
  end.


(** The answer of [RequireRole] to a role that is not required. *)
Definition forbidden : Response :=
  (net_http.StatusForbidden,
   APIResponse.mk false "Insufficient permissions" None
                  "You don't have permission to access this resource").

(** The context [JWTAuth] hands on for a token issued to these claims. *)
Definition authenticated (userID : any) (email username role : string)
    (Authorization : string) (c0 : gin.Context) : gin.Context :=
  gin.mkContext Authorization
    (<["user_role" := AString role]>
       (<["user_username" := AString username]>
          (<["user_email" := AString email]>
             (<["user_id" := json_Unmarshal (json_Marshal userID)]> (gin.Keys c0))))).

(** Whether a middleware lets the request through. *)
Definition let_through (o : middleware.outcome) : bool :=
  match o with
  | middleware.Next _ => true
  | middleware.Abort _ => false
  end.

(** A trace of requests, each with the address of its client and the time
    the limiter reads, served one after the other: who was let through,
    and the table afterwards. *)
Fixpoint serve (clients : gmap string middlewares.client)
    (reqs : list (string * time_.Instant)) (c : gin.Context)
  : list (string * bool) * gmap string middlewares.client :=
  match reqs with
  | [] => ([], clients)
  | (clientIP, now) :: rest =>
      let step := middlewares.RateLimiter clients clientIP now c in
      let run := serve (fst step) rest c in
      ((clientIP, let_through (snd step)) :: fst run, snd run)
  end.

Definition from {A : Type} (clientIP : string) (r : string * A) : bool :=
  String.eqb (fst r) clientIP.

(** The part of a string before the first occurrence of a character. *)
Fixpoint before (ch : ascii) (s : string) : string :=
  match s with
  | EmptyString => EmptyString
  | String c r => if Ascii.eqb c ch then EmptyString else String c (before ch r)
  end.

(** The language a request asks for: the header, else the query
    parameter, else the default of the localizer. *)
Definition requested_language (localizer : Localizer)
    (acceptLanguage queryLang : string) : string :=
  if negb (String.eqb acceptLanguage "") then acceptLanguage
  else if negb (String.eqb queryLang "") then queryLang
  else DefaultLanguage localizer.

(** The languages and the keys of the translation tables. *)
Definition languages : list string := ["en"; "ar"; "de"].

Definition message_keys : list string :=
  ["welcome"; "user_not_found"; "invalid_credentials"; "user_created";
   "login_successful"; "logout_successful"; "user_updated"; "user_deleted";
   "email_exists"; "username_exists"; "validation_error"; "internal_error";
   "unauthorized"; "forbidden"; "not_found"; "bad_request"].

(** What an environment variable holds, the empty string when it is not
    set. *)
Definition Getenv (env : gmap string string) (key : string) : string :=
  match env !! key with
  | Some value => value
  | None => ""
  end.

(** The spellings of a boolean setting, in lower case. *)
Definition spells_true (value : string) : bool :=
  existsb (String.eqb (strings_.ToLower value)) ["1"; "t"; "true"].

Definition spells_false (value : string) : bool :=
  existsb (String.eqb (strings_.ToLower value)) ["0"; "f"; "false"].

(** The secret the code falls back to. *)
Definition default_secret : string := "your-secret-key-change-this-in-production".

(** An environment in which nothing is set. *)
Definition no_variables : gmap string string := ∅.

Definition nobody : jwt.Claims :=
  jwt.mkClaims (AString "nobody") "" "nobody" "admin" None None None.

(** A caller the sample collection does not hold. *)
Definition stranger_context : gin.Context :=
  context_of (AString "64b7f3a2c1d4e5f60718293f").

(** The sample table after Carl has come and gone: his row is
    soft-deleted. *)
Definition carl_deleted : User.t :=
  User.mk 3 "carl@example.com" "carl" (Sample.password_hash "password123")
          "Carl" "Orr" "user" true 1700000200 1700000200 (Some 1700000300).

Definition archive : Handler :=
  mkHandler None
    (Some (PostgresDB.mk [Sample.ann; Sample.bob; carl_deleted] 4 true))
    (NewLocalizer "en") "secret".

(** A search for an opening parenthesis. *)
Definition search_parenthesis : binding.input binding.Query :=
  binding.Decoded (binding.mkQuery None None "" "(").

(** What the list of users answers to a caller who has just logged in on
    backend [h]. *)
Definition bob_logs_in : LoginRequest.t :=
  LoginRequest.mk "bob@example.com" "hunter2222".

Definition list_after_login (who : LoginRequest.t) (h : Handler) : routes.served :=
  let login :=
    Login (H := Plain.libs) h Sample.env Sample.context (binding.Decoded who) in
  routes.GET_users (H := Plain.libs) environment 1700002000 (snd login)
    (gin.mkContext ("Bearer " ++ token_of login) (gin.Keys Sample.context))
    Crowd.third_page_of_ten.

(** A burst of one client: a first request, then 120 within the second. *)
Definition burst : list (string * time_.Instant) :=
  List.repeat ("10.0.0.1", 1000000000) 120.

(** Two clients taking turns, and the table when the second has been
    seen before. *)
Definition two_clients : list (string * time_.Instant) :=
  [("10.0.0.1", 0); ("10.0.0.2", 5); ("10.0.0.1", 7); ("10.0.0.2", 9)].

Definition second_seen : gmap string middlewares.client :=
  {[ "10.0.0.2" := middlewares.mkClient 100 60000000000 ]}.

(** Three letters of two bytes each. *)
Definition three_letters : string := "ééé".

(** * Properties *)

(** ** Health *)

(** The handler in closed form. *)
Lemma HealthCheck_eval (h : Handler) pg_ping mongo_ping t :
  HealthCheck h pg_ping mongo_ping t =
  let ok :=
    match postgresDB h, pg_ping with Some _, Some _ => false | _, _ => true end
    && match mongoDB h, mongo_ping with Some _, Some _ => false | _, _ => true end in
  let s1 : gmap string string :=
    match postgresDB h with
    | Some _ => <["postgresql" := match pg_ping with None => "healthy" | Some _ => "unhealthy" end]> ∅
    | None => ∅ end in
  let s2 := match mongoDB h with
    | Some _ => <["mongodb" := match mongo_ping with None => "healthy" | Some _ => "unhealthy" end]> s1
    | None => s1 end in
  if ok then (Some (http.StatusOK, SuccessResponse "System is healthy" (DataHealth (HealthResponse.mk "healthy" t s2 "1.0.0"))), h)
  else (Some (http.StatusServiceUnavailable, ErrorResponse "System is unhealthy" "One or more services are down"), h).
Proof.
  unfold HealthCheck.
  destruct (postgresDB h), (mongoDB h), pg_ping, mongo_ping; reflexivity.
Qed.

Lemma all_succeed_spec h pg_ping mongo_ping :
  every_configured_backend_succeeds h pg_ping mongo_ping <->
  match postgresDB h, pg_ping with Some _, Some _ => false | _, _ => true end
    && match mongoDB h, mongo_ping with Some _, Some _ => false | _, _ => true end = true.
Proof.
  unfold every_configured_backend_succeeds.
  destruct (postgresDB h), (mongoDB h), pg_ping, mongo_ping; simpl; split;
    try discriminate; try reflexivity;
    try (intros _; split; intros; congruence);
    intros [Hp Hm];
    first [ specialize (Hp ltac:(discriminate)); discriminate Hp
          | specialize (Hm ltac:(discriminate)); discriminate Hm ].
Qed.

(** C7.  The health handler checks each configured backend on its own (the
    service map of a healthy answer has one entry per configured backend and
    none for the others) and answers 200 with status healthy if and only if
    every configured backend's check succeeds; otherwise, so as soon as one
    configured backend fails, it answers 503 with the unhealthy envelope. *)
Theorem HealthCheck_healthy_iff_all_succeed
    (h : Handler) (pg_ping mongo_ping : option string) (t : Time) :
  (every_configured_backend_succeeds h pg_ping mongo_ping
   <-> exists services,
         HealthCheck h pg_ping mongo_ping t
         = (Some (http.StatusOK,
                  SuccessResponse "System is healthy"
                    (DataHealth (HealthResponse.mk "healthy" t services "1.0.0"))),
            h)
         /\ services !! "postgresql"
            = service_status (bool_decide (postgresDB h <> None)) pg_ping
         /\ services !! "mongodb"
            = service_status (bool_decide (mongoDB h <> None)) mongo_ping)
  /\ (~ every_configured_backend_succeeds h pg_ping mongo_ping
      <-> HealthCheck h pg_ping mongo_ping t
          = (Some (http.StatusServiceUnavailable,
                   ErrorResponse "System is unhealthy"
                                 "One or more services are down"), h)).
Proof.
  rewrite all_succeed_spec, HealthCheck_eval. cbv zeta.
  destruct (_ && _) eqn:Hok.
  - split; split.
    + intros _. eexists. split; [reflexivity |].
      unfold service_status.
      destruct (postgresDB h), (mongoDB h); simpl; split;
        rewrite ?lookup_insert_ne by discriminate;
        rewrite ?lookup_insert_eq, ?lookup_empty; reflexivity.
    + reflexivity.
    + intros Hn. exfalso. apply Hn. reflexivity.
    + discriminate.
  - split; split.
    + discriminate.
    + intros [s [E _]]. discriminate E.
    + reflexivity.
    + intros _. discriminate.
Qed.

(** ** Tokens *)

Section Tokens.
  Context `{Libraries}.

Lemma ValidateToken_SignedString (secret : string) (c : jwt.Claims) (now : Time) :
  jwt.ValidateToken secret (jwt.SignedString c secret) now
  = match jwt.validate (jwt.unmarshal (jwt.marshal c)) now with
    | Some e => inl e
    | None => inr (jwt.unmarshal (jwt.marshal c))
    end.
Proof.
  unfold jwt.ValidateToken, jwt.ParseWithClaims, jwt.SignedString.
  rewrite parse_compact_compact. cbn [jose.alg jose.payload jose.signature].
  change (jwt.is_hmac "HS256") with true. cbn [negb].
  rewrite String.eqb_refl. cbn [negb].
  destruct (jwt.validate _ now); reflexivity.
Qed.

Lemma validate_issued (userID : any) (email username role : string) (t now : Time) :
  jwt.validate (verified_claims userID email username role t) now
  = if t + 24 * hour <=? now then Some jwt.ErrTokenExpired
    else if now <? t then Some jwt.ErrTokenNotValidYet
    else None.
Proof.
  unfold jwt.validate, jwt.expired, jwt.not_valid_yet, verified_claims, issued_claims.
  cbn [jwt.ExpiresAt jwt.NotBefore].
  destruct (Z.ltb_spec now (t + 24 * hour)), (Z.leb_spec (t + 24 * hour) now);
    try lia; reflexivity.
Qed.

(** C4.  A token issued at time [t] (the clock reads [t] throughout the
    call) carries the identity and [iat = t], [nbf = t], [exp = t + 24h],
    and the issuer returns [t + 24h] as its expiry.  Verified with the same
    secret it is accepted, with those claims, at every time from [t] up to
    but excluding [t + 24h] (so at [t + 23h59m]), and refused as expired at
    [t + 24h] and at every later time (so at [t + 24h1m]). *)
Theorem token_valid_for_24_hours
    (secret : string) (userID : any) (email username role : string) (t : Time) :
  exists tokenString tok,
    jwt.GenerateToken secret userID email username role (fun _ => t)
    = inr (tokenString, t + 24 * hour)
    /\ parse_compact tokenString = Some tok
    /\ jose.payload tok
       = jose.mkPayload (json_Marshal userID) email username role
                        (Some (t + 24 * hour)) (Some t) (Some t)
    /\ (forall now, t <= now < t + 24 * hour ->
          jwt.ValidateToken secret tokenString now
          = inr (verified_claims userID email username role t))
    /\ jwt.ValidateToken secret tokenString (t + 23 * hour + 59 * minute)
       = inr (verified_claims userID email username role t)
    /\ (forall now, t + 24 * hour <= now ->
          jwt.ValidateToken secret tokenString now = inl jwt.ErrTokenExpired)
    /\ jwt.ValidateToken secret tokenString (t + 24 * hour + 1 * minute)
       = inl jwt.ErrTokenExpired.
Proof.
  unfold jwt.GenerateToken.
  eexists. eexists. split; [reflexivity |].
  split; [unfold jwt.SignedString; apply parse_compact_compact |].
  split; [reflexivity |].
  assert (V : forall now,
             jwt.ValidateToken secret
               (jwt.SignedString (issued_claims userID email username role t) secret) now
             = if t + 24 * hour <=? now then inl jwt.ErrTokenExpired
               else if now <? t then inl jwt.ErrTokenNotValidYet
               else inr (verified_claims userID email username role t)).
  { intros now. rewrite ValidateToken_SignedString.
    change (jwt.unmarshal (jwt.marshal (issued_claims userID email username role t)))
      with (verified_claims userID email username role t).
    rewrite validate_issued.
    destruct (t + 24 * hour <=? now); [reflexivity |].
    destruct (now <? t); reflexivity. }
  unfold issued_claims in V.
  repeat split.
  - intros now [H1 H2]. rewrite V.
    destruct (Z.leb_spec (t + 24 * hour) now); [lia |].
    destruct (Z.ltb_spec now t); [lia | reflexivity].
  - rewrite V. unfold hour, minute.
    destruct (Z.leb_spec (t + 24 * 3600) (t + 23 * 3600 + 59 * 60)); [lia |].
    destruct (Z.ltb_spec (t + 23 * 3600 + 59 * 60) t); [lia | reflexivity].
  - intros now H1. rewrite V.
    destruct (Z.leb_spec (t + 24 * hour) now); [reflexivity | lia].
  - rewrite V. unfold hour, minute.
    destruct (Z.leb_spec (t + 24 * 3600) (t + 24 * 3600 + 1 * 60)); [reflexivity | lia].
Qed.

End Tokens.

Lemma token_valid_for_24_hours_witness :
  exists tokenString tok,
    jwt.GenerateToken (H := Plain.libs) "secret" (AUint 7) "ann@example.com"
                      "ann" "user" (fun _ => 1700000000)
    = inr (tokenString, 1700000000 + 24 * hour)
    /\ parse_compact tokenString = Some tok
    /\ jose.payload tok
       = jose.mkPayload (JNumber 7) "ann@example.com" "ann" "user"
                        (Some (1700000000 + 24 * hour)) (Some 1700000000)
                        (Some 1700000000)
    /\ (forall now, 1700000000 <= now < 1700000000 + 24 * hour ->
          jwt.ValidateToken "secret" tokenString now
          = inr (verified_claims (AUint 7) "ann@example.com" "ann" "user" 1700000000))
    /\ jwt.ValidateToken "secret" tokenString (1700000000 + 23 * hour + 59 * minute)
       = inr (verified_claims (AUint 7) "ann@example.com" "ann" "user" 1700000000)
    /\ (forall now, 1700000000 + 24 * hour <= now ->
          jwt.ValidateToken "secret" tokenString now = inl jwt.ErrTokenExpired)
    /\ jwt.ValidateToken "secret" tokenString (1700000000 + 24 * hour + 1 * minute)
       = inl jwt.ErrTokenExpired.
Proof.
  exact (token_valid_for_24_hours (H := Plain.libs) "secret" (AUint 7)
           "ann@example.com" "ann" "user" 1700000000).
Defined.

(** ** Strings *)

Lemma length_append (a b : string) :
  String.length (a ++ b) = (String.length a + String.length b)%nat.
Proof. induction a as [| c a IH]; simpl; [reflexivity | rewrite IH; reflexivity]. Qed.

Lemma substring_0_length (s : string) :
  String.substring 0 (String.length s) s = s.
Proof. induction s as [| c s IH]; simpl; [reflexivity | rewrite IH; reflexivity]. Qed.

Lemma substring_prefix (a b : string) :
  String.substring 0 (String.length a) (a ++ b) = a.
Proof.
  induction a as [| c a IH]; simpl.
  - destruct b; reflexivity.
  - rewrite IH. reflexivity.
Qed.

Lemma substring_suffix (a b : string) :
  String.substring (String.length a) (String.length b) (a ++ b) = b.
Proof.
  induction a as [| c a IH]; simpl; [apply substring_0_length | exact IH].
Qed.

Lemma eqb_append (a b c : string) :
  String.eqb (a ++ b) (a ++ c) = String.eqb b c.
Proof.
  induction a as [| x a IH]; simpl; [reflexivity |].
  rewrite Ascii.eqb_refl. exact IH.
Qed.

(** ** Credential codec *)

Section Credentials.
  Context `{Libraries}.

Lemma Hash_default (s d : string) :
  bcrypt.Hash (bcrypt.mkHashed d s bcrypt.DefaultCost "2" (Some "a"%char))
  = String "$" (String "2" (String "a" (String "$" (String "1" (String "0"
      (String "$" (s ++ d))))))).
Proof. reflexivity. Qed.

Lemma newFromHash_prefixed (rest : string) :
  (52 <= String.length rest)%nat ->
  bcrypt.newFromHash
    (String "$" (String "2" (String "a" (String "$" (String "1" (String "0"
      (String "$" rest)))))))
  = inr (bcrypt.mkHashed
           (String.substring bcrypt.encodedSaltSize
              (String.length rest - bcrypt.encodedSaltSize) rest)
           (String.substring 0 bcrypt.encodedSaltSize rest)
           bcrypt.DefaultCost "2" (Some "a"%char)).
Proof.
  intros Hlen. unfold bcrypt.newFromHash.
  replace (String.length _ <? bcrypt.minHashSize)%nat with false.
  2:{ symmetry. apply Nat.ltb_ge. unfold bcrypt.minHashSize. simpl. lia. }
  simpl. rewrite Nat.sub_0_r, !substring_0_length. reflexivity.
Qed.

(** A hash the codec has produced parses back to its parts. *)
Lemma newFromHash_Hash (salt : bcrypt.Salt) (d : string) :
  String.length d = 31%nat ->
  bcrypt.newFromHash
    (bcrypt.Hash (bcrypt.mkHashed d (bcrypt.salt_chars salt) bcrypt.DefaultCost
                                  "2" (Some "a"%char)))
  = inr (bcrypt.mkHashed d (bcrypt.salt_chars salt) bcrypt.DefaultCost
                         "2" (Some "a"%char)).
Proof.
  intros Hd. destruct salt as [s Hs]. cbn [bcrypt.salt_chars].
  rewrite Hash_default, newFromHash_prefixed.
  2:{ rewrite length_append, Hs, Hd. unfold bcrypt.encodedSaltSize. lia. }
  rewrite length_append, Hs, Nat.add_comm, Nat.add_sub, <- Hs.
  rewrite substring_prefix, substring_suffix. reflexivity.
Qed.

(** Verifying against a hash the codec has produced compares digests. *)
Lemma VerifyPassword_HashPassword (p1 p2 : string) (rand : option bcrypt.Salt)
    (hashedPassword : string) :
  HashPassword p1 rand = inr hashedPassword ->
  exists salt,
    rand = Some salt
    /\ VerifyPassword hashedPassword p2
       = if String.eqb
              (eks_blowfish bcrypt.DefaultCost (bcrypt.salt_chars salt)
                            (bcrypt.key_stream p1))
              (eks_blowfish bcrypt.DefaultCost (bcrypt.salt_chars salt)
                            (bcrypt.key_stream p2))
         then None
         else Some bcrypt.ErrMismatchedHashAndPassword.
Proof.
  unfold HashPassword, bcrypt.GenerateFromPassword, bcrypt.newFromPassword.
  destruct (72 <? String.length p1)%nat; [discriminate |].
  change (bcrypt.DefaultCost <? bcrypt.MinCost) with false. cbv iota.
  change (negb (bcrypt.checkCost bcrypt.DefaultCost)) with false. cbv iota.
  destruct rand as [salt |]; [| discriminate].
  unfold bcrypt.bcrypt.
  destruct (salt_decodes (bcrypt.salt_chars salt)) eqn:Hsalt; [| discriminate].
  intros E. injection E as <-.
  exists salt. split; [reflexivity |].
  unfold VerifyPassword, bcrypt.CompareHashAndPassword.
  rewrite newFromHash_Hash by apply eks_blowfish_length.
  cbn [bcrypt.cost bcrypt.salt bcrypt.major bcrypt.minor bcrypt.hash].
  unfold bcrypt.bcrypt. rewrite Hsalt.
  rewrite !Hash_default.
  cbn [String.eqb]. rewrite !Ascii.eqb_refl.
  rewrite eqb_append. reflexivity.
Qed.

Lemma key_stream_from_prefix (n : nat) :
  forall (a b b' key key' : string),
    (n <= String.length a)%nat ->
    bcrypt.key_stream_from n key (a ++ b) = bcrypt.key_stream_from n key' (a ++ b').
Proof.
  induction n as [| n IH]; intros a b b' key key' Hn; [reflexivity |].
  destruct a as [| c a]; simpl in Hn; [lia |].
  simpl. f_equal. apply IH. lia.
Qed.

Lemma append_assoc (a b c : string) : (a ++ b) ++ c = a ++ (b ++ c).
Proof.
  induction a as [| x a IH]; [reflexivity |].
  change (String x ((a ++ b) ++ c) = String x (a ++ (b ++ c))).
  f_equal. exact IH.
Qed.

(** Only the first 72 bytes of a password reach the cipher. *)
Lemma key_stream_extension (p suffix : string) :
  (72 <= String.length p)%nat ->
  bcrypt.key_stream (p ++ suffix) = bcrypt.key_stream p.
Proof.
  intros Hp. unfold bcrypt.key_stream. cbv zeta.
  rewrite append_assoc. apply key_stream_from_prefix. exact Hp.
Qed.

(** C9, as the code has it.  For every password of at most 72 bytes and
    every salt the hashing step draws (one that decodes), the hash is
    produced and the password verifies against it.  Verifying any other
    password against that hash never ends in an error of its own: it
    succeeds when the two passwords have the same digest under the hash's
    salt and cost, which is the case whenever they give the cipher the same
    72-byte key stream, and it is a mismatch otherwise. *)
Theorem verify_against_own_hash (p1 p2 : string) (salt : bcrypt.Salt) :
  (String.length p1 <= 72)%nat ->
  salt_decodes (bcrypt.salt_chars salt) = true ->
  exists hashedPassword,
    HashPassword p1 (Some salt) = inr hashedPassword
    /\ VerifyPassword hashedPassword p1 = None
    /\ VerifyPassword hashedPassword p2
       = (if String.eqb
               (eks_blowfish bcrypt.DefaultCost (bcrypt.salt_chars salt)
                             (bcrypt.key_stream p1))
               (eks_blowfish bcrypt.DefaultCost (bcrypt.salt_chars salt)
                             (bcrypt.key_stream p2))
          then None
          else Some bcrypt.ErrMismatchedHashAndPassword)
    /\ (bcrypt.key_stream p1 = bcrypt.key_stream p2 ->
        VerifyPassword hashedPassword p2 = None).
Proof.
  intros Hlen Hsalt.
  assert (E : exists h, HashPassword p1 (Some salt) = inr h).
  { unfold HashPassword, bcrypt.GenerateFromPassword, bcrypt.newFromPassword,
      bcrypt.bcrypt.
    destruct (Nat.ltb_spec 72 (String.length p1)); [lia |].
    change (bcrypt.DefaultCost <? bcrypt.MinCost) with false. cbv iota.
    change (negb (bcrypt.checkCost bcrypt.DefaultCost)) with false. cbv iota.
    rewrite Hsalt. eexists. reflexivity. }
  destruct E as [h E]. exists h. split; [exact E |].
  destruct (VerifyPassword_HashPassword p1 p1 _ _ E) as [s1 [Hs1 V1]].
  destruct (VerifyPassword_HashPassword p1 p2 _ _ E) as [s2 [Hs2 V2]].
  injection Hs1 as <-. injection Hs2 as <-.
  rewrite String.eqb_refl in V1.
  split; [exact V1 |]. split; [exact V2 |].
  intros K. rewrite V2, K, String.eqb_refl. reflexivity.
Qed.

(** A password of 72 bytes or more and any extension of it verify against
    each other's hash. *)
Lemma extension_verifies (p suffix hashedPassword : string)
    (rand : option bcrypt.Salt) :
  (72 <= String.length p)%nat ->
  HashPassword p rand = inr hashedPassword ->
  VerifyPassword hashedPassword (p ++ suffix) = None.
Proof.
  intros Hp E.
  destruct (VerifyPassword_HashPassword p (p ++ suffix) _ _ E) as [s [_ V]].
  rewrite V, key_stream_extension, String.eqb_refl by exact Hp. reflexivity.
Qed.

End Credentials.

Lemma verify_against_own_hash_witness :
  exists hashedPassword,
    HashPassword (H := Plain.libs) "password123" (Some salt0) = inr hashedPassword
    /\ VerifyPassword hashedPassword "password123" = None
    /\ VerifyPassword hashedPassword "password124"
       = (if String.eqb
               (eks_blowfish bcrypt.DefaultCost (bcrypt.salt_chars salt0)
                             (bcrypt.key_stream "password123"))
               (eks_blowfish bcrypt.DefaultCost (bcrypt.salt_chars salt0)
                             (bcrypt.key_stream "password124"))
          then None
          else Some bcrypt.ErrMismatchedHashAndPassword)
    /\ (bcrypt.key_stream "password123" = bcrypt.key_stream "password124" ->
        VerifyPassword hashedPassword "password124" = None).
Proof.
  apply (verify_against_own_hash (H := Plain.libs) "password123" "password124" salt0).
  - simpl. lia.
  - reflexivity.
Defined.

(** C9 as stated fails: two distinct passwords, the second verifies against
    the hash of the first. *)
Lemma distinct_passwords_verify :
  seventy_two_a <> seventy_two_a ++ "b"
  /\ exists hashedPassword,
       HashPassword (H := Plain.libs) seventy_two_a (Some salt0)
       = inr hashedPassword
       /\ VerifyPassword hashedPassword (seventy_two_a ++ "b") = None.
Proof.
  split; [discriminate |].
  exists "$2a$10$abcdefghijklmnopqrstuvaaaaaaaaaaaaaaaaaaaaaaaaaaaaaaa".
  split; [reflexivity |].
  apply (extension_verifies (H := Plain.libs) seventy_two_a "b" _ (Some salt0));
    [simpl; lia | reflexivity].
Qed.

(** ** Queries *)

Lemma lowest_In (l : list User.t) (u : User.t) :
  gorm.lowest l = Some u -> In u l.
Proof.
  revert u. induction l as [| v r IH]; intros u; simpl; [discriminate |].
  destruct (gorm.lowest r) as [w |].
  - destruct (User.ID v <=? User.ID w); intros E; injection E as <-;
      [left; reflexivity | right; apply IH; reflexivity].
  - intros E; injection E as <-. left; reflexivity.
Qed.

Lemma lowest_Some (l : list User.t) :
  l <> [] -> exists u, gorm.lowest l = Some u.
Proof.
  destruct l as [| v r]; [congruence |]. intros _. simpl.
  destruct (gorm.lowest r) as [w |]; [destruct (User.ID v <=? User.ID w) |];
    eexists; reflexivity.
Qed.

Section Queries.
  Context `{Libraries}.

Lemma select_In (conds : list gorm.cond) (db : PostgresDB.t) (u : User.t) :
  In u (gorm.select conds db)
  <-> In u (PostgresDB.rows db) /\ gorm.live u = true
      /\ forallb (fun c => gorm.holds c u) conds = true.
Proof.
  unfold gorm.select. rewrite filter_In, andb_true_iff. tauto.
Qed.

Lemma First_found (conds : list gorm.cond) (db : PostgresDB.t) (u : User.t) :
  gorm.First conds db = inr u ->
  In u (PostgresDB.rows db) /\ gorm.live u = true
  /\ forallb (fun c => gorm.holds c u) conds = true.
Proof.
  unfold gorm.First. destruct (gorm.lowest _) as [v |] eqn:E; [| discriminate].
  intros I; injection I as <-. apply select_In, lowest_In, E.
Qed.

Lemma First_exists (conds : list gorm.cond) (db : PostgresDB.t) (u : User.t) :
  In u (PostgresDB.rows db) -> gorm.live u = true ->
  forallb (fun c => gorm.holds c u) conds = true ->
  exists v, gorm.First conds db = inr v.
Proof.
  intros Hin Hl Hc. unfold gorm.First.
  destruct (lowest_Some (gorm.select conds db)) as [v E].
  - intros E. assert (I : In u (gorm.select conds db)) by (apply select_In; auto).
    rewrite E in I. exact I.
  - rewrite E. eexists; reflexivity.
Qed.

Lemma First_missing (conds : list gorm.cond) (db : PostgresDB.t) :
  (forall u, In u (PostgresDB.rows db) -> gorm.live u = true ->
             forallb (fun c => gorm.holds c u) conds = false) ->
  gorm.First conds db = inl gorm.ErrRecordNotFound.
Proof.
  intros Hno. destruct (gorm.First conds db) as [e | u] eqn:E.
  - unfold gorm.First in E. destruct (gorm.lowest _); [discriminate |].
    injection E as <-. reflexivity.
  - apply First_found in E. destruct E as (Hin & Hl & Hc).
    rewrite (Hno u Hin Hl) in Hc. discriminate.
Qed.

Lemma FindOne_found (f : bson.M) (db : MongoDB.t) (u : UserMongo.t) :
  mongo.FindOne f db = inr u ->
  In u (MongoDB.docs db) /\ mongo.selects f u = true.
Proof.
  unfold mongo.FindOne. destruct (mongo.compiles f); [| discriminate]. cbn [negb].
  destruct (find _ _) as [v |] eqn:E; [| discriminate].
  intros I; injection I as <-. apply find_some in E. exact E.
Qed.

Lemma FindOne_exists (f : bson.M) (db : MongoDB.t) (u : UserMongo.t) :
  mongo.compiles f = true ->
  In u (MongoDB.docs db) -> mongo.selects f u = true ->
  exists v, mongo.FindOne f db = inr v.
Proof.
  intros Hc Hin Hs. unfold mongo.FindOne. rewrite Hc. cbn [negb].
  destruct (find _ _) as [v |] eqn:E; [eexists; reflexivity |].
  rewrite (find_none _ _ E u Hin) in Hs. discriminate.
Qed.

Lemma FindOne_missing (f : bson.M) (db : MongoDB.t) :
  (forall u, In u (MongoDB.docs db) -> mongo.selects f u = false) ->
  exists e, mongo.FindOne f db = inl e.
Proof.
  intros Hno. destruct (mongo.FindOne f db) as [e | u] eqn:E; [eexists; reflexivity |].
  apply FindOne_found in E. destruct E as [Hin Hs].
  rewrite (Hno u Hin) in Hs. discriminate.
Qed.

End Queries.

(** ** The users of the active backend *)

Lemma accounts_postgres (h : Handler) (pg : PostgresDB.t) (users : list Account)
    (a : Account) :
  postgresDB h = Some pg -> accounts h = Some users ->
  In a users
  <-> exists u, In u (PostgresDB.rows pg) /\ gorm.live u = true
                /\ a = Account_of_User u.
Proof.
  unfold accounts. intros -> E. injection E as <-.
  rewrite in_map_iff. split.
  - intros (u & <- & Hin). apply filter_In in Hin. exists u. tauto.
  - intros (u & Hin & Hl & ->). exists u. split; [reflexivity |].
    apply filter_In. tauto.
Qed.

Lemma accounts_mongo (h : Handler) (mg : MongoDB.t) (users : list Account)
    (a : Account) :
  postgresDB h = None -> mongoDB h = Some mg -> accounts h = Some users ->
  In a users <-> exists u, In u (MongoDB.docs mg) /\ a = Account_of_UserMongo u.
Proof.
  unfold accounts. intros -> -> E. injection E as <-.
  rewrite in_map_iff. split.
  - intros (u & <- & Hin). exists u. tauto.
  - intros (u & Hin & ->). exists u. tauto.
Qed.

(** ** Login *)

Section LoginProperties.
  Context `{Libraries}.

Lemma Login_unknown_email (h : Handler) (env : Env) (c : gin.Context)
    (body : binding.input LoginRequest.t) (req : LoginRequest.t)
    (users : list Account) :
  accounts h = Some users ->
  binding.ShouldBindJSON_LoginRequest body = inr req ->
  (forall a, In a users -> email_of a <> LoginRequest.Email req) ->
  Login h env c body = (denied h c, h).
Proof.
  intros Hacc Hbind Hno. unfold Login. rewrite Hbind.
  destruct (postgresDB h) as [pg |] eqn:Hpg.
  - rewrite First_missing; [reflexivity |].
    intros u Hin Hl. cbn [forallb gorm.holds gorm.column]. rewrite andb_true_r.
    apply String.eqb_neq. intros E.
    apply (Hno (Account_of_User u)); [| exact E].
    apply (accounts_postgres h pg users _ Hpg Hacc). exists u. tauto.
  - destruct (mongoDB h) as [mg |] eqn:Hmg;
      [| unfold accounts in Hacc; rewrite Hpg, Hmg in Hacc; discriminate].
    destruct (FindOne_missing (bson.Is email (LoginRequest.Email req)) mg) as [e E].
    + intros u Hin. cbn [mongo.selects mongo.key].
      apply String.eqb_neq. intros E.
      apply (Hno (Account_of_UserMongo u)); [| exact E].
      apply (accounts_mongo h mg users _ Hpg Hmg Hacc). exists u. tauto.
    + rewrite E. reflexivity.
Qed.

Lemma Login_wrong_password (h : Handler) (env : Env) (c : gin.Context)
    (body : binding.input LoginRequest.t) (req : LoginRequest.t)
    (users : list Account) :
  accounts h = Some users ->
  binding.ShouldBindJSON_LoginRequest body = inr req ->
  (forall a, In a users -> email_of a = LoginRequest.Email req ->
             VerifyPassword (hash_of a) (LoginRequest.Password req) <> None) ->
  Login h env c body = (denied h c, h).
Proof.
  intros Hacc Hbind Hbad. unfold Login. rewrite Hbind.
  destruct (postgresDB h) as [pg |] eqn:Hpg.
  - destruct (gorm.First _ pg) as [e | u] eqn:E; [reflexivity |].
    apply First_found in E. destruct E as (Hin & Hl & Hc).
    cbn [forallb gorm.holds gorm.column] in Hc. rewrite andb_true_r in Hc.
    apply String.eqb_eq in Hc.
    destruct (VerifyPassword (User.Password u) _) eqn:V; [reflexivity |].
    exfalso. apply (Hbad (Account_of_User u)); [| exact Hc | exact V].
    apply (accounts_postgres h pg users _ Hpg Hacc). exists u. tauto.
  - destruct (mongoDB h) as [mg |] eqn:Hmg;
      [| unfold accounts in Hacc; rewrite Hpg, Hmg in Hacc; discriminate].
    destruct (mongo.FindOne _ mg) as [e | u] eqn:E; [reflexivity |].
    apply FindOne_found in E. destruct E as (Hin & Hc).
    cbn [mongo.selects mongo.key] in Hc. apply String.eqb_eq in Hc.
    destruct (VerifyPassword (UserMongo.Password u) _) eqn:V; [reflexivity |].
    exfalso. apply (Hbad (Account_of_UserMongo u)); [| exact Hc | exact V].
    apply (accounts_mongo h mg users _ Hpg Hmg Hacc). exists u. tauto.
Qed.

(** C3.  Two login requests in the same language, the first with an email
    no stored user has, the second with the email of a stored user and a
    password that does not verify against that user's hash: both are
    answered 401 with the same envelope (success false, the localized
    invalid-credentials message, error "Authentication failed", no data),
    and neither changes the backends. *)
Theorem Login_failures_indistinguishable
    (h : Handler) (env1 env2 : Env) (c1 c2 : gin.Context)
    (body1 body2 : binding.input LoginRequest.t) (req1 req2 : LoginRequest.t)
    (users : list Account) :
  accounts h = Some users ->
  gin.GetString "language" c1 = gin.GetString "language" c2 ->
  binding.ShouldBindJSON_LoginRequest body1 = inr req1 ->
  binding.ShouldBindJSON_LoginRequest body2 = inr req2 ->
  (forall a, In a users -> email_of a <> LoginRequest.Email req1) ->
  (exists a, In a users /\ email_of a = LoginRequest.Email req2) ->
  (forall a, In a users -> email_of a = LoginRequest.Email req2 ->
             VerifyPassword (hash_of a) (LoginRequest.Password req2) <> None) ->
  let answer :=
    Some (http.StatusUnauthorized,
          APIResponse.mk false
            (Get (localizer h) (gin.GetString "language" c1) "invalid_credentials")
            None "Authentication failed") in
  Login h env1 c1 body1 = (answer, h) /\ Login h env2 c2 body2 = (answer, h).
Proof.
  intros Hacc Hlang Hb1 Hb2 Hunknown _ Hwrong answer. split.
  - exact (Login_unknown_email h env1 c1 body1 req1 users Hacc Hb1 Hunknown).
  - rewrite (Login_wrong_password h env2 c2 body2 req2 users Hacc Hb2 Hwrong).
    unfold denied, answer. rewrite Hlang. reflexivity.
Qed.

End LoginProperties.

(** ** Register *)

Section RegisterProperties.
  Context `{Libraries}.

Lemma First_none (conds : list gorm.cond) (db : PostgresDB.t) (e : gorm.error)
    (u : User.t) :
  gorm.First conds db = inl e ->
  In u (PostgresDB.rows db) -> gorm.live u = true ->
  forallb (fun c => gorm.holds c u) conds = false.
Proof.
  intros E Hin Hl.
  destruct (forallb _ conds) eqn:Hc; [| reflexivity].
  destruct (First_exists conds db u Hin Hl Hc) as [v Ev]. congruence.
Qed.

Lemma FindOne_none (f : bson.M) (db : MongoDB.t) (e : mongo.error)
    (u : UserMongo.t) :
  mongo.compiles f = true ->
  mongo.FindOne f db = inl e -> In u (MongoDB.docs db) ->
  mongo.selects f u = false.
Proof.
  intros Hc E Hin.
  destruct (mongo.selects f u) eqn:Hs; [| reflexivity].
  destruct (FindOne_exists f db u Hc Hin Hs) as [v Ev]. congruence.
Qed.





End RegisterProperties.

(** *** On the sample users *)

Lemma Login_failures_indistinguishable_witness :
  Login (H := Plain.libs) Sample.relational Sample.env Sample.context
        (binding.Decoded (LoginRequest.mk "zed@example.com" "password123"))
  = (Some (http.StatusUnauthorized,
           APIResponse.mk false
             (Get (localizer Sample.relational)
                  (gin.GetString "language" Sample.context) "invalid_credentials")
             None "Authentication failed"), Sample.relational)
  /\ Login (H := Plain.libs) Sample.relational Sample.env Sample.context
           (binding.Decoded (LoginRequest.mk "ann@example.com" "password124"))
     = (Some (http.StatusUnauthorized,
              APIResponse.mk false
                (Get (localizer Sample.relational)
                     (gin.GetString "language" Sample.context) "invalid_credentials")
                None "Authentication failed"), Sample.relational).
Proof.
  apply (Login_failures_indistinguishable (H := Plain.libs)
           Sample.relational Sample.env Sample.env Sample.context Sample.context
           (binding.Decoded (LoginRequest.mk "zed@example.com" "password123"))
           (binding.Decoded (LoginRequest.mk "ann@example.com" "password124"))
           (LoginRequest.mk "zed@example.com" "password123")
           (LoginRequest.mk "ann@example.com" "password124")
           Sample.users).
  - reflexivity.
  - reflexivity.
  - reflexivity.
  - reflexivity.
  - intros a [<- | [<- | []]]; discriminate.
  - eexists. split; [left; reflexivity | reflexivity].
  - intros a [<- | [<- | []]] E V; [vm_compute in V | vm_compute in E]; discriminate.
Defined.


(** ** No backend configured *)

Section Unconfigured.
  Context `{Libraries}.

(** C8, as the code has it.  When neither backend is configured, a
    registration that passes validation and whose password has been hashed,
    and every login, get-profile, update-profile and list-users request
    that passes validation, get no response and change nothing.  A
    registration whose password cannot be hashed is answered 500 before any
    backend is looked at, and the health handler answers 200 with status
    healthy and an empty service map. *)
Theorem no_backend_no_response (h : Handler) (env : Env) (c : gin.Context) :
  postgresDB h = None ->
  mongoDB h = None ->
  (forall body req hashedPassword,
      binding.ShouldBindJSON_RegisterRequest body = inr req ->
      HashPassword (RegisterRequest.Password req) (rand env) = inr hashedPassword ->
      Register h env c body = (None, h))
  /\ (forall body req,
        binding.ShouldBindJSON_LoginRequest body = inr req ->
        Login h env c body = (None, h))
  /\ GetProfile h c = (None, h)
  /\ (forall body req,
        binding.ShouldBindJSON_UpdateUserRequest body = inr req ->
        UpdateProfile h env c body = (None, h))
  /\ (forall q query,
        binding.ShouldBindQuery q = inr query ->
        GetUsers h c q = (None, h))
  /\ (forall body req e,
        binding.ShouldBindJSON_RegisterRequest body = inr req ->
        HashPassword (RegisterRequest.Password req) (rand env) = inl e ->
        Register h env c body
        = (Some (http.StatusInternalServerError,
                 ErrorResponse (Get (localizer h) (gin.GetString "language" c)
                                    "internal_error")
                               "Failed to process password"), h))
  /\ (forall pg_ping mongo_ping t,
        HealthCheck h pg_ping mongo_ping t
        = (Some (http.StatusOK,
                 SuccessResponse "System is healthy"
                   (DataHealth (HealthResponse.mk "healthy" t ∅ "1.0.0"))), h)).
Proof.
  intros Hpg Hmg. repeat split.
  - intros body req hashed Hb Hh. unfold Register. rewrite Hb, Hh, Hpg, Hmg. reflexivity.
  - intros body req Hb. unfold Login. rewrite Hb, Hpg, Hmg. reflexivity.
  - unfold GetProfile. rewrite Hpg, Hmg. reflexivity.
  - intros body req Hb. unfold UpdateProfile. rewrite Hb, Hpg, Hmg. reflexivity.
  - intros q query Hb. unfold GetUsers. rewrite Hb, Hpg, Hmg. reflexivity.
  - intros body req e Hb Hh. unfold Register. rewrite Hb, Hh. reflexivity.
  - intros pg_ping mongo_ping t. rewrite HealthCheck_eval, Hpg, Hmg. reflexivity.
Qed.

End Unconfigured.

Lemma no_backend_no_response_witness :
  Login (H := Plain.libs) Sample.unconfigured Sample.env Sample.context
        (binding.Decoded (LoginRequest.mk "ann@example.com" "password123"))
  = (None, Sample.unconfigured).
Proof.
  exact (proj1 (proj2 (no_backend_no_response (H := Plain.libs)
                         Sample.unconfigured Sample.env Sample.context
                         eq_refl eq_refl))
               (binding.Decoded (LoginRequest.mk "ann@example.com" "password123"))
               (LoginRequest.mk "ann@example.com" "password123") eq_refl).
Defined.

(** C8 as stated fails: a registration that passes validation, with no
    backend configured, is answered with an error envelope. *)
Lemma unhashable_password_answered_without_backend :
  postgresDB Sample.unconfigured = None
  /\ mongoDB Sample.unconfigured = None
  /\ binding.ShouldBindJSON_RegisterRequest (H := Plain.libs)
       (binding.Decoded (RegisterRequest.mk "ann@example.com" "ann"
                                            seventy_three_a "Ann" "Lee"))
     = inr (RegisterRequest.mk "ann@example.com" "ann" seventy_three_a "Ann" "Lee")
  /\ Register (H := Plain.libs) Sample.unconfigured Sample.env Sample.context
       (binding.Decoded (RegisterRequest.mk "ann@example.com" "ann"
                                            seventy_three_a "Ann" "Lee"))
     = (Some (500, APIResponse.mk false "Internal server error" None
                                  "Failed to process password"),
        Sample.unconfigured).
Proof. repeat split; reflexivity. Qed.

(** ** Update profile *)

Lemma apply_set_document (req : UpdateUserRequest.t) (t : Time) (u : UserMongo.t) :
  mongo.apply_set (set_document req t) u = expected_UserMongo req t u.
Proof.
  unfold mongo.apply_set, set_document, expected_UserMongo, supplied, nonempty.
  destruct req as [f l e]; cbn [UpdateUserRequest.FirstName
    UpdateUserRequest.LastName UpdateUserRequest.Email].
  destruct (String.eqb f ""), (String.eqb l ""), (String.eqb e "");
    cbn [negb];
    repeat (rewrite ?lookup_insert_eq; rewrite ?lookup_insert_ne by discriminate);
    rewrite ?lookup_singleton_eq, ?lookup_singleton_ne by discriminate;
    reflexivity.
Qed.

Section UpdateProperties.
  Context `{Libraries}.

(** The relational branch in closed form. *)
Lemma UpdateProfile_relational (h : Handler) (env : Env) (c : gin.Context)
    (body : binding.input UpdateUserRequest.t) (req : UpdateUserRequest.t)
    (pg : PostgresDB.t) :
  postgresDB h = Some pg ->
  binding.ShouldBindJSON_UpdateUserRequest body = inr req ->
  UpdateProfile h env c body
  = match gorm.First
            [gorm.PrimaryKey (fst (strconv.ParseUint (gin.GetString "user_id" c) 32))]
            pg with
    | inl _ =>
        (Some (http.StatusNotFound,
               ErrorResponse (Get (localizer h) (gin.GetString "language" c)
                                  "user_not_found") "User not found"), h)
    | inr u =>
        let u' := expected_User req (now env 1%nat) u in
        if PostgresDB.unique_indexes pg
           && existsb (gorm.clashes u') (PostgresDB.rows pg)
        then
          (Some (http.StatusInternalServerError,
                 ErrorResponse (Get (localizer h) (gin.GetString "language" c)
                                    "internal_error") "Failed to update profile"), h)
        else
          (Some (http.StatusOK,
                 SuccessResponse (Get (localizer h) (gin.GetString "language" c)
                                      "user_updated")
                                 (DataUser (UserInfo_of_User u'))),
           with_postgresDB
             (PostgresDB.mk
                (List.map (fun r => if gorm.live r && (User.ID r =? User.ID u)
                                    then u' else r) (PostgresDB.rows pg))
                (PostgresDB.next_id pg) (PostgresDB.unique_indexes pg)) h)
    end.
Proof.
  intros Hpg Hbind. unfold UpdateProfile. rewrite Hbind, Hpg.
  destruct (gorm.First _ pg) as [e | u]; [reflexivity |].
  unfold gorm.Save. cbv zeta.
  assert (E : gorm.set_UpdatedAt (now env 1%nat)
                (gorm.set_UpdatedAt (now env 0%nat)
                   (if nonempty (UpdateUserRequest.Email req)
                    then set_Email (UpdateUserRequest.Email req)
                           (if nonempty (UpdateUserRequest.LastName req)
                            then set_LastName (UpdateUserRequest.LastName req)
                                   (if nonempty (UpdateUserRequest.FirstName req)
                                    then set_FirstName (UpdateUserRequest.FirstName req) u
                                    else u)
                            else
                              if nonempty (UpdateUserRequest.FirstName req)
                              then set_FirstName (UpdateUserRequest.FirstName req) u
                              else u)
                    else
                      if nonempty (UpdateUserRequest.LastName req)
                      then set_LastName (UpdateUserRequest.LastName req)
                             (if nonempty (UpdateUserRequest.FirstName req)
                              then set_FirstName (UpdateUserRequest.FirstName req) u
                              else u)
                      else
                        if nonempty (UpdateUserRequest.FirstName req)
                        then set_FirstName (UpdateUserRequest.FirstName req) u
                        else u))
              = expected_User req (now env 1%nat) u).
  { unfold expected_User, supplied, nonempty.
    destruct (String.eqb (UpdateUserRequest.FirstName req) ""),
             (String.eqb (UpdateUserRequest.LastName req) ""),
             (String.eqb (UpdateUserRequest.Email req) ""); reflexivity. }
  rewrite E.
  destruct (PostgresDB.unique_indexes pg && _); reflexivity.
Qed.

Lemma find_update_first (p : UserMongo.t -> bool) (g : UserMongo.t -> UserMongo.t)
    (l : list UserMongo.t) (u : UserMongo.t) :
  (forall v, p (g v) = p v) ->
  List.find p l = Some u ->
  List.find p (mongo.update_first p g l) = Some (g u).
Proof.
  intros Hg. induction l as [| v r IH]; simpl; [discriminate |].
  destruct (p v) eqn:Hv.
  - intros E; injection E as <-. simpl. rewrite Hg, Hv. reflexivity.
  - intros E. simpl. rewrite Hv. apply IH, E.
Qed.

Lemma update_first_ext (p : UserMongo.t -> bool)
    (g g' : UserMongo.t -> UserMongo.t) (l : list UserMongo.t) :
  (forall v, g v = g' v) ->
  mongo.update_first p g l = mongo.update_first p g' l.
Proof.
  intros Hg. induction l as [| v r IH]; [reflexivity |].
  cbn [mongo.update_first]. rewrite Hg, IH. reflexivity.
Qed.

(** The document branch in closed form. *)
Lemma UpdateProfile_documents (h : Handler) (env : Env) (c : gin.Context)
    (body : binding.input UpdateUserRequest.t) (req : UpdateUserRequest.t)
    (mg : MongoDB.t) :
  postgresDB h = None ->
  mongoDB h = Some mg ->
  binding.ShouldBindJSON_UpdateUserRequest body = inr req ->
  UpdateProfile h env c body
  = match primitive.ObjectIDFromHex (gin.GetString "user_id" c) with
    | None =>
        (Some (http.StatusBadRequest,
               ErrorResponse (Get (localizer h) (gin.GetString "language" c)
                                  "bad_request") "Invalid user ID format"), h)
    | Some oid =>
        match List.find (mongo.selects (bson.Id oid)) (MongoDB.docs mg) with
        | None =>
            (Some (http.StatusInternalServerError,
                   ErrorResponse (Get (localizer h) (gin.GetString "language" c)
                                      "internal_error")
                                 "Failed to retrieve updated profile"),
             with_mongoDB mg h)
        | Some u =>
            let u' := expected_UserMongo req (now env 0%nat) u in
            if MongoDB.unique_indexes mg
               && existsb (mongo.clashes u') (MongoDB.docs mg)
            then
              (Some (http.StatusInternalServerError,
                     ErrorResponse (Get (localizer h) (gin.GetString "language" c)
                                        "internal_error")
                                   "Failed to update profile"), h)
            else
              (Some (http.StatusOK,
                     SuccessResponse (Get (localizer h) (gin.GetString "language" c)
                                          "user_updated")
                                     (DataUser (UserInfo_of_UserMongo u'))),
               with_mongoDB
                 (MongoDB.mk
                    (mongo.update_first (mongo.selects (bson.Id oid))
                       (expected_UserMongo req (now env 0%nat)) (MongoDB.docs mg))
                    (MongoDB.unique_indexes mg)) h)
        end
    end.
Proof.
  intros Hpg Hmg Hbind. unfold UpdateProfile. rewrite Hbind, Hpg, Hmg.
  destruct (primitive.ObjectIDFromHex _) as [oid |]; [| reflexivity].
  change (if nonempty (UpdateUserRequest.Email req) then _ else _)
    with (set_document req (now env 0%nat)).
  unfold mongo.UpdateOne. cbn [mongo.compiles negb].
  destruct (List.find (mongo.selects (bson.Id oid)) (MongoDB.docs mg))
    as [u |] eqn:Ef.
  - rewrite apply_set_document. cbv zeta.
    destruct (MongoDB.unique_indexes mg && _); [reflexivity |].
    unfold mongo.FindOne. cbn [mongo.compiles negb MongoDB.docs].
    assert (Eg : mongo.update_first (mongo.selects (bson.Id oid))
                   (mongo.apply_set (set_document req (now env 0%nat)))
                   (MongoDB.docs mg)
                 = mongo.update_first (mongo.selects (bson.Id oid))
                     (expected_UserMongo req (now env 0%nat)) (MongoDB.docs mg)).
    { apply update_first_ext. intros v. apply apply_set_document. }
    rewrite Eg.
    rewrite (find_update_first _ _ _ u); [reflexivity | | exact Ef].
    intros v. reflexivity.
  - unfold mongo.FindOne. cbn [mongo.compiles negb]. rewrite Ef. reflexivity.
Qed.

End UpdateProperties.





Section UpdateFrame.
  Context `{Libraries}.


End UpdateFrame.

Lemma In_update_first_other (p : UserMongo.t -> bool)
    (g : UserMongo.t -> UserMongo.t) (l : list UserMongo.t) (v : UserMongo.t) :
  In v l -> p v = false -> In v (mongo.update_first p g l).
Proof.
  induction l as [| x r IH]; simpl; [tauto |].
  intros [-> | Hin] Hp.
  - rewrite Hp. left. reflexivity.
  - destruct (p x); right; auto.
Qed.

Section UpdateEmail.
  Context `{Libraries}.


Lemma find_by_key (mg : MongoDB.t) (u : UserMongo.t) :
  document_key mg -> In u (MongoDB.docs mg) ->
  List.find (mongo.selects (bson.Id (UserMongo.ID u))) (MongoDB.docs mg) = Some u.
Proof.
  intros Hkey Hin.
  destruct (List.find _ (MongoDB.docs mg)) as [v |] eqn:Ef.
  - apply find_some in Ef. destruct Ef as [Hv Hs].
    cbn [mongo.selects] in Hs. apply String.eqb_eq in Hs.
    f_equal. apply Hkey; auto.
  - pose proof (find_none _ _ Ef u Hin) as Hs.
    cbn [mongo.selects] in Hs. rewrite String.eqb_refl in Hs. discriminate.
Qed.



End UpdateEmail.

(** The example of the specification: an empty first name and the last
    name Smith change the last name only (and refresh [updatedAt]). *)
Example update_last_name_only :
  UpdateProfile (H := Plain.libs) Sample.documents Sample.env ann_context
                (binding.Decoded smith)
  = (Some (200,
           APIResponse.mk true "User updated successfully"
             (Some (DataUser
                      (UserInfo.mk (AString "64b7f3a2c1d4e5f60718293a")
                                   "ann@example.com" "ann" "Ann" "Smith" "user"
                                   true 1700000000 1700001000)))
             ""),
     with_mongoDB
       (MongoDB.mk
          [ UserMongo.mk "64b7f3a2c1d4e5f60718293a" "ann@example.com" "ann"
                         (Sample.password_hash "password123") "Ann" "Smith"
                         "user" true 1700000000 1700001000;
            Sample.bob_doc ] false)
       Sample.documents).
Proof. vm_compute. reflexivity. Qed.



(** ** List users *)

Lemma wrap64_in_range (z : Z) : int_min <= z <= int_max -> wrap64 z = z.
Proof.
  unfold wrap64, int_min, int_max. intros Hz.
  rewrite Z.mod_small by lia. lia.
Qed.

Lemma in_int_spec (z : Z) : in_int z = true <-> int_min <= z <= int_max.
Proof. unfold in_int. rewrite andb_true_iff, !Z.leb_le. tauto. Qed.



Section ListUsers.
  Context `{Libraries}.


End ListUsers.

(** *** Twenty-five users *)

(** The example of the specification: with 25 users and no search term,
    page 3 of size 10 holds 5 rows, and the metadata says total 25 and
    totalPage 3, in both variants. *)
Example third_page_of_twenty_five :
  (exists rows,
      GetUsers (H := Plain.libs) Crowd.relational Sample.context
               Crowd.third_page_of_ten
      = (Some (200,
               APIResponse.mk true "Users retrieved successfully"
                 (Some (DataPage (PaginatedResponse.mk rows
                                    (Pagination.mk 3 10 25 3)))) ""),
         Crowd.relational)
      /\ List.length rows = 5%nat)
  /\ (exists rows,
        GetUsers (H := Plain.libs) Crowd.documents Sample.context
                 Crowd.third_page_of_ten
        = (Some (200,
                 APIResponse.mk true "Users retrieved successfully"
                   (Some (DataPage (PaginatedResponse.mk rows
                                      (Pagination.mk 3 10 25 3)))) ""),
           Crowd.documents)
        /\ List.length rows = 5%nat).
Proof.
  split; eexists; (split; [vm_compute; reflexivity | reflexivity]).
Qed.

(** C5 at a page whose offset overflows: page [2^62 + 1] of size 4.  The
    offset [(page - 1) * pageSize] is [2^64], which a 64-bit [int] holds
    as 0: the handler answers with the first four of the 25 users, where the
    slice at offset [(page - 1) * pageSize] is empty. *)
Theorem GetUsers_offset_wraps `{Libraries} (c : gin.Context) :
  binding.ShouldBindQuery Crowd.far_page_of_four
  = inr (PaginationQuery.mk Crowd.far_page 4 "" "")
  /\ GetUsers Crowd.documents c Crowd.far_page_of_four
     = (page_answer (PaginationQuery.mk Crowd.far_page 4 "" "") 25
          (List.map UserInfo_of_UserMongo (List.firstn 4 Crowd.docs)),
        Crowd.documents)
  /\ GetUsers Crowd.relational c
       (binding.Decoded (binding.mkQuery (Some Crowd.far_page) (Some 4) "id" ""))
     = match order_by "id" Crowd.rows with
       | Some sorted =>
           (page_answer (PaginationQuery.mk Crowd.far_page 4 "id" "") 25
              (List.map UserInfo_of_User (List.firstn 4 sorted)),
            Crowd.relational)
       | None =>
           (Some (http.StatusInternalServerError,
                  ErrorResponse (Get (localizer Crowd.relational)
                                     (gin.GetString "language" c) "internal_error")
                                "Failed to retrieve users"), Crowd.relational)
       end
  /\ page_of Crowd.far_page 4 Crowd.docs = []
  /\ page_of Crowd.far_page 4 Crowd.rows = [].
Proof.
  split; [reflexivity |]. split; [vm_compute; reflexivity |].
  split.
  - unfold GetUsers.
    change (binding.ShouldBindQuery _)
      with (@inr string _ (PaginationQuery.mk Crowd.far_page 4 "id" "")).
    cbn [postgresDB Crowd.relational PaginationQuery.Search PaginationQuery.Sort
         PaginationQuery.Page PaginationQuery.PageSize nonempty String.eqb negb].
    unfold gorm.Find.
    change (gorm.select [] _) with Crowd.rows.
    destruct (order_by "id" Crowd.rows) as [sorted |] eqn:E; [| reflexivity].
    replace (gorm.Count [] _) with 25 by (vm_compute; reflexivity).
    replace (wrap64 (wrap64 (Crowd.far_page - 1) * 4)) with 0
      by (vm_compute; reflexivity).
    reflexivity.
  - assert (Hfar : (25 <= Z.to_nat ((Crowd.far_page - 1) * 4))%nat).
    { unfold Crowd.far_page. change (2 ^ 62) with 4611686018427387904. lia. }
    split; unfold page_of; rewrite List.skipn_all2; try reflexivity; exact Hfar.
Qed.


(** ** Get profile *)

Lemma prefix_empty (s : string) : String.prefix "" s = true.
Proof. destruct s; reflexivity. Qed.

Lemma TrimPrefix_Bearer (token : string) :
  strings_.TrimPrefix ("Bearer " ++ token) "Bearer " = token.
Proof.
  unfold strings_.TrimPrefix, strings_.HasPrefix.
  change ("Bearer " ++ token)
    with (String "B" (String "e" (String "a" (String "r" (String "e"
           (String "r" (String " " token))))))).
  simpl. rewrite prefix_empty, Nat.sub_0_r. apply substring_0_length.
Qed.

Lemma Bearer_not_bare (token : string) :
  String.eqb token ("Bearer " ++ token) = false.
Proof.
  apply String.eqb_neq. intros E.
  apply (f_equal String.length) in E. rewrite length_append in E.
  simpl in E. lia.
Qed.

Section Profile.
  Context `{Libraries}.

(** The middleware accepts a token signed with the configured secret
    while it is valid, and leaves its claims in the context. *)
Lemma JWTAuth_accepts (vars : gmap string string) (t : Time) (c : gin.Context)
    (claims : jwt.Claims) :
  jwt.validate (jwt.unmarshal (jwt.marshal claims)) t = None ->
  middleware.JWTAuth vars t
    (gin.mkContext
       ("Bearer " ++ jwt.SignedString claims (config.JWTSecret (config.Load vars)))
       (gin.Keys c))
  = middleware.Next
      (gin.mkContext
         ("Bearer " ++ jwt.SignedString claims (config.JWTSecret (config.Load vars)))
         (<["user_role" := AString (jwt.Role claims)]>
            (<["user_username" := AString (jwt.Username claims)]>
               (<["user_email" := AString (jwt.Email claims)]>
                  (<["user_id" := json_Unmarshal (json_Marshal (jwt.UserID claims))]>
                     (gin.Keys c)))))).
Proof.
  intros Hvalid. unfold middleware.JWTAuth.
  cbn [gin.GetHeader_Authorization gin.Authorization].
  rewrite TrimPrefix_Bearer, Bearer_not_bare.
  replace (String.eqb ("Bearer " ++ _) "") with false by reflexivity.
  rewrite ValidateToken_SignedString, Hvalid. reflexivity.
Qed.

(** The relational branch looks up the key that [ParseUint] reads from the
    string under [user_id]; a value that is no string reads as key 0. *)
Lemma GetProfile_relational (h : Handler) (c : gin.Context) (pg : PostgresDB.t) :
  postgresDB h = Some pg ->
  GetProfile h c
  = match gorm.First
            [gorm.PrimaryKey (fst (strconv.ParseUint (gin.GetString "user_id" c) 32))]
            pg with
    | inl _ =>
        (Some (http.StatusNotFound,
               ErrorResponse (Get (localizer h) (gin.GetString "language" c)
                                  "user_not_found") "User not found"), h)
    | inr user =>
        (Some (http.StatusOK,
               SuccessResponse "Profile retrieved successfully"
                               (DataUser (UserInfo_of_User user))), h)
    end.
Proof. intros Hpg. unfold GetProfile. rewrite Hpg. reflexivity. Qed.

Lemma GetString_not_a_string (key : string) (c : gin.Context) (v : any) :
  gin.Get key c = Some v -> (forall s, v <> AString s) ->
  gin.GetString key c = "".
Proof.
  unfold gin.GetString. intros -> Hv. destruct v; try reflexivity.
  destruct (Hv s eq_refl).
Qed.

(** C1, relational variant.  A user [u] exists; a token is issued for it
    as [Register] and [Login] issue it (the key [u.ID], a Go [uint], as
    [userID]); the middleware accepts the token.  The context then holds
    the key as a [float64], [GetString] reads it as the empty string, and
    the handler looks up key 0: it answers 404, not the profile of [u]. *)
Theorem GetProfile_relational_looks_up_key_zero
    (h : Handler) (pg : PostgresDB.t) (u : User.t)
    (vars : gmap string string) (clk : Clock) (t : Time) (c0 : gin.Context)
    (token : string) (expiresAt : Time) :
  postgresDB h = Some pg ->
  In u (PostgresDB.rows pg) -> gorm.live u = true ->
  (forall r, In r (PostgresDB.rows pg) -> User.ID r <> 0) ->
  config.JWTSecret (config.Load vars) = jwtUtils_Secret h ->
  clk 2%nat <= t < clk 0%nat + 24 * hour ->
  jwt.GenerateToken (jwtUtils_Secret h) (AUint (User.ID u)) (User.Email u)
                    (User.Username u) (User.Role u) clk
  = inr (token, expiresAt) ->
  exists c',
    middleware.JWTAuth vars t (gin.mkContext ("Bearer " ++ token) (gin.Keys c0))
    = middleware.Next c'
    /\ gin.Get "user_id" c' = Some (AFloat64 (User.ID u))
    /\ gin.GetString "user_id" c' = ""
    /\ GetProfile h c'
       = (Some (http.StatusNotFound,
                ErrorResponse (Get (localizer h) (gin.GetString "language" c')
                                   "user_not_found") "User not found"), h).
Proof.
  intros Hpg Hin Hl Hkeys Hsecret Ht Hgen.
  unfold jwt.GenerateToken in Hgen. injection Hgen as <- <-.
  rewrite <- Hsecret.
  eexists. split.
  - apply JWTAuth_accepts.
    unfold jwt.validate, jwt.expired, jwt.not_valid_yet.
    cbn [jwt.unmarshal jwt.marshal jwt.ExpiresAt jwt.NotBefore jose.exp jose.nbf].
    destruct (Z.ltb_spec t (clk 0%nat + 24 * hour)); [| lia]. cbn [negb].
    destruct (Z.ltb_spec t (clk 2%nat)); [lia | reflexivity].
  - assert (Hid : gin.Get "user_id"
                    (gin.mkContext
                       ("Bearer " ++ jwt.SignedString
                          (jwt.mkClaims (AUint (User.ID u)) (User.Email u)
                             (User.Username u) (User.Role u)
                             (Some (clk 0%nat + 24 * hour)) (Some (clk 1%nat))
                             (Some (clk 2%nat)))
                          (config.JWTSecret (config.Load vars)))
                       (<["user_role" := AString (User.Role u)]>
                          (<["user_username" := AString (User.Username u)]>
                             (<["user_email" := AString (User.Email u)]>
                                (<["user_id" := AFloat64 (User.ID u)]> (gin.Keys c0))))))
                  = Some (AFloat64 (User.ID u))).
    { unfold gin.Get. cbn [gin.Keys].
      rewrite !lookup_insert_ne by discriminate. apply lookup_insert_eq. }
    split; [exact Hid |].
    pose proof (GetString_not_a_string _ _ _ Hid ltac:(discriminate)) as Hs.
    split; [exact Hs |].
    rewrite (GetProfile_relational h _ pg Hpg).
    cbn [jwt.Role jwt.Username jwt.Email jwt.UserID json_Marshal json_Unmarshal].
    rewrite Hs. cbn [strconv.ParseUint fst].
    rewrite First_missing; [reflexivity |].
    intros r Hr _. cbn [forallb gorm.holds]. rewrite andb_true_r.
    apply Z.eqb_neq. apply Hkeys, Hr.
Qed.


End Profile.

(** *** A login followed by a profile request *)

(** On the relational backend Ann exists and logs in, and her profile
    request is answered 404. *)
Example relational_profile_after_login :
  In Sample.ann (PostgresDB.rows Sample.table)
  /\ option_map fst
       (fst (Login (H := Plain.libs) Sample.relational Sample.env Sample.context
               (binding.Decoded ann_logs_in))) = Some 200
  /\ profile_after_login Sample.relational
     = Some (404, APIResponse.mk false "User not found" None "User not found").
Proof.
  split; [left; reflexivity |]. split; vm_compute; reflexivity.
Qed.

(** On the document backend the same requests are answered with Ann's
    public fields. *)
Example documents_profile_after_login :
  profile_after_login Sample.documents
  = Some (200,
          APIResponse.mk true "Profile retrieved successfully"
            (Some (DataUser
                     (UserInfo.mk (AString "64b7f3a2c1d4e5f60718293a")
                                  "ann@example.com" "ann" "Ann" "Lee" "user" true
                                  1700000000 1700000000)))
            "").
Proof. vm_compute. reflexivity. Qed.

Lemma GetProfile_relational_looks_up_key_zero_witness :
  exists c',
    middleware.JWTAuth (H := Plain.libs) environment 1700002000
      (gin.mkContext
         ("Bearer " ++ jwt.SignedString (H := Plain.libs)
                         (jwt.mkClaims (AUint 1) "ann@example.com" "ann" "user"
                            (Some (1700001000 + 24 * hour)) (Some 1700001001)
                            (Some 1700001002)) "secret")
         (gin.Keys Sample.context))
    = middleware.Next c'
    /\ gin.Get "user_id" c' = Some (AFloat64 1)
    /\ gin.GetString "user_id" c' = ""
    /\ GetProfile (H := Plain.libs) Sample.relational c'
       = (Some (http.StatusNotFound,
                ErrorResponse (Get (localizer Sample.relational)
                                   (gin.GetString "language" c') "user_not_found")
                              "User not found"), Sample.relational).
Proof.
  refine (GetProfile_relational_looks_up_key_zero (H := Plain.libs)
            Sample.relational Sample.table Sample.ann environment
            (now Sample.env) 1700002000 Sample.context _ _
            eq_refl _ eq_refl _ eq_refl _ eq_refl).
  - left. reflexivity.
  - intros r [<- | [<- | []]]; discriminate.
  - unfold Sample.env, hour. cbn [now]. lia.
Defined.

(** ** Further examples *)

(** Exactly one of two configured backends fails its check: unhealthy,
    503. *)
Lemma HealthCheck_one_of_two_fails
    (h : Handler) (pg : PostgresDB.t) (mg : MongoDB.t) (e : string) (t : Time) :
  postgresDB h = Some pg -> mongoDB h = Some mg ->
  HealthCheck h None (Some e) t
  = (Some (http.StatusServiceUnavailable,
           ErrorResponse "System is unhealthy" "One or more services are down"), h)
  /\ HealthCheck h (Some e) None t
     = (Some (http.StatusServiceUnavailable,
              ErrorResponse "System is unhealthy" "One or more services are down"), h).
Proof.
  intros Hpg Hmg. rewrite !HealthCheck_eval, Hpg, Hmg. split; reflexivity.
Qed.

(** The fields an update leaves alone. *)
Lemma expected_User_frame (req : UpdateUserRequest.t) (t : Time) (u : User.t) :
  let u' := expected_User req t u in
  User.ID u' = User.ID u /\ User.Username u' = User.Username u
  /\ User.Password u' = User.Password u /\ User.Role u' = User.Role u
  /\ User.IsActive u' = User.IsActive u /\ User.CreatedAt u' = User.CreatedAt u
  /\ User.DeletedAt u' = User.DeletedAt u /\ User.UpdatedAt u' = t.
Proof. cbv zeta. repeat split. Qed.

Lemma expected_UserMongo_frame (req : UpdateUserRequest.t) (t : Time)
    (u : UserMongo.t) :
  let u' := expected_UserMongo req t u in
  UserMongo.ID u' = UserMongo.ID u /\ UserMongo.Username u' = UserMongo.Username u
  /\ UserMongo.Password u' = UserMongo.Password u
  /\ UserMongo.Role u' = UserMongo.Role u
  /\ UserMongo.IsActive u' = UserMongo.IsActive u
  /\ UserMongo.CreatedAt u' = UserMongo.CreatedAt u
  /\ UserMongo.UpdatedAt u' = t.
Proof. cbv zeta. repeat split. Qed.

Lemma cyclic_passwords_verify `{Libraries} (rand : option bcrypt.Salt)
    (hashedPassword : string) :
  "abcdef" <> abcdef_twice
  /\ (HashPassword "abcdef" rand = inr hashedPassword ->
      VerifyPassword hashedPassword abcdef_twice = None).
Proof.
  split; [discriminate |]. intros E.
  destruct (VerifyPassword_HashPassword "abcdef" abcdef_twice _ _ E) as [s [_ V]].
  rewrite V.
  change (bcrypt.key_stream abcdef_twice) with (bcrypt.key_stream "abcdef").
  rewrite String.eqb_refl. reflexivity.
Qed.

(** A registration is answered 500 without any backend also when the
    random source gives no salt. *)
Lemma no_salt_answered_without_backend :
  Register (H := Plain.libs) Sample.unconfigured
    (mkEnv (now Sample.env) None (new_oid Sample.env)) Sample.context
    (binding.Decoded (RegisterRequest.mk "ann@example.com" "ann" "password123"
                                         "Ann" "Lee"))
  = (Some (500, APIResponse.mk false "Internal server error" None
                               "Failed to process password"),
     Sample.unconfigured).
Proof. reflexivity. Qed.


(** * Further properties: requests end to end, middleware, routes,
    configuration *)

(** ** Handlers that only read *)

Section ReadOnly.
  Context `{Libraries}.


End ReadOnly.

(** ** Validation *)

Lemma failing_None (tags : list (string * bool)) :
  binding.failing tags = None <-> forallb snd tags = true.
Proof.
  induction tags as [| [tag ok] r IH]; simpl; [tauto |].
  destruct ok; simpl; [exact IH |]. split; discriminate.
Qed.

Lemma errors_nil (structName : string)
    (fields : list (string * list (string * bool))) :
  binding.errors structName fields = []
  <-> forallb (fun f => forallb snd (snd f)) fields = true.
Proof.
  induction fields as [| [name tags] r IH]; simpl; [tauto |].
  destruct (binding.failing tags) eqn:F.
  - split; [discriminate |]. intros E. apply andb_true_iff in E as [E _].
    apply failing_None in E. congruence.
  - apply failing_None in F. rewrite F. simpl. exact IH.
Qed.

Lemma result_inr {A : Type} (a a' : A) (es : list string) :
  binding.result a es = inr a' <-> es = [] /\ a' = a.
Proof.
  unfold binding.result. destruct es.
  - split; [intros E; inversion E; auto | intros [_ ->]; reflexivity].
  - split; [discriminate | intros [E _]; discriminate E].
Qed.

Lemma result_inl {A : Type} (a : A) (es : list string) :
  es <> [] -> exists err, binding.result a es = inl err.
Proof.
  unfold binding.result. destruct es; [congruence |]. eauto.
Qed.

Section Validation.
  Context `{Libraries}.

Lemma ShouldBindJSON_RegisterRequest_valid (r r' : RegisterRequest.t) :
  binding.ShouldBindJSON_RegisterRequest (binding.Decoded r) = inr r'
  <-> valid_RegisterRequest r = true /\ r' = r.
Proof.
  cbn [binding.ShouldBindJSON_RegisterRequest]. rewrite result_inr.
  unfold binding.RegisterRequest_errors. rewrite errors_nil.
  unfold valid_RegisterRequest. cbn [forallb snd].
  destruct (binding.required (RegisterRequest.Email r)), (is_email _),
    (binding.required (RegisterRequest.Username r)), (binding.min_runes 3 _),
    (binding.required (RegisterRequest.Password r)), (binding.min_runes 6 _),
    (binding.required (RegisterRequest.FirstName r)),
    (binding.required (RegisterRequest.LastName r)); cbn; tauto.
Qed.

Lemma ShouldBindJSON_LoginRequest_valid (r r' : LoginRequest.t) :
  binding.ShouldBindJSON_LoginRequest (binding.Decoded r) = inr r'
  <-> valid_LoginRequest r = true /\ r' = r.
Proof.
  cbn [binding.ShouldBindJSON_LoginRequest]. rewrite result_inr.
  unfold binding.LoginRequest_errors. rewrite errors_nil.
  unfold valid_LoginRequest. cbn [forallb snd].
  destruct (binding.required (LoginRequest.Email r)), (is_email _),
    (binding.required (LoginRequest.Password r)), (binding.min_runes 6 _);
    cbn; tauto.
Qed.

Lemma ShouldBindJSON_RegisterRequest_inl (body : binding.input RegisterRequest.t) :
  match body with
  | binding.Malformed _ => True
  | binding.Decoded r => valid_RegisterRequest r = false
  end ->
  exists err, binding.ShouldBindJSON_RegisterRequest body = inl err.
Proof.
  destruct body as [err | r]; [eauto |]. intros V.
  destruct (binding.ShouldBindJSON_RegisterRequest (binding.Decoded r)) as [e | r'] eqn:E;
    [eauto |].
  apply ShouldBindJSON_RegisterRequest_valid in E as [E _]. congruence.
Qed.

Lemma ShouldBindJSON_LoginRequest_inl (body : binding.input LoginRequest.t) :
  match body with
  | binding.Malformed _ => True
  | binding.Decoded r => valid_LoginRequest r = false
  end ->
  exists err, binding.ShouldBindJSON_LoginRequest body = inl err.
Proof.
  destruct body as [err | r]; [eauto |]. intros V.
  destruct (binding.ShouldBindJSON_LoginRequest (binding.Decoded r)) as [e | r'] eqn:E;
    [eauto |].
  apply ShouldBindJSON_LoginRequest_valid in E as [E _]. congruence.
Qed.

(** A registration or a login is answered 400 exactly when its body is
    malformed or breaks a rule of its [binding] tags (every field of a
    registration required, the email an email address, the username of at
    least 3 and the password of at least 6 characters; for a login the
    email and the password alike).  The answer then carries the validator's
    error, and nothing is stored, in whichever way the backends are
    configured. *)
Theorem invalid_requests_answered_400 (h : Handler) (env : Env) (c : gin.Context) :
  (forall body,
      (status_of (Register h env c body) = Some http.StatusBadRequest
       <-> match body with
           | binding.Malformed _ => True
           | binding.Decoded r => valid_RegisterRequest r = false
           end)
      /\ (status_of (Register h env c body) = Some http.StatusBadRequest ->
          exists err,
            binding.ShouldBindJSON_RegisterRequest body = inl err
            /\ Register h env c body
               = (Some (http.StatusBadRequest,
                        ErrorResponse (Get (localizer h) (gin.GetString "language" c)
                                           "validation_error") err), h)))
  /\ (forall body,
        (status_of (Login h env c body) = Some http.StatusBadRequest
         <-> match body with
             | binding.Malformed _ => True
             | binding.Decoded r => valid_LoginRequest r = false
             end)
        /\ (status_of (Login h env c body) = Some http.StatusBadRequest ->
            exists err,
              binding.ShouldBindJSON_LoginRequest body = inl err
              /\ Login h env c body
                 = (Some (http.StatusBadRequest,
                          ErrorResponse (Get (localizer h) (gin.GetString "language" c)
                                             "validation_error") err), h))).
Proof.
  split; intros body.
  - assert (K : status_of (Register h env c body) = Some http.StatusBadRequest ->
                exists err, binding.ShouldBindJSON_RegisterRequest body = inl err).
    { unfold Register, status_of.
      destruct (binding.ShouldBindJSON_RegisterRequest body) as [err | req]; [eauto |].
      repeat match goal with
             | |- context [match ?x with _ => _ end] => destruct x
             end; cbn; intros E; discriminate E. }
    split; [split |].
    + intros E. destruct (K E) as [err B].
      destruct body as [e | r]; [exact I |].
      destruct (valid_RegisterRequest r) eqn:V; [| reflexivity].
      pose proof (proj2 (ShouldBindJSON_RegisterRequest_valid r r) (conj V eq_refl)).
      congruence.
    + intros V. destruct (ShouldBindJSON_RegisterRequest_inl body V) as [err B].
      unfold Register, status_of. rewrite B. reflexivity.
    + intros E. destruct (K E) as [err B]. exists err. split; [exact B |].
      unfold Register. rewrite B. reflexivity.
  - assert (K : status_of (Login h env c body) = Some http.StatusBadRequest ->
                exists err, binding.ShouldBindJSON_LoginRequest body = inl err).
    { unfold Login, status_of.
      destruct (binding.ShouldBindJSON_LoginRequest body) as [err | req]; [eauto |].
      repeat match goal with
             | |- context [match ?x with _ => _ end] => destruct x
             end; cbn; intros E; discriminate E. }
    split; [split |].
    + intros E. destruct (K E) as [err B].
      destruct body as [e | r]; [exact I |].
      destruct (valid_LoginRequest r) eqn:V; [| reflexivity].
      pose proof (proj2 (ShouldBindJSON_LoginRequest_valid r r) (conj V eq_refl)).
      congruence.
    + intros V. destruct (ShouldBindJSON_LoginRequest_inl body V) as [err B].
      unfold Login, status_of. rewrite B. reflexivity.
    + intros E. destruct (K E) as [err B]. exists err. split; [exact B |].
      unfold Login. rewrite B. reflexivity.
Qed.

(** The hashing step takes at most 72 bytes: a registration that passes
    validation with a longer password is answered 500, and nothing is
    stored, in whichever way the backends are configured. *)
Theorem Register_password_over_72_bytes
    (h : Handler) (env : Env) (c : gin.Context)
    (body : binding.input RegisterRequest.t) (req : RegisterRequest.t) :
  binding.ShouldBindJSON_RegisterRequest body = inr req ->
  (72 < String.length (RegisterRequest.Password req))%nat ->
  Register h env c body
  = (Some (http.StatusInternalServerError,
           ErrorResponse (Get (localizer h) (gin.GetString "language" c)
                              "internal_error") "Failed to process password"), h).
Proof.
  intros B L. unfold Register. rewrite B.
  unfold HashPassword, bcrypt.GenerateFromPassword.
  destruct (Nat.ltb_spec 72 (String.length (RegisterRequest.Password req))); [| lia].
  reflexivity.
Qed.

End Validation.

Lemma ShouldBindQuery_inr (q : binding.Query) :
  let p := binding.form_int (binding.page q) 1 in
  let s := binding.form_int (binding.page_size q) 10 in
  (1 <= p <= int_max /\ 1 <= s <= 100 ->
   binding.ShouldBindQuery (binding.Decoded q)
   = inr (PaginationQuery.mk p s (binding.sort q) (binding.search q)))
  /\ (~ (1 <= p <= int_max /\ 1 <= s <= 100) ->
      exists err, binding.ShouldBindQuery (binding.Decoded q) = inl err).
Proof.
  cbv zeta. cbn [binding.ShouldBindQuery].
  set (p := binding.form_int (binding.page q) 1).
  set (s := binding.form_int (binding.page_size q) 10).
  unfold int_max.
  destruct (in_int p && in_int s) eqn:I; cbn [negb].
  - apply andb_true_iff in I as [Ip Is].
    apply in_int_spec in Ip. apply in_int_spec in Is.
    unfold int_min, int_max in Ip, Is.
    unfold binding.PaginationQuery_errors.
    cbn [PaginationQuery.Page PaginationQuery.PageSize]. split.
    + intros [Hp Hs]. apply result_inr. split; [| reflexivity].
      apply errors_nil. cbn [forallb snd].
      destruct (Z.leb_spec 1 p), (Z.leb_spec 1 s), (Z.leb_spec s 100);
        try reflexivity; lia.
    + intros N. apply result_inl. intros E. apply errors_nil in E.
      cbn [forallb snd] in E. apply N.
      destruct (Z.leb_spec 1 p), (Z.leb_spec 1 s), (Z.leb_spec s 100);
        try discriminate E; lia.
  - split; [| eauto]. intros [Hp Hs]. exfalso.
    apply andb_false_iff in I as [I | I];
      [assert (X : in_int p = true) | assert (X : in_int s = true)];
      try (apply in_int_spec; unfold int_min, int_max; lia); congruence.
Qed.

Section PageBounds.
  Context `{Libraries}.

(** A list request is answered 400 exactly when its page is below 1 or
    its page size is outside 1..100 (or the page does not fit a Go
    integer); a parameter that is absent counts as page 1 and page size
    10.  Nothing is read from the backends then. *)
Theorem GetUsers_page_bounds (h : Handler) (c : gin.Context) (q : binding.Query) :
  let p := binding.form_int (binding.page q) 1 in
  let s := binding.form_int (binding.page_size q) 10 in
  (status_of (GetUsers h c (binding.Decoded q)) = Some http.StatusBadRequest
   <-> ~ (1 <= p <= int_max /\ 1 <= s <= 100))
  /\ (~ (1 <= p <= int_max /\ 1 <= s <= 100) ->
      exists err,
        GetUsers h c (binding.Decoded q)
        = (Some (http.StatusBadRequest,
                 ErrorResponse (Get (localizer h) (gin.GetString "language" c)
                                    "validation_error") err), h)).
Proof.
  cbv zeta. destruct (ShouldBindQuery_inr q) as [Ok Bad].
  assert (K : ~ (1 <= binding.form_int (binding.page q) 1 <= int_max
                 /\ 1 <= binding.form_int (binding.page_size q) 10 <= 100) ->
              exists err,
                GetUsers h c (binding.Decoded q)
                = (Some (http.StatusBadRequest,
                         ErrorResponse (Get (localizer h) (gin.GetString "language" c)
                                            "validation_error") err), h)).
  { intros N. destruct (Bad N) as [err B]. exists err.
    unfold GetUsers. rewrite B. reflexivity. }
  split; [| exact K]. split.
  - intros E N. unfold GetUsers, status_of in E. rewrite (Ok N) in E.
    repeat match type of E with
           | context [match ?x with _ => _ end] => destruct x
           end; cbn in E; discriminate E.
  - intros N. destruct (K N) as [err ->]. reflexivity.
Qed.

End PageBounds.

Lemma Register_password_over_72_bytes_witness :
  Register (H := Plain.libs) Sample.relational Sample.env Sample.context
    (binding.Decoded (RegisterRequest.mk "carl@example.com" "carl"
                                         seventy_three_a "Carl" "Orr"))
  = (Some (500, APIResponse.mk false "Internal server error" None
                               "Failed to process password"), Sample.relational).
Proof.
  apply (Register_password_over_72_bytes (H := Plain.libs)
           Sample.relational Sample.env Sample.context _
           (RegisterRequest.mk "carl@example.com" "carl" seventy_three_a "Carl" "Orr")).
  - reflexivity.
  - vm_compute. lia.
Defined.

(** ** Registration and login, end to end *)


Lemma eqb_neq_false (a b : string) : a <> b -> String.eqb a b = false.
Proof. intros N. apply String.eqb_neq. exact N. Qed.

Section Registration.
  Context `{Libraries}.

Lemma VerifyPassword_own_hash (password hashedPassword : string)
    (rand : option bcrypt.Salt) :
  HashPassword password rand = inr hashedPassword ->
  VerifyPassword hashedPassword password = None.
Proof.
  intros Hh.
  destruct (VerifyPassword_HashPassword password password rand hashedPassword Hh)
    as (salt & _ & V).
  rewrite V, String.eqb_refl. reflexivity.
Qed.


Lemma Create_inv (u user : User.t) (pg pg' : PostgresDB.t) :
  gorm.Create u pg = inr (user, pg') ->
  user = gorm.set_ID (if User.ID u =? 0 then PostgresDB.next_id pg else User.ID u) u
  /\ pg' = PostgresDB.mk (PostgresDB.rows pg ++ [user])
                         (PostgresDB.next_id pg + 1)
                         (PostgresDB.unique_indexes pg).
Proof.
  unfold gorm.Create.
  destruct (existsb _ _); [discriminate |].
  destruct (_ && _); [discriminate |].
  intros E. inversion E. split; reflexivity.
Qed.

Lemma InsertOne_inv (doc : UserMongo.t) (oid insertedID : ObjectID)
    (mg mg' : MongoDB.t) :
  mongo.InsertOne doc oid mg = inr (insertedID, mg') ->
  insertedID = oid
  /\ mg' = MongoDB.mk (MongoDB.docs mg ++ [mongo.set_ID oid doc])
                      (MongoDB.unique_indexes mg).
Proof.
  unfold mongo.InsertOne.
  destruct (existsb _ _); [discriminate |].
  destruct (_ && _); [discriminate |].
  intros E. inversion E. split; reflexivity.
Qed.

(** What an answer 201 of [Register] tells. *)
Lemma Register_created_inv (h h' : Handler) (env : Env) (c : gin.Context)
    (body : binding.input RegisterRequest.t) (resp : APIResponse.t) :
  Register h env c body = (Some (http.StatusCreated, resp), h') ->
  exists req hashedPassword token expiresAt,
    binding.ShouldBindJSON_RegisterRequest body = inr req
    /\ HashPassword (RegisterRequest.Password req) (rand env) = inr hashedPassword
    /\ ((exists pg e,
            postgresDB h = Some pg
            /\ gorm.First
                 [gorm.Or (gorm.Eq email (RegisterRequest.Email req))
                          (gorm.Eq username (RegisterRequest.Username req))] pg
               = inl e
            /\ h' = with_postgresDB
                      (PostgresDB.mk
                         (PostgresDB.rows pg
                          ++ [new_User req hashedPassword env (PostgresDB.next_id pg)])
                         (PostgresDB.next_id pg + 1)
                         (PostgresDB.unique_indexes pg)) h
            /\ resp = SuccessResponse
                        (Get (localizer h) (gin.GetString "language" c) "user_created")
                        (DataAuth
                           (AuthResponse.mk token
                              (UserInfo_of_User
                                 (new_User req hashedPassword env (PostgresDB.next_id pg)))
                              expiresAt)))
        \/ (exists mg e,
              postgresDB h = None /\ mongoDB h = Some mg
              /\ mongo.FindOne
                   (bson.Or_ (bson.Is email (RegisterRequest.Email req))
                             (bson.Is username (RegisterRequest.Username req))) mg
                 = inl e
              /\ h' = with_mongoDB
                        (MongoDB.mk
                           (MongoDB.docs mg
                            ++ [new_UserMongo req hashedPassword env (new_oid env)])
                           (MongoDB.unique_indexes mg)) h
              /\ resp = SuccessResponse
                          (Get (localizer h) (gin.GetString "language" c) "user_created")
                          (DataAuth
                             (AuthResponse.mk token
                                (UserInfo_of_UserMongo
                                   (new_UserMongo req hashedPassword env (new_oid env)))
                                expiresAt)))).
Proof.
  unfold Register.
  destruct (binding.ShouldBindJSON_RegisterRequest body) as [err | req] eqn:B;
    [discriminate |].
  destruct (HashPassword _ _) as [e0 | hashedPassword] eqn:Hh; [discriminate |].
  destruct (postgresDB h) as [pg |] eqn:Hpg.
  - destruct (gorm.First _ pg) as [e | u] eqn:F; [| discriminate].
    destruct (gorm.Create _ pg) as [e1 | [user pg']] eqn:Cr; [discriminate |].
    apply Create_inv in Cr as [-> ->].
    unfold jwt.GenerateToken. intros E. inversion E; subst.
    eexists req, hashedPassword, _, _. split; [reflexivity |].
    split; [exact Hh |]. left. exists pg, e. repeat split. exact F.
  - destruct (mongoDB h) as [mg |] eqn:Hmg; [| discriminate].
    destruct (mongo.FindOne _ mg) as [e | u] eqn:F; [| discriminate].
    destruct (mongo.InsertOne _ _ mg) as [e1 | [insertedID mg']] eqn:Ins;
      [discriminate |].
    apply InsertOne_inv in Ins as [-> ->].
    unfold jwt.GenerateToken. intros E. inversion E; subst.
    eexists req, hashedPassword, _, _. split; [reflexivity |].
    split; [exact Hh |]. right. exists mg, e. repeat split. exact F.
Qed.

Lemma filter_none {A : Type} (f : A -> bool) (l : list A) :
  (forall x, In x l -> f x = false) -> List.filter f l = [].
Proof.
  intros F. induction l as [| a r IH]; simpl; [reflexivity |].
  rewrite (F a (or_introl eq_refl)). apply IH.
  intros x Hx. apply F. right. exact Hx.
Qed.

Lemma find_app_none {A : Type} (f : A -> bool) (l : list A) (a : A) :
  (forall x, In x l -> f x = false) -> f a = true ->
  List.find f (l ++ [a]) = Some a.
Proof.
  intros F Ha. induction l as [| b r IH]; simpl.
  - rewrite Ha. reflexivity.
  - rewrite (F b (or_introl eq_refl)). apply IH.
    intros x Hx. apply F. right. exact Hx.
Qed.

Lemma Register_valid_login (body : binding.input RegisterRequest.t)
    (req : RegisterRequest.t) :
  binding.ShouldBindJSON_RegisterRequest body = inr req ->
  binding.ShouldBindJSON_LoginRequest
    (binding.Decoded (LoginRequest.mk (RegisterRequest.Email req)
                                      (RegisterRequest.Password req)))
  = inr (LoginRequest.mk (RegisterRequest.Email req) (RegisterRequest.Password req)).
Proof.
  destruct body as [err | r]; [discriminate |]. intros B.
  cbn [binding.ShouldBindJSON_RegisterRequest] in B.
  apply result_inr in B as [E ->].
  unfold binding.RegisterRequest_errors in E. apply errors_nil in E.
  cbn [forallb snd] in E.
  cbn [binding.ShouldBindJSON_LoginRequest]. apply result_inr. split; [| reflexivity].
  unfold binding.LoginRequest_errors. apply errors_nil.
  cbn [forallb snd LoginRequest.Email LoginRequest.Password].
  destruct (binding.required (RegisterRequest.Email r)), (is_email _),
    (binding.required (RegisterRequest.Password r)), (binding.min_runes 6 _);
    try reflexivity; cbn in E; try discriminate E;
    rewrite ?andb_false_r in E; discriminate E.
Qed.

(** Whenever a registration is answered 201, a login with the email and
    the password of that registration, on the backends as the registration
    left them, is answered 200 and carries the same public user fields as
    the registration did: the request's email and username, role "user",
    active.  The login changes nothing. *)
Theorem Register_then_Login
    (h h' : Handler) (env env' : Env) (c c' : gin.Context)
    (body : binding.input RegisterRequest.t) (resp : APIResponse.t) :
  Register h env c body = (Some (http.StatusCreated, resp), h') ->
  exists req a a',
    binding.ShouldBindJSON_RegisterRequest body = inr req
    /\ APIResponse.Data resp = Some (DataAuth a)
    /\ Login h' env' c'
         (binding.Decoded (LoginRequest.mk (RegisterRequest.Email req)
                                           (RegisterRequest.Password req)))
       = (Some (http.StatusOK,
                SuccessResponse
                  (Get (localizer h') (gin.GetString "language" c') "login_successful")
                  (DataAuth a')), h')
    /\ AuthResponse.User a' = AuthResponse.User a
    /\ UserInfo.Email (AuthResponse.User a) = RegisterRequest.Email req
    /\ UserInfo.Username (AuthResponse.User a) = RegisterRequest.Username req
    /\ UserInfo.Role (AuthResponse.User a) = "user"
    /\ UserInfo.IsActive (AuthResponse.User a) = true.
Proof.
  intros R.
  destruct (Register_created_inv _ _ _ _ _ _ R)
    as (req & hashedPassword & token & expiresAt & B & Hh & [Hrel | Hdoc]).
  - destruct Hrel as (pg & e & Hpg & F & -> & ->).
    eexists req, _, _. split; [exact B |]. split; [reflexivity |].
    split.
    { unfold Login. rewrite (Register_valid_login _ _ B).
    cbn [postgresDB with_postgresDB LoginRequest.Email LoginRequest.Password].
    set (user := new_User req hashedPassword env (PostgresDB.next_id pg)).
    assert (Fu : gorm.First [gorm.Eq email (RegisterRequest.Email req)]
                   (PostgresDB.mk (PostgresDB.rows pg ++ [user])
                                  (PostgresDB.next_id pg + 1)
                                  (PostgresDB.unique_indexes pg)) = inr user).
    { unfold gorm.First, gorm.select. cbn [PostgresDB.rows].
      rewrite List.filter_app, filter_none.
      - cbn [List.filter app user new_User gorm.live User.DeletedAt forallb
             gorm.holds gorm.column User.Email].
        rewrite String.eqb_refl. reflexivity.
      - intros u Hu. destruct (gorm.live u) eqn:Hl; [| reflexivity].
        pose proof (First_none _ _ _ u F Hu Hl) as N.
        cbn [forallb gorm.holds gorm.column] in N |- *.
        destruct (String.eqb (User.Email u) (RegisterRequest.Email req));
          [discriminate N | reflexivity]. }
    rewrite Fu. cbn [user new_User User.Password].
    rewrite (VerifyPassword_own_hash _ _ _ Hh).
    unfold jwt.GenerateToken. reflexivity. }
    repeat split.
  - destruct Hdoc as (mg & e & Hpg & Hmg & F & -> & ->).
    eexists req, _, _. split; [exact B |]. split; [reflexivity |].
    split.
    { unfold Login. rewrite (Register_valid_login _ _ B).
    cbn [postgresDB mongoDB with_mongoDB LoginRequest.Email LoginRequest.Password].
    rewrite Hpg.
    set (user := new_UserMongo req hashedPassword env (new_oid env)).
    assert (Fu : mongo.FindOne (bson.Is email (RegisterRequest.Email req))
                   (MongoDB.mk (MongoDB.docs mg ++ [user])
                               (MongoDB.unique_indexes mg)) = inr user).
    { unfold mongo.FindOne. cbn [mongo.compiles negb MongoDB.docs].
      rewrite find_app_none; [reflexivity | |].
      - intros u Hu.
        assert (Cm : mongo.compiles
                       (bson.Or_ (bson.Is email (RegisterRequest.Email req))
                                 (bson.Is username (RegisterRequest.Username req)))
                     = true) by reflexivity.
        pose proof (FindOne_none _ _ _ u Cm F Hu) as N.
        cbn [mongo.selects mongo.key] in N |- *.
        destruct (String.eqb (UserMongo.Email u) (RegisterRequest.Email req));
          [discriminate N | reflexivity].
      - cbn [mongo.selects mongo.key user new_UserMongo UserMongo.Email].
        apply String.eqb_refl. }
    rewrite Fu. cbn [user new_UserMongo UserMongo.Password].
    rewrite (VerifyPassword_own_hash _ _ _ Hh).
    unfold jwt.GenerateToken. reflexivity. }
    repeat split.
Qed.

End Registration.


Lemma Register_then_Login_witness :
  exists a',
    Login (H := Plain.libs) (snd (carl_registers Sample.documents))
          Sample.env Sample.context
          (binding.Decoded (LoginRequest.mk "carl@example.com" "password123"))
    = (Some (200, APIResponse.mk true "Login successful" (Some (DataAuth a')) ""),
       snd (carl_registers Sample.documents))
    /\ UserInfo.Username (AuthResponse.User a') = "carl".
Proof.
  assert (E : carl_registers Sample.documents
              = (Some (http.StatusCreated,
                       envelope_of (carl_registers Sample.documents)),
                 snd (carl_registers Sample.documents)))
    by reflexivity.
  destruct (Register_then_Login (H := Plain.libs) _ _ _ Sample.env _ Sample.context
              _ _ E)
    as (req & a & a' & B & D & L & U & _ & Un & _).
  injection B as <-.
  exists a'. split; [exact L |]. rewrite U. exact Un.
Defined.

(** ** The token of a login *)

Section LoginToken.
  Context `{Libraries}.

(** A token as [GenerateToken] issues it passes the middleware from the
    third reading of the clock on and for 24 hours from the first. *)
Lemma GenerateToken_JWTAuth (vars : gmap string string) (secret : string)
    (userID : any) (email username role : string) (clk : Clock) (t : Time)
    (c0 : gin.Context) :
  config.JWTSecret (config.Load vars) = secret ->
  clk 2%nat <= t < clk 0%nat + 24 * hour ->
  middleware.JWTAuth vars t
    (gin.mkContext
       ("Bearer " ++ jwt.SignedString (claims_at userID email username role clk) secret)
       (gin.Keys c0))
  = middleware.Next
      (gin.mkContext
         ("Bearer " ++ jwt.SignedString (claims_at userID email username role clk) secret)
         (<["user_role" := AString role]>
            (<["user_username" := AString username]>
               (<["user_email" := AString email]>
                  (<["user_id" := json_Unmarshal (json_Marshal userID)]>
                     (gin.Keys c0)))))).
Proof.
  intros <- Ht.
  apply (JWTAuth_accepts vars t c0 (claims_at userID email username role clk)).
  unfold jwt.validate, jwt.expired, jwt.not_valid_yet, claims_at.
  cbn [jwt.unmarshal jwt.marshal jwt.ExpiresAt jwt.NotBefore jose.exp jose.nbf].
  destruct (Z.ltb_spec t (clk 0%nat + 24 * hour)); [| lia]. cbn [negb].
  destruct (Z.ltb_spec t (clk 2%nat)); [lia | reflexivity].
Qed.

Lemma GetString_claims (k : string) (c : gin.Context) (s : string) :
  gin.Get k c = Some (AString s) -> gin.GetString k c = s.
Proof. unfold gin.GetString. intros ->. reflexivity. Qed.



End LoginToken.


(** ** Roles *)



Section Roles.
  Context `{Libraries}.


End Roles.

(** ** Authentication and authorization in front of the handlers *)

Lemma prefix_split (p s : string) :
  String.prefix p s = true -> exists rest, s = p ++ rest.
Proof.
  revert s. induction p as [| a p IH]; intros s.
  - exists s. reflexivity.
  - destruct s as [| b s]; simpl; [discriminate |].
    destruct (ascii_dec a b) as [<- |]; [| discriminate].
    intros P. destruct (IH s P) as [rest ->]. exists rest. reflexivity.
Qed.

Lemma TrimPrefix_Bearer_inv (authHeader : string) :
  String.eqb (strings_.TrimPrefix authHeader "Bearer ") authHeader = false ->
  authHeader = "Bearer " ++ strings_.TrimPrefix authHeader "Bearer ".
Proof.
  intros E.
  destruct (strings_.HasPrefix authHeader "Bearer ") eqn:P.
  - destruct (prefix_split _ _ P) as [rest ->].
    rewrite TrimPrefix_Bearer. reflexivity.
  - unfold strings_.TrimPrefix in E. rewrite P, String.eqb_refl in E.
    discriminate E.
Qed.

Section Authorization.
  Context `{Libraries}.

(** The context [JWTAuth] hands on for the claims of a token. *)
Lemma JWTAuth_Next_inv (vars : gmap string string) (now : Time)
    (c c' : gin.Context) :
  middleware.JWTAuth vars now c = middleware.Next c' ->
  exists tokenString claims,
    gin.Authorization c = "Bearer " ++ tokenString
    /\ jwt.ValidateToken (config.JWTSecret (config.Load vars)) tokenString now
       = inr claims
    /\ c' = gin.Set_ "user_role" (AString (jwt.Role claims))
              (gin.Set_ "user_username" (AString (jwt.Username claims))
                 (gin.Set_ "user_email" (AString (jwt.Email claims))
                    (gin.Set_ "user_id" (jwt.UserID claims) c))).
Proof.
  unfold middleware.JWTAuth, gin.GetHeader_Authorization.
  destruct (String.eqb (gin.Authorization c) ""); [discriminate |].
  destruct (String.eqb (strings_.TrimPrefix (gin.Authorization c) "Bearer ") _) eqn:T;
    [discriminate |].
  destruct (jwt.ValidateToken _ _ now) as [e | claims] eqn:V; [discriminate |].
  intros E. injection E as <-.
  exists (strings_.TrimPrefix (gin.Authorization c) "Bearer "), claims.
  split; [apply TrimPrefix_Bearer_inv, T |]. split; [exact V | reflexivity].
Qed.

Lemma JWTAuth_Abort_401 (vars : gmap string string) (now : Time)
    (c : gin.Context) (r : Response) :
  middleware.JWTAuth vars now c = middleware.Abort r ->
  fst r = http.StatusUnauthorized.
Proof.
  unfold middleware.JWTAuth.
  destruct (String.eqb _ ""); [intros E; injection E as <-; reflexivity |].
  destruct (String.eqb _ _); [intros E; injection E as <-; reflexivity |].
  destruct (jwt.ValidateToken _ _ now); [| discriminate].
  intros E; injection E as <-; reflexivity.
Qed.

Lemma ValidateToken_inr (secret tokenString : string) (now : Time)
    (claims : jwt.Claims) :
  jwt.ValidateToken secret tokenString now = inr claims
  <-> exists t,
        parse_compact tokenString = Some t
        /\ jwt.is_hmac (jose.alg t) = true
        /\ jose.signature t = hmac (jose.alg t) secret (jose.payload t)
        /\ match jose.exp (jose.payload t) with
           | Some e => now < e
           | None => True
           end
        /\ match jose.nbf (jose.payload t) with
           | Some n => n <= now
           | None => True
           end
        /\ claims = jwt.unmarshal (jose.payload t).
Proof.
  unfold jwt.ValidateToken, jwt.ParseWithClaims, jwt.validate, jwt.expired,
    jwt.not_valid_yet.
  destruct (parse_compact tokenString) as [t |].
  2:{ split; [discriminate | intros (t & E & _); discriminate E]. }
  cbn [jwt.unmarshal jwt.ExpiresAt jwt.NotBefore].
  destruct (jwt.is_hmac (jose.alg t)) eqn:A; cbn [negb].
  2:{ split; [discriminate |].
      intros (t' & E & A' & _). injection E as <-. congruence. }
  destruct (String.eqb_spec (jose.signature t)
              (hmac (jose.alg t) secret (jose.payload t))) as [S | S]; cbn [negb].
  2:{ split; [discriminate |].
      intros (t' & E & _ & S' & _). injection E as <-. contradiction. }
  destruct (jose.exp (jose.payload t)) as [e |] eqn:Ee,
           (jose.nbf (jose.payload t)) as [n |] eqn:En;
    repeat match goal with
           | |- context [?a <? ?b] => destruct (Z.ltb_spec a b)
           end;
    cbn [negb];
    (split;
     [ intros E; try discriminate E; injection E as <-; exists t;
       rewrite ?Ee, ?En; repeat split; auto; lia
     | intros (t' & E & _ & _ & X & N & ->); injection E as <-;
       rewrite ?Ee, ?En in *; try reflexivity; exfalso; lia ]).
Qed.

(** A request passes [JWTAuth] exactly when its [Authorization] header is
    ["Bearer "] followed by a token that parses, names one of the
    algorithms HS256, HS384 and HS512, carries the HMAC of its payload
    under the configured secret, and is verified before its [exp] and not
    before its [nbf], where it has them.  The context then holds the four
    claims of the token.  Every other request is answered 401. *)
Theorem JWTAuth_passes_valid_bearer_tokens_only
    (vars : gmap string string) (now : Time) (c : gin.Context) :
  (forall c',
      middleware.JWTAuth vars now c = middleware.Next c'
      <-> exists tokenString t,
            gin.Authorization c = "Bearer " ++ tokenString
            /\ parse_compact tokenString = Some t
            /\ jwt.is_hmac (jose.alg t) = true
            /\ jose.signature t
               = hmac (jose.alg t) (config.JWTSecret (config.Load vars))
                      (jose.payload t)
            /\ match jose.exp (jose.payload t) with
               | Some e => now < e
               | None => True
               end
            /\ match jose.nbf (jose.payload t) with
               | Some n => n <= now
               | None => True
               end
            /\ c' = gin.Set_ "user_role" (AString (jose.role (jose.payload t)))
                      (gin.Set_ "user_username"
                         (AString (jose.username (jose.payload t)))
                         (gin.Set_ "user_email"
                            (AString (jose.email (jose.payload t)))
                            (gin.Set_ "user_id"
                               (json_Unmarshal (jose.user_id (jose.payload t)))
                               c))))
  /\ (forall r,
        middleware.JWTAuth vars now c = middleware.Abort r ->
        fst r = http.StatusUnauthorized).
Proof.
  split; [| intros r; apply JWTAuth_Abort_401].
  intros c'. split.
  - intros J. apply JWTAuth_Next_inv in J as (tokenString & claims & A & V & ->).
    apply ValidateToken_inr in V as (t & P & Ha & S & X & N & ->).
    exists tokenString, t. repeat split; assumption.
  - intros (tokenString & t & A & P & Ha & S & X & N & ->).
    assert (V : jwt.ValidateToken (config.JWTSecret (config.Load vars)) tokenString now
                = inr (jwt.unmarshal (jose.payload t))).
    { apply ValidateToken_inr. exists t. repeat split; assumption. }
    unfold middleware.JWTAuth, gin.GetHeader_Authorization.
    rewrite A, TrimPrefix_Bearer, Bearer_not_bare, V.
    change ("Bearer " ++ tokenString)
      with (String "B" ("earer " ++ tokenString)).
    reflexivity.
Qed.

Lemma RequireRole_of_role (requiredRoles : list string) (c : gin.Context)
    (role : string) :
  gin.Get "user_role" c = Some (AString role) ->
  middlewares.RequireRole requiredRoles c
  = Some (if existsb (String.eqb role) requiredRoles
          then middleware.Next c else middleware.Abort forbidden).
Proof.
  intros G. unfold middlewares.RequireRole. rewrite G.
  destruct (existsb _ _); reflexivity.
Qed.

Lemma JWTAuth_sets_role (vars : gmap string string) (now : Time)
    (c c' : gin.Context) :
  middleware.JWTAuth vars now c = middleware.Next c' ->
  gin.Get "user_role" c' = Some (AString (gin.GetString "user_role" c')).
Proof.
  intros J. apply JWTAuth_Next_inv in J as (tokenString & claims & _ & _ & ->).
  unfold gin.GetString, gin.Get, gin.Set_. cbn [gin.Keys].
  rewrite lookup_insert_eq. reflexivity.
Qed.

Lemma existsb_eqb_In (role : string) (l : list string) :
  existsb (String.eqb role) l = true <-> In role l.
Proof.
  rewrite existsb_exists. split.
  - intros (x & Hx & E). apply String.eqb_eq in E. subst. exact Hx.
  - intros Hin. exists role. split; [exact Hin | apply String.eqb_refl].
Qed.

(** [RequireRole] lets a request through only when the context holds, as a
    string under ["user_role"], one of the required roles, and hands the
    context on as it is.  Behind [JWTAuth] the role is always there and a
    string: the middleware does not panic and does not answer 401; it
    lets the request through when the role of the token is a required one
    and answers 403 otherwise. *)
Theorem RequireRole_lets_required_roles_through
    (requiredRoles : list string) (c : gin.Context) :
  (forall c',
      middlewares.RequireRole requiredRoles c = Some (middleware.Next c')
      <-> c' = c
          /\ exists role,
               gin.Get "user_role" c = Some (AString role) /\ In role requiredRoles)
  /\ (forall vars now c0,
        middleware.JWTAuth vars now c0 = middleware.Next c ->
        middlewares.RequireRole requiredRoles c
        = Some (if existsb (String.eqb (gin.GetString "user_role" c)) requiredRoles
                then middleware.Next c else middleware.Abort forbidden)).
Proof.
  split.
  - intros c'. unfold middlewares.RequireRole.
    destruct (gin.Get "user_role" c) as [[| role | |] |].
    1, 3, 4, 5:
      split; [discriminate | intros (_ & role' & E & _); discriminate E].
    destruct (existsb (String.eqb role) requiredRoles) eqn:R.
    + apply existsb_eqb_In in R. split.
      * intros E. injection E as <-. split; [reflexivity |]. exists role. tauto.
      * intros (-> & _). reflexivity.
    + split; [discriminate |].
      intros (_ & role' & E & Hin). injection E as <-.
      apply existsb_eqb_In in Hin. congruence.
  - intros vars now c0 J.
    apply RequireRole_of_role. apply (JWTAuth_sets_role _ _ _ _ J).
Qed.

(** The list of users is served to administrators only.  A request for it
    without a bearer token the middleware accepts is answered 401 by
    [JWTAuth]; one with an accepted token whose role is neither "admin"
    nor "superadmin" is answered 403 by [RequireRole]; in both cases the
    handler is not run and nothing changes.  Only a token of one of these
    two roles reaches [GetUsers].  The chain never panics.  In particular
    the token a registration or a login has issued to a user of another
    role, such as the role "user" every registration stores, is answered
    403 for as long as it is valid. *)
Theorem GET_users_admin_only
    (vars : gmap string string) (now : Time) (h : Handler) (c : gin.Context)
    (q : binding.input binding.Query) :
  match middleware.JWTAuth vars now c with
  | middleware.Abort r =>
      routes.GET_users vars now h c q = routes.Served (Some r, h)
      /\ fst r = http.StatusUnauthorized
  | middleware.Next c' =>
      routes.GET_users vars now h c q
      = if String.eqb (gin.GetString "user_role" c') "admin"
           || String.eqb (gin.GetString "user_role" c') "superadmin"
        then routes.Served (GetUsers h c' q)
        else routes.Served (Some forbidden, h)
  end
  /\ (forall userID email username role clk c0,
        gin.Authorization c
        = "Bearer " ++ jwt.SignedString (claims_at userID email username role clk)
                                        (config.JWTSecret (config.Load vars)) ->
        gin.Keys c = gin.Keys c0 ->
        clk 2%nat <= now < clk 0%nat + 24 * hour ->
        role <> "admin" -> role <> "superadmin" ->
        routes.GET_users vars now h c q = routes.Served (Some forbidden, h)).
Proof.
  assert (G : forall c',
             middleware.JWTAuth vars now c = middleware.Next c' ->
             routes.GET_users vars now h c q
             = if String.eqb (gin.GetString "user_role" c') "admin"
                  || String.eqb (gin.GetString "user_role" c') "superadmin"
               then routes.Served (GetUsers h c' q)
               else routes.Served (Some forbidden, h)).
  { intros c' J. unfold routes.GET_users, routes.adminUsers, routes.protected.
    rewrite J.
    rewrite (RequireRole_of_role _ _ _ (JWTAuth_sets_role _ _ _ _ J)).
    cbn [existsb]. rewrite orb_false_r.
    destruct (_ || _); reflexivity. }
  split.
  - destruct (middleware.JWTAuth vars now c) as [r | c'] eqn:J.
    + split; [| apply (JWTAuth_Abort_401 _ _ _ _ J)].
      unfold routes.GET_users, routes.adminUsers, routes.protected.
      rewrite J. reflexivity.
    + apply G. reflexivity.
  - intros userID email username role clk c0 A K Ht Na Ns.
    assert (J : middleware.JWTAuth vars now c
                = middleware.Next
                    (authenticated userID email username role
                       (gin.Authorization c) c0)).
    { destruct c as [a keys]. cbn [gin.Authorization gin.Keys] in A, K |- *.
      subst a keys.
      apply (GenerateToken_JWTAuth vars _ userID email username role clk now c0
               eq_refl Ht). }
    rewrite (G _ J).
    assert (R : gin.GetString "user_role"
                  (authenticated userID email username role (gin.Authorization c) c0)
                = role).
    { apply GetString_claims. unfold gin.Get, authenticated. cbn [gin.Keys].
      apply lookup_insert_eq. }
    rewrite R, (eqb_neq_false _ _ Na), (eqb_neq_false _ _ Ns). reflexivity.
Qed.

End Authorization.

(** ** The rate limiter *)

Section Limiter.
  Import middlewares.

Lemma RateLimiter_other (clients : gmap string client) (clientIP other : string)
    (now : time_.Instant) (c : gin.Context) :
  other <> clientIP ->
  fst (RateLimiter clients clientIP now c) !! other = clients !! other.
Proof.
  intros N. unfold RateLimiter.
  destruct (clients !! clientIP) as [cl |]; cbn [fst].
  - destruct (time_.After now (resetTime cl)); cbn [fst];
      [apply lookup_insert_ne; congruence |].
    destruct (limit <=? requests cl); cbn [fst];
      [reflexivity | apply lookup_insert_ne; congruence].
  - apply lookup_insert_ne. congruence.
Qed.

Lemma RateLimiter_same (clients1 clients2 : gmap string client)
    (clientIP : string) (now : time_.Instant) (c : gin.Context) :
  clients1 !! clientIP = clients2 !! clientIP ->
  snd (RateLimiter clients1 clientIP now c) = snd (RateLimiter clients2 clientIP now c)
  /\ fst (RateLimiter clients1 clientIP now c) !! clientIP
     = fst (RateLimiter clients2 clientIP now c) !! clientIP.
Proof.
  intros E. unfold RateLimiter. rewrite <- E.
  destruct (clients1 !! clientIP) as [cl |] eqn:L; cbn [fst snd].
  - destruct (time_.After now (resetTime cl)); cbn [fst snd];
      [rewrite !lookup_insert_eq; tauto |].
    destruct (limit <=? requests cl); cbn [fst snd];
      [rewrite L, <- E; tauto | rewrite !lookup_insert_eq; tauto].
  - rewrite !lookup_insert_eq. tauto.
Qed.

Lemma filter_from_cons {A : Type} (clientIP ip : string) (x : A)
    (l : list (string * A)) :
  List.filter (from clientIP) ((ip, x) :: l)
  = if String.eqb ip clientIP
    then (ip, x) :: List.filter (from clientIP) l
    else List.filter (from clientIP) l.
Proof. reflexivity. Qed.

Lemma serve_window (clients : gmap string client) (clientIP : string)
    (n : Z) (r : time_.Instant) (reqs : list (string * time_.Instant))
    (c : gin.Context) :
  clients !! clientIP = Some (mkClient n r) -> 1 <= n <= 100 ->
  (forall t, In (clientIP, t) reqs -> t <= r) ->
  List.map snd (List.filter (from clientIP) (fst (serve clients reqs c)))
  = List.map (fun k => n + Z.of_nat k <? 100)
             (List.seq 0 (List.length (List.filter (from clientIP) reqs))).
Proof.
  revert clients n. induction reqs as [| [ip t] rest IH]; intros clients n L Hn Ht;
    [reflexivity |].
  cbn [serve fst snd]. rewrite !filter_from_cons.
  destruct (String.eqb_spec ip clientIP) as [-> | N].
  - assert (Hr : t <= r) by (apply Ht; left; reflexivity).
    cbn [List.map snd List.length List.seq].
    rewrite <- List.seq_shift, List.map_map.
    unfold RateLimiter at 1 2. rewrite L. cbn [resetTime requests].
    unfold time_.After. destruct (Z.ltb_spec r t); [lia |].
    unfold limit. destruct (Z.leb_spec 100 n).
    + cbn [fst snd let_through].
      rewrite (IH clients n L Hn) by (intros t' Hin; apply Ht; right; exact Hin).
      f_equal; [destruct (Z.ltb_spec (n + Z.of_nat 0) 100); [lia | reflexivity] |].
      apply List.map_ext. intros k.
      destruct (Z.ltb_spec (n + Z.of_nat k) 100),
               (Z.ltb_spec (n + Z.of_nat (S k)) 100); try reflexivity; lia.
    + cbn [fst snd let_through].
      assert (W : wrap64 (n + 1) = n + 1).
      { apply wrap64_in_range. unfold int_min, int_max. lia. }
      rewrite W.
      rewrite (IH _ (n + 1)); [| apply lookup_insert_eq | lia
                               | intros t' Hin; apply Ht; right; exact Hin].
      f_equal; [destruct (Z.ltb_spec (n + Z.of_nat 0) 100); [reflexivity | lia] |].
      apply List.map_ext. intros k. f_equal. lia.
  - apply (IH _ n); [rewrite RateLimiter_other by congruence; exact L | exact Hn |].
    intros t' Hin. apply Ht. right. exact Hin.
Qed.

(** A window of one minute opens with the first request of a client, or
    with its first request after the last window has ended.  Of the
    requests of that client up to the end of the window, the end
    included, exactly the first hundred are let through and every later
    one is answered 429, however the requests of other clients fall in
    between. *)
Theorem RateLimiter_hundred_per_window
    (clients : gmap string client) (clientIP : string) (t0 : time_.Instant)
    (reqs : list (string * time_.Instant)) (c : gin.Context) :
  match clients !! clientIP with
  | Some cl => resetTime cl < t0
  | None => True
  end ->
  (forall t, In (clientIP, t) reqs -> t <= t0 + window) ->
  List.map snd
    (List.filter (from clientIP) (fst (serve clients ((clientIP, t0) :: reqs) c)))
  = List.map (fun k => (k <? 100)%nat)
      (List.seq 0 (List.length (List.filter (from clientIP) ((clientIP, t0) :: reqs)))).
Proof.
  intros Hopen Ht.
  cbn [serve fst snd]. rewrite !filter_from_cons.
  rewrite String.eqb_refl.
  cbn [List.map snd List.length List.seq].
  rewrite <- List.seq_shift, List.map_map.
  assert (Hs : RateLimiter clients clientIP t0 c
              = (<[clientIP := mkClient 1 (t0 + window)]> clients, middleware.Next c)).
  { unfold RateLimiter. destruct (clients !! clientIP) as [cl |]; [| reflexivity].
    unfold time_.After. destruct (Z.ltb_spec (resetTime cl) t0); [reflexivity | lia]. }
  rewrite Hs. cbn [fst snd let_through]. f_equal.
  rewrite (serve_window _ clientIP 1 (t0 + window));
    [| apply lookup_insert_eq | lia | exact Ht].
  apply List.map_ext. intros k.
  destruct (Z.ltb_spec (1 + Z.of_nat k) 100), (Nat.ltb_spec (S k) 100);
    try reflexivity; lia.
Qed.

(** The clients are limited independently.  Which requests of a client are
    let through depends on the entry of that client in the table and on its
    own requests only: it is the same from any two tables that agree on
    that client, and the same with and without the requests of the other
    clients in between. *)
Theorem RateLimiter_clients_independent
    (clients1 clients2 : gmap string client) (clientIP : string)
    (reqs : list (string * time_.Instant)) (c : gin.Context) :
  clients1 !! clientIP = clients2 !! clientIP ->
  List.filter (from clientIP) (fst (serve clients1 reqs c))
  = fst (serve clients2 (List.filter (from clientIP) reqs) c).
Proof.
  revert clients1 clients2.
  induction reqs as [| [ip t] rest IH]; intros clients1 clients2 E; [reflexivity |].
  cbn [serve fst snd]. rewrite !filter_from_cons.
  destruct (String.eqb_spec ip clientIP) as [-> | N].
  - cbn [serve fst snd].
    destruct (RateLimiter_same clients1 clients2 clientIP t c E) as [Eo El].
    rewrite Eo. f_equal. apply IH. exact El.
  - apply IH. rewrite RateLimiter_other by congruence. exact E.
Qed.

Lemma RateLimiter_dom (clients : gmap string client) (clientIP : string)
    (now : time_.Instant) (c : gin.Context) :
  dom (fst (RateLimiter clients clientIP now c)) = {[clientIP]} ∪ dom clients.
Proof.
  unfold RateLimiter.
  destruct (clients !! clientIP) as [cl |] eqn:L; cbn [fst].
  - destruct (time_.After now (resetTime cl)); cbn [fst]; [apply dom_insert_L |].
    destruct (limit <=? requests cl); cbn [fst]; [| apply dom_insert_L].
    symmetry. apply subseteq_union_1_L, singleton_subseteq_l.
    apply (elem_of_dom_2 _ _ _ L).
  - apply dom_insert_L.
Qed.

(** The table of the limiter only grows: after any trace it holds the
    clients it held before and every address that has sent a request, and
    no entry is ever removed. *)
Theorem RateLimiter_table_only_grows
    (clients : gmap string client) (reqs : list (string * time_.Instant))
    (c : gin.Context) :
  dom (snd (serve clients reqs c)) = dom clients ∪ list_to_set (List.map fst reqs).
Proof.
  revert clients. induction reqs as [| [ip t] rest IH]; intros clients.
  - cbn [serve snd List.map list_to_set]. rewrite (right_id_L ∅ (∪)). reflexivity.
  - cbn [serve fst snd List.map list_to_set]. rewrite IH, RateLimiter_dom.
    rewrite (comm_L (∪) {[ip]} (dom clients)), (assoc_L (∪)). reflexivity.
Qed.
End Limiter.

(** ** Localization *)

Lemma split_from_cons (sep : string) (skip : nat) (s : string) :
  exists piece pieces, golang.split_from sep skip s = piece :: pieces.
Proof.
  revert skip. induction s as [| c r IH]; intros skip;
    [do 2 eexists; reflexivity |].
  destruct skip as [| k]; cbn [golang.split_from]; [| apply IH].
  destruct (String.prefix sep (String c r)); [do 2 eexists; reflexivity |].
  destruct (IH 0%nat) as (piece & pieces & ->). do 2 eexists; reflexivity.
Qed.

Lemma prefix_single (ch c : ascii) (r : string) :
  String.prefix (String ch EmptyString) (String c r) = Ascii.eqb c ch.
Proof.
  simpl. destruct (ascii_dec ch c) as [<- | N].
  - rewrite Ascii.eqb_refl. destruct r; reflexivity.
  - symmetry. apply Ascii.eqb_neq. congruence.
Qed.

Lemma hd_Split (ch : ascii) (s : string) :
  hd "" (golang.Split s (String ch EmptyString)) = before ch s.
Proof.
  unfold golang.Split. induction s as [| c r IH]; [reflexivity |].
  cbn [golang.split_from before]. rewrite prefix_single.
  destruct (Ascii.eqb c ch); [reflexivity |].
  destruct (split_from_cons (String ch EmptyString) 0 r) as (piece & pieces & E).
  rewrite E in IH |- *. cbn [hd] in IH |- *. rewrite IH. reflexivity.
Qed.

Lemma Contains_single (ch : ascii) (s : string) :
  golang.Contains s (String ch EmptyString)
  = negb (String.eqb (before ch s) s).
Proof.
  unfold golang.Contains. induction s as [| c r IH]; [reflexivity |].
  cbn [golang.Index before]. rewrite prefix_single.
  destruct (Ascii.eqb c ch) eqn:E; [reflexivity |].
  cbn [String.eqb]. rewrite Ascii.eqb_refl, <- IH.
  destruct (golang.Index r (String ch EmptyString)); reflexivity.
Qed.

Lemma before_Split (ch : ascii) (s : string) :
  (if golang.Contains s (String ch EmptyString)
   then hd "" (golang.Split s (String ch EmptyString)) else s)
  = before ch s.
Proof.
  rewrite Contains_single, hd_Split.
  destruct (String.eqb_spec (before ch s) s) as [E | _]; [symmetry; exact E |].
  reflexivity.
Qed.

Lemma before_idempotent (ch : ascii) (s : string) :
  before ch (before ch s) = before ch s.
Proof.
  induction s as [| c r IH]; [reflexivity |]. cbn [before].
  destruct (Ascii.eqb c ch) eqn:E; [reflexivity |].
  cbn [before]. rewrite E, IH. reflexivity.
Qed.

Lemma before_rest (ch : ascii) (s : string) :
  exists rest,
    s = before ch s ++ rest
    /\ (rest = "" \/ exists r, rest = String ch r).
Proof.
  induction s as [| c r IH].
  - exists "". split; [reflexivity | left; reflexivity].
  - cbn [before]. destruct (Ascii.eqb_spec c ch) as [-> | N].
    + exists (String ch r). split; [reflexivity | right; eauto].
    + destruct IH as (rest & E & Hr). exists rest. split; [| exact Hr].
      change (String c (before ch r) ++ rest) with (String c (before ch r ++ rest)).
      rewrite <- E. reflexivity.
Qed.

Lemma before_before (a b : ascii) (s : string) :
  before a (before b (before a s)) = before b (before a s).
Proof.
  induction s as [| c r IH]; [reflexivity |]. cbn [before].
  destruct (Ascii.eqb c a) eqn:Ea; [reflexivity |]. cbn [before].
  destruct (Ascii.eqb c b) eqn:Eb; [reflexivity |]. cbn [before].
  rewrite Ea, IH. reflexivity.
Qed.

(** The language [Localization] stores for the handlers is the primary
    subtag of the first language range of what the request asks for (the
    header [Accept-Language], else the query parameter [lang], else the
    default language): the longest prefix without a comma and without a
    hyphen.  Parameters and letter case are kept as they are. *)
Theorem Localization_primary_subtag
    (localizer : Localizer) (acceptLanguage queryLang : string) (c : gin.Context) :
  exists lang rest,
    middlewares.Localization localizer acceptLanguage queryLang c
    = (gin.Set_ "language" (AString lang) c, localizer)
    /\ gin.GetString "language"
         (fst (middlewares.Localization localizer acceptLanguage queryLang c))
       = lang
    /\ requested_language localizer acceptLanguage queryLang = lang ++ rest
    /\ golang.Contains lang "," = false
    /\ golang.Contains lang "-" = false
    /\ (rest = "" \/ exists r, rest = String "," r \/ rest = String "-" r).
Proof.
  set (chosen := requested_language localizer acceptLanguage queryLang).
  assert (L : middlewares.Localization localizer acceptLanguage queryLang c
              = (gin.Set_ "language" (AString (before "-" (before "," chosen))) c,
                 localizer)).
  { unfold middlewares.Localization. cbv zeta.
    change "," with (String ","%char EmptyString).
    change "-" with (String "-"%char EmptyString).
    rewrite !before_Split. subst chosen. unfold requested_language.
    destruct (String.eqb acceptLanguage "") eqn:Ea; cbn [negb];
      [| rewrite Ea; reflexivity].
    destruct (String.eqb queryLang ""); reflexivity. }
  destruct (before_rest "," chosen) as (rest1 & E1 & R1).
  destruct (before_rest "-" (before "," chosen)) as (rest2 & E2 & R2).
  exists (before "-" (before "," chosen)), (rest2 ++ rest1).
  split; [exact L |]. split.
  { rewrite L. unfold gin.GetString, gin.Get, gin.Set_. cbn [fst gin.Keys].
    rewrite lookup_insert_eq. reflexivity. }
  split.
  { rewrite <- append_assoc, <- E2. exact E1. }
  split.
  { change "," with (String ","%char EmptyString).
    rewrite Contains_single, before_before, String.eqb_refl. reflexivity. }
  split.
  { change "-" with (String "-"%char EmptyString).
    rewrite Contains_single, before_idempotent, String.eqb_refl. reflexivity. }
  destruct R2 as [-> | (r & ->)].
  - destruct R1 as [-> | (r & ->)]; [left; reflexivity |].
    right. exists r. left. reflexivity.
  - right. exists (r ++ rest1). right. reflexivity.
Qed.

(** The header of a browser: the German of Germany first. *)
Example Localization_of_a_browser :
  gin.GetString "language"
    (fst (middlewares.Localization (NewLocalizer "en") "de-DE,de;q=0.9,en;q=0.8" ""
            Sample.context))
  = "de".
Proof. vm_compute. reflexivity. Qed.

(** ** The translation tables *)

Lemma translations_NewLocalizer (defaultLang lang : string) :
  translations (NewLocalizer defaultLang) !! lang
  = if String.eqb lang "de" then Some german
    else if String.eqb lang "ar" then Some arabic
    else if String.eqb lang "en" then Some english
    else None.
Proof.
  unfold NewLocalizer, loadTranslations. cbn [translations].
  destruct (String.eqb_spec lang "de") as [-> | Nd]; [apply lookup_insert_eq |].
  rewrite lookup_insert_ne by congruence.
  destruct (String.eqb_spec lang "ar") as [-> | Na]; [apply lookup_insert_eq |].
  rewrite lookup_insert_ne by congruence.
  destruct (String.eqb_spec lang "en") as [-> | Ne]; [apply lookup_insert_eq |].
  rewrite lookup_insert_ne by congruence. apply lookup_empty.
Qed.

Lemma untranslated (key : string) :
  ~ In key message_keys ->
  english !! key = None /\ arabic !! key = None /\ german !! key = None.
Proof.
  intros N. repeat split; apply not_elem_of_list_to_map_1;
    rewrite list_elem_of_In; exact N.
Qed.

(** The three tables translate the same sixteen keys, none to the empty
    string.  So for a key that is translated at all, [Get] answers in the
    language asked for whenever it is one of the three, and falls back to
    the default language only for a language that is none of them; for a
    key that is not translated it answers the key itself, in every
    language. *)
Theorem translations_complete (defaultLang lang key : string) :
  (In lang languages -> In key message_keys ->
   exists table text,
     translations (NewLocalizer defaultLang) !! lang = Some table
     /\ table !! key = Some text
     /\ text <> ""
     /\ Get (NewLocalizer defaultLang) lang key = text)
  /\ (~ In lang languages ->
      Get (NewLocalizer defaultLang) lang key
      = Get (NewLocalizer defaultLang) defaultLang key)
  /\ (~ In key message_keys -> Get (NewLocalizer defaultLang) lang key = key).
Proof.
  split; [| split].
  - intros Hl Hk. unfold Get. rewrite translations_NewLocalizer.
    unfold languages in Hl. cbn [In] in Hl.
    destruct Hl as [<- | [<- | [<- | []]]]; cbn [String.eqb Ascii.eqb Bool.eqb];
      cbn [mbind option_bind];
      unfold message_keys in Hk; cbn [In] in Hk;
      repeat (destruct Hk as [<- | Hk];
              [eexists _, _; split; [reflexivity |];
               split; [vm_compute; reflexivity |];
               split; [discriminate | vm_compute; reflexivity] |]);
      destruct Hk.
  - intros Hl. unfold Get at 1. rewrite translations_NewLocalizer.
    unfold languages in Hl. cbn [In] in Hl.
    destruct (String.eqb_spec lang "de") as [-> | _]; [tauto |].
    destruct (String.eqb_spec lang "ar") as [-> | _]; [tauto |].
    destruct (String.eqb_spec lang "en") as [-> | _]; [tauto |].
    cbn [mbind option_bind]. unfold Get. cbn [DefaultLanguage NewLocalizer loadTranslations].
    destruct (_ ≫= _) as [text |]; reflexivity.
  - intros Hk. destruct (untranslated key Hk) as (Ee & Ea & Ed).
    assert (T : forall l, translations (NewLocalizer defaultLang) !! l
                          ≫= (fun t => t !! key) = None).
    { intros l. rewrite translations_NewLocalizer.
      destruct (String.eqb l "de"); [exact Ed |].
      destruct (String.eqb l "ar"); [exact Ea |].
      destruct (String.eqb l "en"); [exact Ee | reflexivity]. }
    unfold Get. rewrite !T. reflexivity.
Qed.

(** ** Configuration *)

Lemma getEnv_Getenv (env : gmap string string) (key defaultValue : string) :
  config.getEnv env key defaultValue
  = if String.eqb (Getenv env key) "" then defaultValue else Getenv env key.
Proof.
  unfold config.getEnv, Getenv. destruct (env !! key); reflexivity.
Qed.

Lemma getEnv_nonempty (env : gmap string string) (key defaultValue : string) :
  defaultValue <> "" -> config.getEnv env key defaultValue <> "".
Proof.
  intros D. rewrite getEnv_Getenv.
  destruct (String.eqb_spec (Getenv env key) ""); assumption.
Qed.

(** No setting with a default can be made empty: a variable that is set to
    the empty string counts as not set, so every string of the
    configuration except [MONGODB_URI], whose default is empty, is never
    empty, whatever the environment. *)
Theorem Load_settings_never_empty (env : gmap string string) :
  let cfg := configuration.Load env in
  (forall key defaultValue,
      config.getEnv (<[key := ""]> env) key defaultValue = defaultValue
      /\ config.getEnv (delete key env) key defaultValue = defaultValue)
  /\ configuration.Environment cfg <> ""
  /\ configuration.Port cfg <> ""
  /\ configuration.LogLevel cfg <> ""
  /\ configuration.DefaultLanguage cfg <> ""
  /\ configuration.JWTSecret cfg <> ""
  /\ configuration.MongoDBConfig.Database (configuration.MongoDB cfg) <> ""
  /\ configuration.MongoDBConfig.Username (configuration.MongoDB cfg) <> ""
  /\ configuration.MongoDBConfig.Password (configuration.MongoDB cfg) <> ""
  /\ configuration.MongoDBConfig.Host (configuration.MongoDB cfg) <> ""
  /\ configuration.MongoDBConfig.Port (configuration.MongoDB cfg) <> ""
  /\ configuration.PostgresDBConfig.Host (configuration.PostgresDB cfg) <> ""
  /\ configuration.PostgresDBConfig.Port (configuration.PostgresDB cfg) <> ""
  /\ configuration.PostgresDBConfig.Username (configuration.PostgresDB cfg) <> ""
  /\ configuration.PostgresDBConfig.Password (configuration.PostgresDB cfg) <> ""
  /\ configuration.PostgresDBConfig.Database (configuration.PostgresDB cfg) <> ""
  /\ configuration.PostgresDBConfig.SSLMode (configuration.PostgresDB cfg) <> "".
Proof.
  cbv zeta. split.
  - intros key defaultValue. unfold config.getEnv.
    rewrite lookup_insert_eq, lookup_delete_eq. split; reflexivity.
  - unfold configuration.Load.
    cbn [configuration.Environment configuration.Port configuration.LogLevel
         configuration.DefaultLanguage configuration.JWTSecret
         configuration.MongoDB configuration.PostgresDB
         configuration.MongoDBConfig.Database configuration.MongoDBConfig.Username
         configuration.MongoDBConfig.Password configuration.MongoDBConfig.Host
         configuration.MongoDBConfig.Port configuration.PostgresDBConfig.Host
         configuration.PostgresDBConfig.Port configuration.PostgresDBConfig.Username
         configuration.PostgresDBConfig.Password
         configuration.PostgresDBConfig.Database
         configuration.PostgresDBConfig.SSLMode].
    repeat split; apply getEnv_nonempty; discriminate.
Qed.

(** The connection to the document store always carries credentials: with
    no [MONGODB_URI] in the environment, the address [NewMongoDB] connects
    to has a user and a password, each one the variable's value or, when
    that is empty or not set, the default; the address without credentials
    is never built from a loaded configuration. *)
Theorem NewMongoDB_uri_has_credentials (env : gmap string string) :
  let cfg := configuration.MongoDB (configuration.Load env) in
  connection.NewMongoDB_uri cfg
  = if negb (String.eqb (Getenv env "MONGODB_URI") "")
    then Getenv env "MONGODB_URI"
    else "mongodb://" ++ configuration.MongoDBConfig.Username cfg ++ ":"
           ++ configuration.MongoDBConfig.Password cfg ++ "@"
           ++ configuration.MongoDBConfig.Host cfg ++ ":"
           ++ configuration.MongoDBConfig.Port cfg.
Proof.
  cbv zeta. unfold connection.NewMongoDB_uri, configuration.Load.
  cbn [configuration.MongoDB configuration.MongoDBConfig.URI
       configuration.MongoDBConfig.Username configuration.MongoDBConfig.Password
       configuration.MongoDBConfig.Host configuration.MongoDBConfig.Port].
  rewrite (getEnv_Getenv env "MONGODB_URI").
  destruct (String.eqb_spec (Getenv env "MONGODB_URI") "") as [E | N].
  - cbn [negb].
    rewrite (eqb_neq_false _ _ (getEnv_nonempty env "MONGODB_USERNAME" "root"
                                  ltac:(discriminate))).
    rewrite (eqb_neq_false _ _ (getEnv_nonempty env "MONGODB_PASSWORD"
                                  "4jClkoZfth8Jq4lB" ltac:(discriminate))).
    reflexivity.
  - rewrite (eqb_neq_false _ _ N). reflexivity.
Qed.

Lemma lower_ascii_not_upper (c : ascii) :
  strings_.is_upper (strings_.lower_ascii c) = false.
Proof.
  destruct c as [[] [] [] [] [] [] [] []]; reflexivity.
Qed.

Lemma ToLower_idempotent (s : string) :
  strings_.ToLower (strings_.ToLower s) = strings_.ToLower s.
Proof.
  induction s as [| c r IH]; [reflexivity |]. cbn [strings_.ToLower].
  rewrite IH. f_equal. unfold strings_.lower_ascii at 1.
  rewrite lower_ascii_not_upper. reflexivity.
Qed.

Lemma ParseBool_ToLower (value : string) :
  golang.ParseBool (strings_.ToLower value)
  = if spells_true value then Some true
    else if spells_false value then Some false
    else None.
Proof.
  unfold golang.ParseBool, spells_true, spells_false. cbn [existsb].
  assert (U : forall s, strings_.ToLower s <> s ->
                        String.eqb (strings_.ToLower value) s = false).
  { intros s N. apply eqb_neq_false. intros E. apply N.
    rewrite <- E. apply ToLower_idempotent. }
  rewrite (U "T"), (U "TRUE"), (U "True"), (U "F"), (U "FALSE"), (U "False")
    by discriminate.
  rewrite !orb_false_r.
  destruct (String.eqb (strings_.ToLower value) "1"),
           (String.eqb (strings_.ToLower value) "t"),
           (String.eqb (strings_.ToLower value) "true"); reflexivity.
Qed.

(** A boolean setting is read without regard to letter case, and knows
    six spellings only: 1, t and true switch it on, 0, f and false switch
    it off, and everything else, the empty string, "yes" and "on" among
    it, leaves the default.  So the relational backend, off by default, is
    enabled by a spelling of true only, and the document store, on by
    default, is disabled by a spelling of false only. *)
Theorem getBoolEnv_spellings (env : gmap string string) :
  (forall key defaultValue,
      configuration.getBoolEnv env key defaultValue
      = if spells_true (Getenv env key) then true
        else if spells_false (Getenv env key) then false
        else defaultValue)
  /\ configuration.PostgresDBConfig.Enabled
       (configuration.PostgresDB (configuration.Load env))
     = spells_true (Getenv env "POSTGRES_ENABLED")
  /\ configuration.MongoDBConfig.Enabled
       (configuration.MongoDB (configuration.Load env))
     = negb (spells_false (Getenv env "MONGODB_ENABLED")).
Proof.
  assert (G : forall key defaultValue,
             configuration.getBoolEnv env key defaultValue
             = if spells_true (Getenv env key) then true
               else if spells_false (Getenv env key) then false
               else defaultValue).
  { intros key defaultValue. unfold configuration.getBoolEnv, Getenv.
    destruct (env !! key) as [value |]; [| reflexivity].
    destruct (String.eqb_spec value "") as [-> | N]; [reflexivity |].
    rewrite ParseBool_ToLower.
    destruct (spells_true value); [reflexivity |].
    destruct (spells_false value); reflexivity. }
  split; [exact G |]. unfold configuration.Load.
  cbn [configuration.PostgresDB configuration.MongoDB
       configuration.PostgresDBConfig.Enabled configuration.MongoDBConfig.Enabled].
  rewrite !G. split.
  - destruct (spells_true _); [reflexivity |]. destruct (spells_false _); reflexivity.
  - destruct (spells_true (Getenv env "MONGODB_ENABLED")) eqn:T;
      [| destruct (spells_false _); reflexivity].
    destruct (spells_false (Getenv env "MONGODB_ENABLED")) eqn:F; [| reflexivity].
    exfalso. unfold spells_true, spells_false in T, F. cbn [existsb] in T, F.
    rewrite !orb_false_r in T, F.
    destruct (String.eqb_spec (strings_.ToLower (Getenv env "MONGODB_ENABLED")) "1")
      as [E | _]; [rewrite E in F; discriminate F |].
    destruct (String.eqb_spec (strings_.ToLower (Getenv env "MONGODB_ENABLED")) "t")
      as [E | _]; [rewrite E in F; discriminate F |].
    destruct (String.eqb_spec (strings_.ToLower (Getenv env "MONGODB_ENABLED")) "true")
      as [E | _]; [rewrite E in F; discriminate F | discriminate T].
Qed.

Section DefaultSecret.
  Context `{Libraries}.

(** The secret has a default that is part of the code.  With [JWT_SECRET]
    empty or not set, a handler built in that environment signs with that
    default and the middleware verifies with it: every token signed with
    it passes while its claims are valid, with whatever identity and role
    it names, and one that names the role "admin" or "superadmin" is
    served the list of users. *)
Theorem default_secret_tokens_accepted
    (vars : gmap string string) (now : Time) (h : Handler) (c0 : gin.Context)
    (q : binding.input binding.Query) (claims : jwt.Claims) :
  Getenv vars "JWT_SECRET" = "" ->
  jwt.validate claims now = None ->
  let bearer := "Bearer " ++ jwt.SignedString claims default_secret in
  let c' := authenticated (jwt.UserID claims) (jwt.Email claims)
              (jwt.Username claims) (jwt.Role claims) bearer c0 in
  config.JWTSecret (config.Load vars) = default_secret
  /\ (forall mongoDB postgresDB localizer,
        jwtUtils_Secret
          (constructors.NewAuthHandler mongoDB postgresDB localizer vars)
        = default_secret)
  /\ middleware.JWTAuth vars now (gin.mkContext bearer (gin.Keys c0))
     = middleware.Next c'
  /\ (jwt.Role claims = "admin" \/ jwt.Role claims = "superadmin" ->
      routes.GET_users vars now h (gin.mkContext bearer (gin.Keys c0)) q
      = routes.Served (GetUsers h c' q)).
Proof.
  intros E V bearer c'.
  assert (S : config.JWTSecret (config.Load vars) = default_secret).
  { unfold config.Load. cbn [config.JWTSecret].
    rewrite getEnv_Getenv, E. reflexivity. }
  assert (J : middleware.JWTAuth vars now (gin.mkContext bearer (gin.Keys c0))
              = middleware.Next c').
  { subst bearer c'. rewrite <- S. apply (JWTAuth_accepts vars now c0 claims).
    destruct claims; exact V. }
  split; [exact S |]. split; [intros mongoDB postgresDB localizer; exact S |].
  split; [exact J |].
  intros R.
  unfold routes.GET_users, routes.adminUsers, routes.protected. rewrite J.
  rewrite (RequireRole_of_role _ c' (jwt.Role claims)).
  2:{ unfold gin.Get, c', authenticated. cbn [gin.Keys]. apply lookup_insert_eq. }
  destruct R as [-> | ->]; reflexivity.
Qed.

End DefaultSecret.

Lemma default_secret_tokens_accepted_witness :
  routes.GET_users (H := Plain.libs) no_variables 1700002000 Crowd.documents
    (gin.mkContext
       ("Bearer " ++ jwt.SignedString (H := Plain.libs) nobody default_secret)
       (gin.Keys Sample.context))
    Crowd.third_page_of_ten
  = routes.Served
      (GetUsers (H := Plain.libs) Crowd.documents
         (authenticated (AString "nobody") "" "nobody" "admin"
            ("Bearer " ++ jwt.SignedString (H := Plain.libs) nobody default_secret)
            Sample.context)
         Crowd.third_page_of_ten).
Proof.
  apply (proj2 (proj2 (proj2 (default_secret_tokens_accepted (H := Plain.libs)
                         no_variables 1700002000 Crowd.documents Sample.context
                         Crowd.third_page_of_ten nobody eq_refl eq_refl)))).
  left. reflexivity.
Defined.

(** ** Errors of the backends *)

Lemma find_none_of {A : Type} (f : A -> bool) (l : list A) :
  (forall x, In x l -> f x = false) -> List.find f l = None.
Proof.
  intros F. induction l as [| a r IH]; simpl; [reflexivity |].
  rewrite (F a (or_introl eq_refl)). apply IH.
  intros x Hx. apply F. right. exact Hx.
Qed.

Section BackendErrors.
  Context `{Libraries}.

(** An update for a caller whose identity matches no stored user: the
    relational variant answers 404; the document variant, whose update of
    no document is no error, fails to read the user back and answers 500.
    Nothing is stored in either. *)
Theorem UpdateProfile_unknown_user
    (h : Handler) (env : Env) (c : gin.Context)
    (body : binding.input UpdateUserRequest.t) (req : UpdateUserRequest.t) :
  binding.ShouldBindJSON_UpdateUserRequest body = inr req ->
  (forall pg,
      postgresDB h = Some pg ->
      (forall r, In r (PostgresDB.rows pg) -> gorm.live r = true ->
                 User.ID r <> fst (strconv.ParseUint (gin.GetString "user_id" c) 32)) ->
      UpdateProfile h env c body
      = (Some (http.StatusNotFound,
               ErrorResponse (Get (localizer h) (gin.GetString "language" c)
                                  "user_not_found") "User not found"), h))
  /\ (forall mg oid,
        postgresDB h = None -> mongoDB h = Some mg ->
        primitive.ObjectIDFromHex (gin.GetString "user_id" c) = Some oid ->
        (forall d, In d (MongoDB.docs mg) -> UserMongo.ID d <> oid) ->
        UpdateProfile h env c body
        = (Some (http.StatusInternalServerError,
                 ErrorResponse (Get (localizer h) (gin.GetString "language" c)
                                    "internal_error")
                               "Failed to retrieve updated profile"), h)).
Proof.
  intros B. split.
  - intros pg Hpg Hno.
    rewrite (UpdateProfile_relational h env c body req pg Hpg B).
    rewrite First_missing; [reflexivity |].
    intros u Hu Hl. cbn [forallb gorm.holds]. rewrite andb_true_r.
    apply Z.eqb_neq. apply Hno; assumption.
  - intros mg oid Hpg Hmg Hoid Hno.
    rewrite (UpdateProfile_documents h env c body req mg Hpg Hmg B), Hoid.
    assert (F : List.find (mongo.selects (bson.Id oid)) (MongoDB.docs mg) = None).
    { apply find_none_of. intros d Hd. cbn [mongo.selects].
      apply eqb_neq_false. apply Hno, Hd. }
    rewrite F. f_equal. destruct h. cbn in Hmg. subst. reflexivity.
Qed.

(** The search term and the sort clause go to the database as they are.
    In the document variant the term is a regular expression, and one
    that does not compile is answered 500; in the relational variant a
    sort clause the database refuses is answered 500. *)
Theorem GetUsers_refused_queries
    (h : Handler) (c : gin.Context) (q : binding.input binding.Query)
    (query : PaginationQuery.t) :
  binding.ShouldBindQuery q = inr query ->
  (forall mg,
      postgresDB h = None -> mongoDB h = Some mg ->
      PaginationQuery.Search query <> "" ->
      regex_i (PaginationQuery.Search query) = None ->
      GetUsers h c q
      = (Some (http.StatusInternalServerError,
               ErrorResponse (Get (localizer h) (gin.GetString "language" c)
                                  "internal_error") "Failed to count users"), h))
  /\ (forall pg,
        postgresDB h = Some pg ->
        matching_rows pg query = None ->
        GetUsers h c q
        = (Some (http.StatusInternalServerError,
                 ErrorResponse (Get (localizer h) (gin.GetString "language" c)
                                    "internal_error") "Failed to retrieve users"), h)).
Proof.
  intros B. split.
  - intros mg Hpg Hmg Hs Hr. unfold GetUsers. rewrite B, Hpg, Hmg.
    unfold nonempty. rewrite (eqb_neq_false _ _ Hs). cbn [negb].
    unfold mongo.CountDocuments. cbn [mongo.compiles]. rewrite Hr. reflexivity.
  - intros pg Hpg Hm. unfold GetUsers. rewrite B, Hpg.
    unfold matching_rows, search_conds, order_clause in Hm.
    unfold gorm.Find. rewrite Hm. reflexivity.
Qed.

(** With the unique indexes in place, the email or the username of a
    soft-deleted user cannot be registered again: the check for an
    existing user does not see the deleted row, the insert is refused by
    the index, and the answer is 500 instead of 409.  Nothing is stored. *)
Theorem Register_name_of_deleted_user
    (h : Handler) (env : Env) (c : gin.Context)
    (body : binding.input RegisterRequest.t) (req : RegisterRequest.t)
    (hashedPassword : string) (pg : PostgresDB.t) (r : User.t) :
  binding.ShouldBindJSON_RegisterRequest body = inr req ->
  HashPassword (RegisterRequest.Password req) (rand env) = inr hashedPassword ->
  postgresDB h = Some pg ->
  PostgresDB.unique_indexes pg = true ->
  In r (PostgresDB.rows pg) ->
  User.Email r = RegisterRequest.Email req
  \/ User.Username r = RegisterRequest.Username req ->
  (forall u, In u (PostgresDB.rows pg) -> gorm.live u = true ->
             User.Email u <> RegisterRequest.Email req
             /\ User.Username u <> RegisterRequest.Username req) ->
  gorm.live r = false
  /\ Register h env c body
     = (Some (http.StatusInternalServerError,
              ErrorResponse (Get (localizer h) (gin.GetString "language" c)
                                 "internal_error") "Failed to create user"), h).
Proof.
  intros B Hh Hpg Hu Hr Hsame Hlive.
  assert (Hd : gorm.live r = false).
  { destruct (gorm.live r) eqn:L; [| reflexivity].
    destruct (Hlive r Hr L) as [He Hn]. destruct Hsame; contradiction. }
  split; [exact Hd |].
  unfold Register. rewrite B, Hh, Hpg.
  rewrite First_missing.
  2:{ intros u Hin Hl. destruct (Hlive u Hin Hl) as [He Hn].
      cbn [forallb gorm.holds gorm.column].
      rewrite (eqb_neq_false _ _ He), (eqb_neq_false _ _ Hn). reflexivity. }
  unfold gorm.Create. cbn [User.ID gorm.set_ID].
  change (0 =? 0) with true. cbv iota.
  destruct (existsb (fun r0 => User.ID r0 =? PostgresDB.next_id pg)
                    (PostgresDB.rows pg)) eqn:K; [reflexivity |].
  rewrite Hu. cbn [andb].
  assert (Cl : existsb
                 (gorm.clashes
                    (User.mk (PostgresDB.next_id pg) (RegisterRequest.Email req)
                       (RegisterRequest.Username req) hashedPassword
                       (RegisterRequest.FirstName req) (RegisterRequest.LastName req)
                       "user" true (now env 0%nat) (now env 1%nat) None))
                 (PostgresDB.rows pg) = true).
  { apply existsb_exists. exists r. split; [exact Hr |].
    unfold gorm.clashes. cbn [User.ID User.Email User.Username].
    assert (Kr : (User.ID r =? PostgresDB.next_id pg) = false).
    { destruct (User.ID r =? PostgresDB.next_id pg) eqn:Er; [| reflexivity].
      assert (X : existsb (fun r0 => User.ID r0 =? PostgresDB.next_id pg)
                          (PostgresDB.rows pg) = true).
      { apply existsb_exists. exists r. tauto. }
      congruence. }
    rewrite Kr. cbn [negb andb].
    destruct Hsame as [-> | ->]; rewrite String.eqb_refl;
      [reflexivity | apply orb_true_r]. }
  unfold gorm.set_ID.
  cbn [User.ID User.Email User.Username User.Password
       User.FirstName User.LastName User.Role User.IsActive User.CreatedAt
       User.UpdatedAt User.DeletedAt].
  rewrite Cl. reflexivity.
Qed.

End BackendErrors.

Lemma UpdateProfile_unknown_user_witness :
  UpdateProfile (H := Plain.libs) Sample.documents Sample.env stranger_context
                (binding.Decoded smith)
  = (Some (500, APIResponse.mk false "Internal server error" None
                               "Failed to retrieve updated profile"),
     Sample.documents).
Proof.
  apply (proj2 (UpdateProfile_unknown_user (H := Plain.libs) Sample.documents
                  Sample.env stranger_context (binding.Decoded smith) smith eq_refl)
               Sample.collection "64b7f3a2c1d4e5f60718293f" eq_refl eq_refl eq_refl).
  intros d [<- | [<- | []]]; discriminate.
Defined.

Lemma GetUsers_refused_queries_witness :
  GetUsers (H := Plain.libs) Crowd.documents Sample.context search_parenthesis
  = (Some (500, APIResponse.mk false "Internal server error" None
                               "Failed to count users"), Crowd.documents).
Proof.
  apply (proj1 (GetUsers_refused_queries (H := Plain.libs) Crowd.documents
                  Sample.context search_parenthesis
                  (PaginationQuery.mk 1 10 "" "(") eq_refl)
               (MongoDB.mk Crowd.docs true) eq_refl eq_refl).
  - discriminate.
  - reflexivity.
Defined.

Lemma Register_name_of_deleted_user_witness :
  gorm.live carl_deleted = false
  /\ carl_registers archive
     = (Some (500, APIResponse.mk false "Internal server error" None
                                  "Failed to create user"), archive).
Proof.
  apply (Register_name_of_deleted_user (H := Plain.libs) archive Sample.env
           Sample.context (binding.Decoded carl) carl
           (Sample.password_hash "password123")
           (PostgresDB.mk [Sample.ann; Sample.bob; carl_deleted] 4 true)
           carl_deleted eq_refl eq_refl eq_refl eq_refl).
  - right. right. left. reflexivity.
  - left. reflexivity.
  - intros u [<- | [<- | [<- | []]]] L; try discriminate L; split; discriminate.
Defined.

(** ** Passwords *)

Lemma RuneCountInString_le_len (s : string) :
  utf8.RuneCountInString s <= Z.of_nat (String.length s).
Proof.
  induction s as [| c r IH]; cbn [utf8.RuneCountInString String.length]; [lia |].
  destruct (utf8.is_continuation c); lia.
Qed.

(** [IsValidPassword] counts bytes where the [binding] tag of the requests
    counts characters: every password the validation of a request accepts
    passes [IsValidPassword], and not the other way round. *)
Theorem IsValidPassword_weaker_than_binding :
  (forall password,
      binding.min_runes 6 password = true ->
      validation.IsValidPassword password = true)
  /\ validation.IsValidPassword three_letters = true
  /\ binding.min_runes 6 three_letters = false.
Proof.
  split; [| split; reflexivity].
  intros password. unfold binding.min_runes, validation.IsValidPassword.
  intros M. apply Z.leb_le in M. apply Z.leb_le.
  pose proof (RuneCountInString_le_len password). lia.
Qed.

Section Hashing.
  Context `{Libraries}.

(** [HashPassword] fails exactly for a password of more than 72 bytes and
    when no salt can be drawn or decoded.  The hash it returns otherwise
    has 60 characters: the prefix of version 2a and cost 10, the 22
    characters of the salt, and the digest of the password under that salt
    and cost. *)
Theorem HashPassword_format (password : string) (rand : option bcrypt.Salt) :
  match HashPassword password rand with
  | inr hashedPassword =>
      (String.length password <= 72)%nat
      /\ String.length hashedPassword = 60%nat
      /\ exists salt,
           rand = Some salt
           /\ salt_decodes (bcrypt.salt_chars salt) = true
           /\ hashedPassword
              = "$2a$10$" ++ bcrypt.salt_chars salt
                  ++ eks_blowfish bcrypt.DefaultCost (bcrypt.salt_chars salt)
                                  (bcrypt.key_stream password)
  | inl e =>
      ((72 < String.length password)%nat /\ e = bcrypt.ErrPasswordTooLong)
      \/ ((String.length password <= 72)%nat /\ rand = None /\ e = bcrypt.ErrRandom)
      \/ ((String.length password <= 72)%nat
          /\ exists salt,
               rand = Some salt
               /\ salt_decodes (bcrypt.salt_chars salt) = false
               /\ e = bcrypt.ErrSalt)
  end.
Proof.
  unfold HashPassword, bcrypt.GenerateFromPassword, bcrypt.newFromPassword,
    bcrypt.bcrypt.
  destruct (Nat.ltb_spec 72 (String.length password)) as [L | L];
    [left; split; [exact L | reflexivity] |].
  change (bcrypt.DefaultCost <? bcrypt.MinCost) with false. cbv iota.
  change (negb (bcrypt.checkCost bcrypt.DefaultCost)) with false. cbv iota.
  destruct rand as [salt |]; [| right; left; repeat split; exact L].
  destruct (salt_decodes (bcrypt.salt_chars salt)) eqn:D.
  - split; [exact L |]. rewrite Hash_default. split.
    + cbn [String.length]. rewrite length_append, (bcrypt.salt_size salt),
        eks_blowfish_length. reflexivity.
    + exists salt. repeat split. exact D.
  - right. right. split; [exact L |]. exists salt. repeat split. exact D.
Qed.

End Hashing.

(** ** Examples on the sample data *)

(** Ann, of role "user", logs in and asks for the list of users: 403.
    Bob, an administrator, is served it. *)
Example list_of_users_after_login :
  list_after_login ann_logs_in Sample.documents
  = routes.Served (Some forbidden, Sample.documents)
  /\ match list_after_login bob_logs_in Sample.documents with
     | routes.Served r => status_of r = Some 200
     | routes.Panic => False
     end.
Proof. split; vm_compute; reflexivity. Qed.

Lemma RateLimiter_hundred_per_window_witness :
  List.map snd
    (List.filter (from "10.0.0.1")
       (fst (serve ∅ (("10.0.0.1", 0) :: burst) Sample.context)))
  = (List.repeat true 100 ++ List.repeat false 21)%list.
Proof.
  refine (eq_trans
            (RateLimiter_hundred_per_window ∅ "10.0.0.1" 0 burst Sample.context I _)
            _).
  - intros t Hin. apply List.repeat_spec in Hin. injection Hin as ->.
    unfold middlewares.window, time_.Minute. lia.
  - vm_compute. reflexivity.
Defined.

Lemma RateLimiter_clients_independent_witness :
  List.filter (from "10.0.0.1") (fst (serve second_seen two_clients Sample.context))
  = fst (serve ∅ [("10.0.0.1", 0); ("10.0.0.1", 7)] Sample.context).
Proof.
  exact (RateLimiter_clients_independent second_seen ∅ "10.0.0.1" two_clients
           Sample.context eq_refl).
Defined.

(** ** The profile routes in the document variant *)

Section OwnProfile.
  Context `{Libraries}.

(** In the document variant the profile routes act on the caller's own
    document.  With the token a registration or a login has issued to a
    stored user, for as long as it is valid: the profile is answered 200
    with the public fields of that user; and an update that passes
    validation leaves every document of another user as it is, whatever
    it answers. *)
Theorem profile_routes_act_on_the_caller
    (vars : gmap string string) (t : Time) (h : Handler) (mg : MongoDB.t)
    (user : UserMongo.t) (clk : Clock) (c0 : gin.Context) :
  postgresDB h = None -> mongoDB h = Some mg ->
  document_key mg -> In user (MongoDB.docs mg) ->
  primitive.ObjectIDFromHex (UserMongo.ID user) = Some (UserMongo.ID user) ->
  config.JWTSecret (config.Load vars) = jwtUtils_Secret h ->
  clk 2%nat <= t < clk 0%nat + 24 * hour ->
  let c :=
    gin.mkContext
      ("Bearer " ++ jwt.SignedString
                      (claims_at (AString (primitive.Hex (UserMongo.ID user)))
                                 (UserMongo.Email user) (UserMongo.Username user)
                                 (UserMongo.Role user) clk)
                      (jwtUtils_Secret h))
      (gin.Keys c0) in
  routes.GET_users_profile vars t h c
  = routes.Served
      (Some (http.StatusOK,
             SuccessResponse "Profile retrieved successfully"
                             (DataUser (UserInfo_of_UserMongo user))), h)
  /\ (forall env body req,
        binding.ShouldBindJSON_UpdateUserRequest body = inr req ->
        exists r h' mg',
          routes.PUT_users_profile vars t h env c body = routes.Served (r, h')
          /\ mongoDB h' = Some mg'
          /\ forall d, In d (MongoDB.docs mg) ->
                       UserMongo.ID d <> UserMongo.ID user ->
                       In d (MongoDB.docs mg')).
Proof.
  intros Hpg Hmg Hkey Hin Hhex Hs Ht c.
  pose proof (GenerateToken_JWTAuth vars (jwtUtils_Secret h)
                (AString (primitive.Hex (UserMongo.ID user)))
                (UserMongo.Email user) (UserMongo.Username user)
                (UserMongo.Role user) clk t c0 Hs Ht) as J.
  fold c in J. cbn [json_Marshal json_Unmarshal] in J.
  match type of J with _ = middleware.Next ?x => set (c' := x) in J end.
  assert (Hid : gin.GetString "user_id" c' = UserMongo.ID user).
  { apply GetString_claims. unfold gin.Get, c'. cbn [gin.Keys].
    rewrite !lookup_insert_ne by discriminate. apply lookup_insert_eq. }
  split.
  - unfold routes.GET_users_profile, routes.protected. rewrite J.
    unfold GetProfile. rewrite Hpg, Hmg, Hid, Hhex.
    unfold mongo.FindOne. cbn [mongo.compiles negb].
    rewrite (find_by_key mg user Hkey Hin). reflexivity.
  - intros env body req B.
    unfold routes.PUT_users_profile, routes.protected. rewrite J.
    rewrite (UpdateProfile_documents h env c' body req mg Hpg Hmg B), Hid, Hhex.
    rewrite (find_by_key mg user Hkey Hin). cbv zeta.
    destruct (_ && _).
    + eexists _, h, mg. split; [reflexivity |]. split; [exact Hmg |]. tauto.
    + eexists _, _, _. split; [reflexivity |]. split; [reflexivity |].
      cbn [MongoDB.docs]. intros d Hd Hne.
      apply In_update_first_other; [exact Hd |].
      cbn [mongo.selects]. apply eqb_neq_false. exact Hne.
Qed.

End OwnProfile.

Lemma profile_routes_act_on_the_caller_witness :
  routes.GET_users_profile (H := Plain.libs) environment 1700002000 Sample.documents
    (gin.mkContext
       ("Bearer " ++ jwt.SignedString (H := Plain.libs)
                       (claims_at (AString "64b7f3a2c1d4e5f60718293a")
                                  "ann@example.com" "ann" "user" (now Sample.env))
                       "secret")
       (gin.Keys Sample.context))
  = routes.Served
      (Some (200,
             APIResponse.mk true "Profile retrieved successfully"
               (Some (DataUser (UserInfo_of_UserMongo Sample.ann_doc))) ""),
       Sample.documents).
Proof.
  refine (proj1 (profile_routes_act_on_the_caller (H := Plain.libs)
                   environment 1700002000 Sample.documents Sample.collection
                   Sample.ann_doc (now Sample.env) Sample.context
                   eq_refl eq_refl _ _ eq_refl eq_refl _)).
  - intros d1 d2 [<- | [<- | []]] [<- | [<- | []]] E;
      try reflexivity; discriminate E.
  - left. reflexivity.
  - unfold Sample.env, hour. cbn [now]. lia.
Defined.
